(** * live-hog-futures: the ledger of the trading server

    A shallow embedding of the account ledger of [server.js]:
    [normalizeUsers], [readUsers], [writeUsers], [handleRegister],
    [handleHistory], [ensureHoldingStructure] and [handleTrade].  The
    repository holds two versions of the server; they differ in the
    insights handler and in [aiInsights], which only the one followed here
    adds to a record.

    - JavaScript numbers are IEEE 754 binary64 values: Rocq's primitive
      [float], whose operations are specified by [FloatAxioms].
    - Everything the server reads comes out of [JSON.parse] (the users file
      and the request bodies), so data are JSON values: [JS.value].
    - An object used as a map is a [gmap string value].
    - Strings are held as UTF-8 bytes; [trim] and [toUpperCase] are those
      of Unicode.
    - The users file is the only state that survives a request.  It is
      written with [JSON.stringify] and read back with [JSON.parse];
      [JS.json] is the composition of the two.
    - The handlers of the ledger are given the name of the property in
      [users[username]]: the string that the user name of the session
      converts to.  The sessions, the other handlers and the router follow
      in [Api]; [Running] has the states the whole server comes to be in. *)

From Stdlib Require Import ZArith Floats String Ascii List Bool Lia.
From stdpp Require Import gmap strings pretty.

Set Warnings "-register-all,-inexact-float".

Local Open Scope Z_scope.

(** ** The JavaScript runtime *)

Module JS.

(** A value as [JSON.parse] builds it, and [undefined] for what is missing. *)
Inductive value : Type :=
| VUndef
| VNull
| VBool (b : bool)
| VNum (f : float)
| VStr (s : string)
| VArr (l : list value)
| VObj (o : gmap string value).

(** A call either returns or throws (a [TypeError] in every case below).
    [Unmodelled] marks the few behaviours left out: named properties set on
    an array, and [+] where it concatenates strings. *)
Inductive result (A : Type) : Type :=
| Ok (a : A)
| Throw
| Unmodelled.
Arguments Ok {A} a.
Arguments Throw {A}.
Arguments Unmodelled {A}.

Definition bind {A B} (r : result A) (k : A -> result B) : result B :=
  match r with
  | Ok a => k a
  | Throw => Throw
  | Unmodelled => Unmodelled
  end.

Notation "'let*' x ':=' r 'in' k" := (bind r (fun x => k))
  (at level 10, x pattern, r at level 100, k at level 200).

(** *** Numbers *)

(** [!x] for a number [x]: zero (of either sign) and NaN are falsy. *)
Definition falsy_num (f : float) : bool := (f =? 0)%float || is_nan f.

(** [x || 0] for a number [x]. *)
Definition or_zero (f : float) : float := if falsy_num f then 0%float else f.

(** The exact value [m * 10^e] ([m > 0]) rounded to the nearest binary64,
    ties to even, with sign [neg].  [binary_normalize] rounds an integer;
    [SFdiv] divides the two integer mantissas exactly and rounds once. *)
Definition of_decimal (neg : bool) (m : positive) (e : Z) : float :=
  if 0 <=? e then
    SF2Prim (binary_normalize prec emax
               (if neg then - (Z.pos m * 10 ^ e) else Z.pos m * 10 ^ e) 0 neg)
  else
    SF2Prim (SFdiv prec emax (S754_finite neg m 0)
               (S754_finite false (Z.to_pos (10 ^ (- e))) 0)).

Definition signed_zero (neg : bool) : float :=
  if neg then neg_zero else 0%float.

(** [Number(x.toFixed(2))].
    [toFixed]: NaN and the infinities print as themselves; from [10^21] on
    the number prints as [String(x)]; otherwise the digits are those of the
    integer [n] for which [n / 100 - |x|] is closest to zero, the larger [n]
    on a tie, with the sign of [x] in front.  [Number] then reads the
    decimal numeral back. *)
Definition toFixed2 (x : float) : float :=
  match Prim2SF x with
  | S754_nan => nan
  | S754_infinity _ => x
  | S754_zero _ => 0%float
  | S754_finite s m e =>
      if (1e21 <=? abs x)%float then x
      else
        let n :=
          if 0 <=? e then 100 * Z.pos m * 2 ^ e
          else (200 * Z.pos m + 2 ^ (- e)) / 2 ^ (1 - e) in
        match n with
        | Z.pos p => of_decimal s p (-2)
        | _ => signed_zero s
        end
  end.

(** *** Strings

    A string is a sequence of UTF-16 code units.  It is held as the bytes
    of its UTF-8 encoding, a surrogate without its partner as the three
    bytes of its own code, so that a string has one sequence of bytes and
    [===] on strings is equality. *)

Definition byte (a : ascii) : Z := Z.of_N (N_of_ascii a).

Definition of_byte (b : Z) : ascii := ascii_of_N (Z.to_N b).

(** A byte [10xxxxxx], which continues a character. *)
Definition continues (b : Z) : bool := (128 <=? b) && (b <=? 191).

(** The code point of a character of two, three and four bytes; the
    shortest encoding only. *)
Definition two (b0 b1 : Z) : option Z :=
  if (194 <=? b0) && (b0 <=? 223) && continues b1
  then Some ((b0 - 192) * 64 + (b1 - 128)) else None.

Definition three (b0 b1 b2 : Z) : option Z :=
  let c := (b0 - 224) * 4096 + (b1 - 128) * 64 + (b2 - 128) in
  if (224 <=? b0) && (b0 <=? 239) && continues b1 && continues b2 && (2048 <=? c)
  then Some c else None.

Definition four (b0 b1 b2 b3 : Z) : option Z :=
  let c := (b0 - 240) * 262144 + (b1 - 128) * 4096 + (b2 - 128) * 64 + (b3 - 128) in
  if (240 <=? b0) && (b0 <=? 244) && continues b1 && continues b2 && continues b3
     && (65536 <=? c) && (c <=? 1114111)
  then Some c else None.

(** A byte that begins no character is kept as it is: it stands for
    itself, above the code points. *)
Definition stray (b : Z) : Z := 1114112 + b.

(** The code points of a string. *)
Fixpoint decode (l : list ascii) : list Z :=
  match l with
  | [] => []
  | a0 :: l1 =>
      let b0 := byte a0 in
      if b0 <? 128 then b0 :: decode l1
      else
        match l1 with
        | a1 :: l2 =>
            match two b0 (byte a1) with
            | Some c => c :: decode l2
            | None =>
                match l2 with
                | a2 :: l3 =>
                    match three b0 (byte a1) (byte a2) with
                    | Some c => c :: decode l3
                    | None =>
                        match l3 with
                        | a3 :: l4 =>
                            match four b0 (byte a1) (byte a2) (byte a3) with
                            | Some c => c :: decode l4
                            | None => stray b0 :: decode l1
                            end
                        | [] => stray b0 :: decode l1
                        end
                    end
                | [] => stray b0 :: decode l1
                end
            end
        | [] => stray b0 :: decode l1
        end
  end.

(** The bytes of a code point. *)
Definition encode (c : Z) : list ascii :=
  if c <? 128 then [of_byte c]
  else if c <? 2048 then [of_byte (192 + c / 64); of_byte (128 + c mod 64)]
  else if c <? 65536 then
    [of_byte (224 + c / 4096); of_byte (128 + c / 64 mod 64); of_byte (128 + c mod 64)]
  else if c <? 1114112 then
    [of_byte (240 + c / 262144); of_byte (128 + c / 4096 mod 64);
     of_byte (128 + c / 64 mod 64); of_byte (128 + c mod 64)]
  else [of_byte (c - 1114112)].

Definition points (s : string) : list Z := decode (list_ascii_of_string s).

Definition text (l : list Z) : string :=
  string_of_list_ascii (flat_map encode l).

(** The code units of a code point: two surrogates above the basic
    plane. *)
Definition units (c : Z) : list Z :=
  if (65536 <=? c) && (c <? 1114112)
  then [55296 + (c - 65536) / 1024; 56320 + (c - 65536) mod 1024]
  else [c].

(** WhiteSpace and LineTerminator: what [trim] strips and [Number] skips. *)
Definition WhiteSpace : list Z :=
  [9; 10; 11; 12; 13; 32; 160; 5760; 8192; 8193; 8194; 8195; 8196; 8197; 8198;
   8199; 8200; 8201; 8202; 8232; 8233; 8239; 8287; 12288; 65279].

Definition is_ws (c : Z) : bool := existsb (Z.eqb c) WhiteSpace.

Fixpoint trim_start (l : list Z) : list Z :=
  match l with
  | c :: l' => if is_ws c then trim_start l' else l
  | [] => []
  end.

Definition trim_points (l : list Z) : list Z :=
  rev (trim_start (rev (trim_start l))).

Definition trim_list (l : list ascii) : list ascii :=
  flat_map encode (trim_points (decode l)).

(** [s.trim()] *)
Definition trim (s : string) : string :=
  string_of_list_ascii (trim_list (list_ascii_of_string s)).

(** The upper case of the Unicode Character Database (version 14).
    [simple_upper] has the code points of [UnicodeData.txt] that have an
    upper case of one code point: [(lo, hi, step, delta)] stands for
    [lo], [lo + step], ... up to [hi], each with its upper case [delta]
    further.  [special_upper] has those that [SpecialCasing.txt] maps to
    several, whatever the language and the context. *)
Definition simple_upper : list (Z * Z * Z * Z) :=
  [(97, 122, 1, -32); (181, 181, 1, 743); (224, 246, 1, -32);
    (248, 254, 1, -32); (255, 255, 1, 121); (257, 303, 2, -1);
    (305, 305, 1, -232); (307, 311, 2, -1); (314, 328, 2, -1);
    (331, 375, 2, -1); (378, 382, 2, -1); (383, 383, 1, -300);
    (384, 384, 1, 195); (387, 389, 2, -1); (392, 392, 1, -1);
    (396, 396, 1, -1); (402, 402, 1, -1); (405, 405, 1, 97);
    (409, 409, 1, -1); (410, 410, 1, 163); (414, 414, 1, 130);
    (417, 421, 2, -1); (424, 424, 1, -1); (429, 429, 1, -1);
    (432, 432, 1, -1); (436, 438, 2, -1); (441, 441, 1, -1);
    (445, 445, 1, -1); (447, 447, 1, 56); (453, 453, 1, -1);
    (454, 454, 1, -2); (456, 456, 1, -1); (457, 457, 1, -2);
    (459, 459, 1, -1); (460, 460, 1, -2); (462, 476, 2, -1);
    (477, 477, 1, -79); (479, 495, 2, -1); (498, 498, 1, -1);
    (499, 499, 1, -2); (501, 501, 1, -1); (505, 543, 2, -1);
    (547, 563, 2, -1); (572, 572, 1, -1); (575, 576, 1, 10815);
    (578, 578, 1, -1); (583, 591, 2, -1); (592, 592, 1, 10783);
    (593, 593, 1, 10780); (594, 594, 1, 10782); (595, 595, 1, -210);
    (596, 596, 1, -206); (598, 599, 1, -205); (601, 601, 1, -202);
    (603, 603, 1, -203); (604, 604, 1, 42319); (608, 608, 1, -205);
    (609, 609, 1, 42315); (611, 611, 1, -207); (613, 613, 1, 42280);
    (614, 614, 1, 42308); (616, 616, 1, -209); (617, 617, 1, -211);
    (618, 618, 1, 42308); (619, 619, 1, 10743); (620, 620, 1, 42305);
    (623, 623, 1, -211); (625, 625, 1, 10749); (626, 626, 1, -213);
    (629, 629, 1, -214); (637, 637, 1, 10727); (640, 640, 1, -218);
    (642, 642, 1, 42307); (643, 643, 1, -218); (647, 647, 1, 42282);
    (648, 648, 1, -218); (649, 649, 1, -69); (650, 651, 1, -217);
    (652, 652, 1, -71); (658, 658, 1, -219); (669, 669, 1, 42261);
    (670, 670, 1, 42258); (837, 837, 1, 84); (881, 883, 2, -1);
    (887, 887, 1, -1); (891, 893, 1, 130); (940, 940, 1, -38);
    (941, 943, 1, -37); (945, 961, 1, -32); (962, 962, 1, -31);
    (963, 971, 1, -32); (972, 972, 1, -64); (973, 974, 1, -63);
    (976, 976, 1, -62); (977, 977, 1, -57); (981, 981, 1, -47);
    (982, 982, 1, -54); (983, 983, 1, -8); (985, 1007, 2, -1);
    (1008, 1008, 1, -86); (1009, 1009, 1, -80); (1010, 1010, 1, 7);
    (1011, 1011, 1, -116); (1013, 1013, 1, -96); (1016, 1016, 1, -1);
    (1019, 1019, 1, -1); (1072, 1103, 1, -32); (1104, 1119, 1, -80);
    (1121, 1153, 2, -1); (1163, 1215, 2, -1); (1218, 1230, 2, -1);
    (1231, 1231, 1, -15); (1233, 1327, 2, -1); (1377, 1414, 1, -48);
    (4304, 4346, 1, 3008); (4349, 4351, 1, 3008); (5112, 5117, 1, -8);
    (7296, 7296, 1, -6254); (7297, 7297, 1, -6253); (7298, 7298, 1, -6244);
    (7299, 7300, 1, -6242); (7301, 7301, 1, -6243); (7302, 7302, 1, -6236);
    (7303, 7303, 1, -6181); (7304, 7304, 1, 35266); (7545, 7545, 1, 35332);
    (7549, 7549, 1, 3814); (7566, 7566, 1, 35384); (7681, 7829, 2, -1);
    (7835, 7835, 1, -59); (7841, 7935, 2, -1); (7936, 7943, 1, 8);
    (7952, 7957, 1, 8); (7968, 7975, 1, 8); (7984, 7991, 1, 8);
    (8000, 8005, 1, 8); (8017, 8023, 2, 8); (8032, 8039, 1, 8);
    (8048, 8049, 1, 74); (8050, 8053, 1, 86); (8054, 8055, 1, 100);
    (8056, 8057, 1, 128); (8058, 8059, 1, 112); (8060, 8061, 1, 126);
    (8112, 8113, 1, 8); (8126, 8126, 1, -7205); (8144, 8145, 1, 8);
    (8160, 8161, 1, 8); (8165, 8165, 1, 7); (8526, 8526, 1, -28);
    (8560, 8575, 1, -16); (8580, 8580, 1, -1); (9424, 9449, 1, -26);
    (11312, 11359, 1, -48); (11361, 11361, 1, -1); (11365, 11365, 1, -10795);
    (11366, 11366, 1, -10792); (11368, 11372, 2, -1); (11379, 11379, 1, -1);
    (11382, 11382, 1, -1); (11393, 11491, 2, -1); (11500, 11502, 2, -1);
    (11507, 11507, 1, -1); (11520, 11557, 1, -7264); (11559, 11559, 1, -7264);
    (11565, 11565, 1, -7264); (42561, 42605, 2, -1); (42625, 42651, 2, -1);
    (42787, 42799, 2, -1); (42803, 42863, 2, -1); (42874, 42876, 2, -1);
    (42879, 42887, 2, -1); (42892, 42892, 1, -1); (42897, 42899, 2, -1);
    (42900, 42900, 1, 48); (42903, 42921, 2, -1); (42933, 42947, 2, -1);
    (42952, 42954, 2, -1); (42961, 42961, 1, -1); (42967, 42969, 2, -1);
    (42998, 42998, 1, -1); (43859, 43859, 1, -928); (43888, 43967, 1, -38864);
    (65345, 65370, 1, -32); (66600, 66639, 1, -40); (66776, 66811, 1, -40);
    (66967, 66977, 1, -39); (66979, 66993, 1, -39); (66995, 67001, 1, -39);
    (67003, 67004, 1, -39); (68800, 68850, 1, -64); (71872, 71903, 1, -32);
    (93792, 93823, 1, -32); (125218, 125251, 1, -34)].

Definition special_upper : list (Z * list Z) :=
  [(223, [83; 83]); (329, [700; 78]); (496, [74; 780]);
    (912, [921; 776; 769]); (944, [933; 776; 769]); (1415, [1333; 1362]);
    (7830, [72; 817]); (7831, [84; 776]); (7832, [87; 778]);
    (7833, [89; 778]); (7834, [65; 702]); (8016, [933; 787]);
    (8018, [933; 787; 768]); (8020, [933; 787; 769]); (8022, [933; 787; 834]);
    (8064, [7944; 921]); (8065, [7945; 921]); (8066, [7946; 921]);
    (8067, [7947; 921]); (8068, [7948; 921]); (8069, [7949; 921]);
    (8070, [7950; 921]); (8071, [7951; 921]); (8072, [7944; 921]);
    (8073, [7945; 921]); (8074, [7946; 921]); (8075, [7947; 921]);
    (8076, [7948; 921]); (8077, [7949; 921]); (8078, [7950; 921]);
    (8079, [7951; 921]); (8080, [7976; 921]); (8081, [7977; 921]);
    (8082, [7978; 921]); (8083, [7979; 921]); (8084, [7980; 921]);
    (8085, [7981; 921]); (8086, [7982; 921]); (8087, [7983; 921]);
    (8088, [7976; 921]); (8089, [7977; 921]); (8090, [7978; 921]);
    (8091, [7979; 921]); (8092, [7980; 921]); (8093, [7981; 921]);
    (8094, [7982; 921]); (8095, [7983; 921]); (8096, [8040; 921]);
    (8097, [8041; 921]); (8098, [8042; 921]); (8099, [8043; 921]);
    (8100, [8044; 921]); (8101, [8045; 921]); (8102, [8046; 921]);
    (8103, [8047; 921]); (8104, [8040; 921]); (8105, [8041; 921]);
    (8106, [8042; 921]); (8107, [8043; 921]); (8108, [8044; 921]);
    (8109, [8045; 921]); (8110, [8046; 921]); (8111, [8047; 921]);
    (8114, [8122; 921]); (8115, [913; 921]); (8116, [902; 921]);
    (8118, [913; 834]); (8119, [913; 834; 921]); (8124, [913; 921]);
    (8130, [8138; 921]); (8131, [919; 921]); (8132, [905; 921]);
    (8134, [919; 834]); (8135, [919; 834; 921]); (8140, [919; 921]);
    (8146, [921; 776; 768]); (8147, [921; 776; 769]); (8150, [921; 834]);
    (8151, [921; 776; 834]); (8162, [933; 776; 768]); (8163, [933; 776; 769]);
    (8164, [929; 787]); (8166, [933; 834]); (8167, [933; 776; 834]);
    (8178, [8186; 921]); (8179, [937; 921]); (8180, [911; 921]);
    (8182, [937; 834]); (8183, [937; 834; 921]); (8188, [937; 921]);
    (64256, [70; 70]); (64257, [70; 73]); (64258, [70; 76]);
    (64259, [70; 70; 73]); (64260, [70; 70; 76]); (64261, [83; 84]);
    (64262, [83; 84]); (64275, [1348; 1350]); (64276, [1348; 1333]);
    (64277, [1348; 1339]); (64278, [1358; 1350]); (64279, [1348; 1341])].

(** [toUpperCase] of one code point: the mapping of [SpecialCasing.txt]
    where there is one, else that of [UnicodeData.txt]. *)
Definition upper (c : Z) : list Z :=
  if c <? 128 then [if (97 <=? c) && (c <=? 122) then c - 32 else c]
  else
    match List.find (fun e => fst e =? c) special_upper with
    | Some e => snd e
    | None =>
        match List.find (fun '(lo, hi, step, _) =>
                           (lo <=? c) && (c <=? hi) && ((c - lo) mod step =? 0))
                        simple_upper with
        | Some (_, _, _, delta) => [c + delta]
        | None => [c]
        end
    end.

(** [s.toUpperCase()] *)
Definition toUpperCase (s : string) : string :=
  text (flat_map upper (points s)).

(** *** [Number(s)] for a string: the StringNumericLiteral grammar *)

Definition digit_val (base : Z) (a : ascii) : option Z :=
  let n := Z.of_nat (nat_of_ascii a) in
  let d :=
    if (48 <=? n) && (n <=? 57) then n - 48
    else if (97 <=? n) && (n <=? 102) then n - 87
    else if (65 <=? n) && (n <=? 70) then n - 55
    else 16 in
  if d <? base then Some d else None.

(** Reads digits in [base] as long as there are some: the value, how many
    were read, and the rest. *)
Fixpoint read_digits (base : Z) (l : list ascii) (acc : Z) (count : Z)
  : Z * Z * list ascii :=
  match l with
  | a :: l' =>
      match digit_val base a with
      | Some d => read_digits base l' (acc * base + d) (count + 1)
      | None => (acc, count, l)
      end
  | [] => (acc, count, [])
  end.

Definition is_exp_mark (a : ascii) : bool :=
  let n := Z.of_nat (nat_of_ascii a) in (n =? 101) || (n =? 69).

(** StrUnsignedDecimalLiteral without [Infinity]: mantissa and exponent of
    ten, or [None] where the text is no numeral. *)
Definition read_decimal (l : list ascii) : option (Z * Z) :=
  let '(ip, ni, r1) := read_digits 10 l 0 0 in
  let '(m, nf, r2) :=
    match r1 with
    | "."%char :: r => read_digits 10 r ip 0
    | _ => (ip, 0, r1)
    end in
  if ni + nf =? 0 then None
  else
    match r2 with
    | [] => Some (m, - nf)
    | a :: r =>
        if is_exp_mark a then
          let '(sgn, r') :=
            match r with
            | "+"%char :: r' => (1, r')
            | "-"%char :: r' => (-1, r')
            | _ => (1, r)
            end in
          let '(ex, ne, r3) := read_digits 10 r' 0 0 in
          match r3 with
          | [] => if ne =? 0 then None else Some (m, sgn * ex - nf)
          | _ => None
          end
        else None
    end.

Definition of_signed_decimal (neg : bool) (me : option (Z * Z)) : float :=
  match me with
  | Some (Z.pos m, e) => of_decimal neg m e
  | Some _ => signed_zero neg
  | None => nan
  end.

(** NonDecimalIntegerLiteral: the digits after [0x], [0o] or [0b]. *)
Definition of_radix (base : Z) (l : list ascii) : float :=
  match read_digits base l 0 0 with
  | (n, count, []) =>
      if count =? 0 then nan
      else match n with
           | Z.pos m => of_decimal false m 0
           | _ => 0%float
           end
  | _ => nan
  end.

Definition radix_of_mark (a : ascii) : option Z :=
  let n := Z.of_nat (nat_of_ascii a) in
  if (n =? 120) || (n =? 88) then Some 16
  else if (n =? 111) || (n =? 79) then Some 8
  else if (n =? 98) || (n =? 66) then Some 2
  else None.

Definition Infinity_text : list ascii := list_ascii_of_string "Infinity".

Definition StrDecimalLiteral (neg : bool) (l : list ascii) : float :=
  if decide (l = Infinity_text) then (if neg then neg_infinity else infinity)
  else of_signed_decimal neg (read_decimal l).

Definition StringToNumber (s : string) : float :=
  match trim_list (list_ascii_of_string s) with
  | [] => 0%float
  | "0"%char :: a :: r =>
      match radix_of_mark a with
      | Some base => of_radix base r
      | None => StrDecimalLiteral false ("0"%char :: a :: r)
      end
  | "+"%char :: r => StrDecimalLiteral false r
  | "-"%char :: r => StrDecimalLiteral true r
  | l => StrDecimalLiteral false l
  end.

(** *** Values *)

(** [!!v] *)
Definition truthy (v : value) : bool :=
  match v with
  | VUndef | VNull => false
  | VBool b => b
  | VNum f => negb (falsy_num f)
  | VStr s => negb (bool_decide (s = ""))
  | VArr _ | VObj _ => true
  end.

(** [v] is [null] or [undefined]: reading a property of it throws. *)
Definition nullish (v : value) : bool :=
  match v with VUndef | VNull => true | _ => false end.

(** [typeof v === 'number'] *)
Definition is_number (v : value) : bool :=
  match v with VNum _ => true | _ => false end.

(** [Array.isArray(v)] *)
Definition isArray (v : value) : bool :=
  match v with VArr _ => true | _ => false end.

(** [v === s] for a string [s] *)
Definition is_string (s : string) (v : value) : bool :=
  match v with VStr s' => bool_decide (s' = s) | _ => false end.

(** [String(v)] and [Number(v)] throw a TypeError.  An object converts
    through its [toString]; where it has a property of that name, which is
    no function in what [JSON.parse] builds, there is none to call, and
    [valueOf], inherited or not, gives no primitive.  An array converts by
    joining its elements, each but [null] converted in turn. *)
Fixpoint unprintable (v : value) : bool :=
  match v with
  | VObj o => bool_decide (is_Some (o !! "toString"))
  | VArr l => existsb unprintable l
  | _ => false
  end.

(** The number that [Number(v)] returns, where it returns.  An array is
    first joined with commas into a string: the
    empty array gives the empty string, a single element its own text
    ([null] and [undefined] print as nothing, a number reads back as itself
    but for the sign of zero), and the comma of a longer array is no part of
    a numeral.  An object prints as [[object Object]]. *)
Fixpoint ToNumber (v : value) : float :=
  match v with
  | VUndef => nan
  | VNull => 0%float
  | VBool b => if b then 1%float else 0%float
  | VNum f => f
  | VStr s => StringToNumber s
  | VArr [] => 0%float
  | VArr [x] =>
      match x with
      | VUndef | VNull => 0%float
      | VBool _ => nan
      | VNum f => if is_zero f then 0%float else f
      | _ => ToNumber x
      end
  | VArr _ => nan
  | VObj _ => nan
  end.

(** [Number(v)], and the conversion to a number of [v < x] and [v - x]. *)
Definition Number (v : value) : result float :=
  if unprintable v then Throw else Ok (ToNumber v).

(** [String(x)] for a number [x] (Number::toString). *)

(** [num / den < 10 ^ n] *)
Definition below (num den n : Z) : bool :=
  if 0 <=? n then num <? den * 10 ^ n else num * 10 ^ (- n) <? den.

(** The [n] with [10 ^ (n - 1) <= num / den < 10 ^ n]: it is looked for
    around the estimate that the binary logarithms give. *)
Definition exponent10 (num den : Z) : Z :=
  let est := (Z.log2 num - Z.log2 den) * 30103 / 100000 in
  default est (List.find (below num den) (List.map (Z.add est) [-2; -1; 0; 1; 2; 3; 4])).

(** The integers next to [num * 10 ^ (k - n) / den], the nearer first (the
    even one first where they are as near). *)
Definition nearest (num den k n : Z) : list Z :=
  let P := if 0 <=? k - n then num * 10 ^ (k - n) else num in
  let Q := if 0 <=? k - n then den else den * 10 ^ (n - k) in
  let s := P / Q in
  let r := P mod Q in
  if r =? 0 then [s]
  else if 2 * r <? Q then [s; s + 1]
  else if Q <? 2 * r then [s + 1; s]
  else if Z.even s then [s; s + 1] else [s + 1; s].

(** [s] and [n] for [k] digits, if [s * 10 ^ (n - k)] reads as [x]. *)
Definition with_digits (x : float) (num den n k : Z) : option (Z * Z) :=
  List.find (fun '(s, n') =>
               (10 ^ (k - 1) <=? s) && (s <? 10 ^ k)
               && (of_decimal false (Z.to_pos s) (n' - k) =? x)%float)
            (List.map (fun s => if s =? 10 ^ k then (10 ^ (k - 1), n + 1) else (s, n))
                      (nearest num den k n)).

(** The digits [s], their number [k] and the exponent [n] of a number
    [m * 2 ^ e]: as few digits as read back as the number, and the nearest
    of these. *)
Definition shortest (x : float) (m : positive) (e : Z) : Z * Z * Z :=
  let num := if 0 <=? e then Z.pos m * 2 ^ e else Z.pos m in
  let den := if 0 <=? e then 1 else 2 ^ (- e) in
  let n := exponent10 num den in
  let fix go (ks : list Z) : Z * Z * Z :=
    match ks with
    | k :: ks' =>
        match with_digits x num den n k with
        | Some (s, n') => (s, k, n')
        | None => go ks'
        end
    | [] => (0, 1, 0)
    end in
  go (List.map Z.of_nat (seq 1 17)).

Definition zeros (n : Z) : string :=
  string_of_list_ascii (repeat "0"%char (Z.to_nat n)).

Definition take (n : Z) (s : string) : string :=
  string_of_list_ascii (firstn (Z.to_nat n) (list_ascii_of_string s)).

Definition drop (n : Z) (s : string) : string :=
  string_of_list_ascii (skipn (Z.to_nat n) (list_ascii_of_string s)).

Definition positive_text (x : float) (m : positive) (e : Z) : string :=
  let '(s, k, n) := shortest x m e in
  let digits := pretty s in
  if (k <=? n) && (n <=? 21) then digits +:+ zeros (n - k)
  else if (0 <? n) && (n <=? 21) then take n digits +:+ "." +:+ drop n digits
  else if (-6 <? n) && (n <=? 0) then "0." +:+ zeros (- n) +:+ digits
  else
    let exponent := (if n - 1 <? 0 then "-" else "+") +:+ pretty (Z.abs (n - 1)) in
    if k =? 1 then digits +:+ "e" +:+ exponent
    else take 1 digits +:+ "." +:+ drop 1 digits +:+ "e" +:+ exponent.

Definition Number_toString (x : float) : string :=
  match Prim2SF x with
  | S754_nan => "NaN"
  | S754_zero _ => "0"
  | S754_infinity s => if s then "-Infinity" else "Infinity"
  | S754_finite s m e =>
      (if s then "-" else "") +:+ positive_text (abs x) m e
  end.

(** The string that [String(v)] returns, where it returns. *)
Fixpoint text_of (v : value) : string :=
  match v with
  | VUndef => "undefined"
  | VNull => "null"
  | VBool b => if b then "true" else "false"
  | VNum f => Number_toString f
  | VStr s => s
  | VArr l =>
      String.concat ","
        (List.map (fun x => match x with
                            | VUndef | VNull => ""
                            | _ => text_of x
                            end) l)
  | VObj _ => "[object Object]"
  end.

(** [String(v)], and the property name that [v] stands for in [o[v]]. *)
Definition ToString (v : value) : result string :=
  if unprintable v then Throw else Ok (text_of v).

(** The decimal of a natural number as a float: an array's [length]. *)
Definition of_nat (n : nat) : float :=
  match Z.of_nat n with
  | Z.pos p => of_decimal false p 0
  | _ => 0%float
  end.

(** The position that the property name [k] is the canonical numeral of. *)
Definition index_of (k : string) (len : nat) : option nat :=
  List.find (fun i => bool_decide (pretty i = k)) (seq 0 len).

(** The code units of a string, each a string of its own: [s[i]]. *)
Definition chars (s : string) : list value :=
  List.map (fun u => VStr (text [u])) (flat_map units (points s)).

Definition lookup_index (l : list value) (k : string) : value :=
  if bool_decide (k = "length") then VNum (of_nat (length l))
  else match index_of k (length l) with
       | Some i => nth i l VUndef
       | None => VUndef
       end.

(** [v[k]] where [v] is neither [null] nor [undefined], for a name [k] that
    no prototype defines (the server reads [type], [quantity], [price],
    [symbol], [holdings], [position], [averagePrice], [history],
    [aiInsights], [balance], and upper-cased symbols). *)
Definition lookup_prop (v : value) (k : string) : value :=
  match v with
  | VObj o => default VUndef (o !! k)
  | VArr l => lookup_index l k
  | VStr s => lookup_index (chars s) k
  | _ => VUndef
  end.

(** [v[k]]: reading a property of [null] or [undefined] throws. *)
Definition get_prop (v : value) (k : string) : result value :=
  match v with
  | VUndef | VNull => Throw
  | _ => Ok (lookup_prop v k)
  end.

(** [v[k] = x] in sloppy mode: an object takes the property, a primitive
    ignores the assignment. *)
Definition set_prop (v : value) (k : string) (x : value) : result value :=
  match v with
  | VUndef | VNull => Throw
  | VObj o => Ok (VObj (<[k := x]> o))
  | VArr _ => Unmodelled
  | _ => Ok v
  end.

(** [delete v[k]] *)
Definition delete_prop (v : value) (k : string) : result value :=
  match v with
  | VUndef | VNull => Throw
  | VObj o => Ok (VObj (delete k o))
  | VArr _ => Unmodelled
  | _ => Ok v
  end.

(** The own enumerable properties that [{...v}] copies. *)
Definition indexed (l : list value) : gmap string value :=
  list_to_map (imap (fun i x => (pretty i, x)) l).

Definition spread (v : value) : gmap string value :=
  match v with
  | VObj o => o
  | VArr l => indexed l
  | VStr s => indexed (chars s)
  | _ => ∅
  end.

(** [v + x] for a number [x]: an addition unless [v] is, or converts to, a
    string. *)
Definition add_num (v : value) (x : float) : result value :=
  match v with
  | VStr _ => Unmodelled
  | VArr _ | VObj _ => if unprintable v then Throw else Unmodelled
  | _ => Ok (VNum (ToNumber v + x)%float)
  end.

(** *** JSON *)

(** [JSON.parse(JSON.stringify(v))]: NaN and the infinities are written as
    [null], minus zero as [0], every other number as a numeral that reads
    back as the same number; [undefined] is dropped from an object and is
    [null] in an array. *)
Fixpoint json (v : value) : value :=
  match v with
  | VUndef => VNull
  | VNum f =>
      if is_finite f then VNum (if is_zero f then 0%float else f) else VNull
  | VArr l => VArr (List.map json l)
  | VObj o =>
      VObj (omap (fun x => match x with
                           | VUndef => None
                           | _ => Some (json x)
                           end) o)
  | _ => v
  end.

Definition json_field (x : value) : option value :=
  match x with
  | VUndef => None
  | _ => Some (json x)
  end.

End JS.

(** ** server.js *)

Module Server.
Import JS.

Definition INITIAL_BALANCE : float := 1000000%float.

(** What a handler answers.  The names are those of the specification;
    the server sends 400 with a message for each rejection, 404 for
    [UnknownAccount]. *)
Inductive response : Type :=
| BadRequest            (* an exception reached [.catch]: 400, err.message *)
| Uncaught              (* an exception outside a promise *)
| NotModelled
| MissingCredentials
| UserExists
| Registered
| InvalidSide
| InvalidSymbol
| InvalidAmount
| UnknownAccount
| InsufficientFunds
| InsufficientPosition
| TradeOk (entry : value)
| HistoryOk (history : value).

Definition throws {A} (r : result A) : bool :=
  match r with Throw => true | _ => false end.

(** [writeUsers(users)]: what the next [JSON.parse] of the file returns. *)
Definition writeUsers (users : gmap string value) : gmap string value :=
  omap json_field users.

(** The callback of [user.history.map] in [normalizeUsers]. *)
Definition tag_entry (entry : value) : value * bool :=
  if truthy entry && negb (truthy (lookup_prop entry "symbol"))
  then (VObj (<["symbol" := VStr "HOG"]> (spread entry)), true)
  else (entry, false).

(** The four steps of the loop of [normalizeUsers], for a record that is an
    object; each gives the new record and whether it set [updated].  The
    one call in them that can throw, [Number(user.averagePrice || 0)], is
    taken to return: [migration_throws] below tells when it does not. *)

(** [if (!user.holdings) { ... }] *)
Definition migrateHoldings (o : gmap string value) : gmap string value * bool :=
  if truthy (lookup_prop (VObj o) "holdings") then (o, false)
  else
    let position := lookup_prop (VObj o) "position" in
    let averagePrice := lookup_prop (VObj o) "averagePrice" in
    let holdings : gmap string value :=
      if is_number position && negb (ToNumber position =? 0)%float
      then {[ "HOG" :=
                VObj (<["position" := position]>
                        {[ "averagePrice" :=
                             VNum (ToNumber (if truthy averagePrice
                                             then averagePrice
                                             else VNum 0%float)) ]}) ]}
      else ∅ in
    (delete "averagePrice" (delete "position" (<["holdings" := VObj holdings]> o)),
     true).

(** [if (!Array.isArray(user.history)) { ... }] *)
Definition ensureHistory (o : gmap string value) : gmap string value * bool :=
  if isArray (lookup_prop (VObj o) "history") then (o, false)
  else (<["history" := VArr []]> o, true).

(** [if (!user.aiInsights) { ... }] *)
Definition ensureAiInsights (o : gmap string value) : gmap string value * bool :=
  if truthy (lookup_prop (VObj o) "aiInsights") then (o, false)
  else (<["aiInsights" := VObj ∅]> o, true).

(** [user.history = user.history.map(...)]; [history] is an array here. *)
Definition tagHistory (o : gmap string value) : gmap string value * bool :=
  match lookup_prop (VObj o) "history" with
  | VArr l =>
      let tagged := List.map tag_entry l in
      (<["history" := VArr (List.map fst tagged)]> o, existsb snd tagged)
  | _ => (o, false)
  end.

(** [Number(user.averagePrice || 0)] throws: the holdings are being made
    from a position that is a number other than zero, and the average
    price is an object or an array that converts to no number. *)
Definition migration_throws (o : gmap string value) : bool :=
  let position := lookup_prop (VObj o) "position" in
  let averagePrice := lookup_prop (VObj o) "averagePrice" in
  negb (truthy (lookup_prop (VObj o) "holdings"))
  && (is_number position && negb (ToNumber position =? 0)%float)
  && throws (Number (if truthy averagePrice then averagePrice else VNum 0%float)).

Definition normalizeRecord (o : gmap string value) : gmap string value * bool :=
  let '(o1, u1) := migrateHoldings o in
  let '(o2, u2) := ensureHistory o1 in
  let '(o3, u3) := ensureAiInsights o2 in
  let '(o4, u4) := tagHistory o3 in
  (o4, u1 || u2 || u3 || u4).

(** One round of the loop of [normalizeUsers].  A falsy record is skipped.
    On a truthy primitive the assignments do nothing and
    [user.history.map] throws. *)
Definition normalizeUser (user : value) : result (value * bool) :=
  if negb (truthy user) then Ok (user, false)
  else match user with
       | VObj o =>
           if migration_throws o then Throw
           else let '(o', u) := normalizeRecord o in Ok (VObj o', u)
       | VArr _ => Unmodelled
       | _ => Throw
       end.

Definition unmodelled {A} (r : result A) : bool :=
  match r with Unmodelled => true | _ => false end.

Definition record_of (r : result (value * bool)) : value :=
  match r with Ok (u, _) => u | _ => VUndef end.

Definition updated_of (r : result (value * bool)) : bool :=
  match r with Ok (_, b) => b | _ => false end.

(** [normalizeUsers(users)]: the table it returns and the file after it.
    An exception in any round leaves the file as it was. *)
Definition normalizeUsers (store : gmap string value)
  : result (gmap string value * gmap string value) :=
  let rounds := normalizeUser <$> store in
  if decide (map_Exists (fun _ r => throws r) rounds) then Throw
  else if decide (map_Exists (fun _ r => unmodelled r) rounds) then Unmodelled
  else
    let users := record_of <$> rounds in
    Ok (users,
        if decide (map_Exists (fun _ r => updated_of r) rounds)
        then writeUsers users else store).

(** [readUsers()], the file holding the table [store]. *)
Definition readUsers (store : gmap string value)
  : result (gmap string value * gmap string value) :=
  normalizeUsers store.

(** The record [handleRegister] creates. *)
Definition newAccount (password : value) : value :=
  VObj (<["password" := password]>
       (<["balance" := VNum INITIAL_BALANCE]>
       (<["holdings" := VObj ∅]>
       (<["history" := VArr []]>
       {[ "aiInsights" := VObj ∅ ]})))).

(** The names that [Object.prototype] defines.  [users[name]] finds a
    function (an object for [__proto__]) under such a name when the table
    has no key of that name. *)
Definition inherited (name : string) : bool :=
  bool_decide (name ∈ ["constructor"; "__proto__"; "hasOwnProperty"; "isPrototypeOf";
                       "propertyIsEnumerable"; "toLocaleString"; "toString"; "valueOf";
                       "__defineGetter__"; "__defineSetter__";
                       "__lookupGetter__"; "__lookupSetter__"]).

(** [users[username]] is such a function. *)
Definition finds_inherited (users : gmap string value) (username : string) : bool :=
  inherited username && bool_decide (users !! username = None).

(** [handleRegister], from the [username] and the [password] of the body.
    The user name is any value that is truthy: [users[username]] takes the
    string it converts to as the name of the property. *)
Definition handleRegister (store : gmap string value)
    (username password : value)
  : response * gmap string value :=
  if negb (truthy username) || negb (truthy password)
  then (MissingCredentials, store)
  else match readUsers store with
       | Throw => (BadRequest, store)
       | Unmodelled => (NotModelled, store)
       | Ok (users, store1) =>
           match ToString username with
           | Ok name =>
               if finds_inherited users name
                  || truthy (default VUndef (users !! name))
               then (UserExists, store1)
               else (Registered, writeUsers (<[name := newAccount password]> users))
           | _ => (BadRequest, store1)
           end
       end.

(** [handleHistory], for the name of the property that the user name of
    the session stands for in [users[username]], and the [symbol]
    parameter of the query string, if any. *)
Definition handleHistory (store : gmap string value)
    (username : string) (symbolParam : option string)
  : response * gmap string value :=
  match readUsers store with
  | Throw => (Uncaught, store)
  | Unmodelled => (NotModelled, store)
  | Ok (users, store1) =>
      let user := default VUndef (users !! username) in
      if negb (truthy user) then (UnknownAccount, store1)
      else
        let symbol := toUpperCase (default "" symbolParam) in
        let stored := lookup_prop user "history" in
        let history := if truthy stored then stored else VArr [] in
        if negb (bool_decide (symbol = "")) then
          match history with
          | VArr l =>
              if existsb nullish l then (Uncaught, store1)
              else (HistoryOk
                      (VArr (List.filter
                               (fun entry => is_string symbol (lookup_prop entry "symbol"))
                               l)), store1)
          | _ => (Uncaught, store1)
          end
        else (HistoryOk history, store1)
  end.

(** The object [ensureHoldingStructure] returns. *)
Record holding : Type := { position : float; averagePrice : float }.

(** [ensureHoldingStructure(holding = {})] *)
Definition ensureHoldingStructure (stored : value) : result holding :=
  let h := match stored with VUndef => VObj ∅ | _ => stored end in
  let* p := get_prop h "position" in
  let* position := Number p in
  let* a := get_prop h "averagePrice" in
  let* averagePrice := Number a in
  Ok {| position := or_zero position; averagePrice := or_zero averagePrice |}.

Definition holding_value (h : holding) : value :=
  VObj (<["position" := VNum (position h)]>
          {[ "averagePrice" := VNum (averagePrice h) ]}).

(** The history entry of a trade. *)
Definition make_entry (id timestamp : string) (type : value) (symbol : string)
    (qty tradePrice : float) (balanceAfter : value) (positionAfter realizedPnl : float)
  : value :=
  VObj (<["id" := VStr id]>
       (<["timestamp" := VStr timestamp]>
       (<["type" := type]>
       (<["symbol" := VStr symbol]>
       (<["quantity" := VNum qty]>
       (<["price" := VNum tradePrice]>
       (<["balanceAfter" := balanceAfter]>
       (<["positionAfter" := VNum positionAfter]>
       {[ "realizedPnl" := VNum (toFixed2 realizedPnl) ]})))))))).

(** [[entry, ...(user.history || [])]]: what the spread iterates over. *)
Definition history_items (history : value) : result (list value) :=
  if negb (truthy history) then Ok []
  else match history with
       | VArr l => Ok l
       | VStr _ => Unmodelled
       | _ => Throw
       end.

(** What a trade settles to: a rejection, or the new record of the user
    with the entry answered. *)
Inductive settlement : Type :=
| Rejected (r : response)
| Settled (user : gmap string value) (entry : value).

(** The two branches of [if (type === 'buy') { ... } else { ... }] in
    [handleTrade]: a rejection, or the new balance, the new holding and
    [realizedPnl]. *)
Definition accounting (balance : value) (h : holding) (type : value)
    (qty tradePrice : float) : result (response + value * holding * float) :=
  if is_string "buy" type then
    let cost := (tradePrice * qty)%float in
    let* funds := Number balance in
    if (funds <? cost)%float then Ok (inl InsufficientFunds)
    else
      let newPosition := (position h + qty)%float in
      let newAvgPrice :=
        if (newPosition =? 0)%float then 0%float
        else ((averagePrice h * position h + tradePrice * qty) / newPosition)%float in
      Ok (inr (VNum (funds - cost)%float,
               {| position := newPosition; averagePrice := toFixed2 newAvgPrice |},
               0%float))
  else
    if (position h <? qty)%float then Ok (inl InsufficientPosition)
    else
      let revenue := (tradePrice * qty)%float in
      let realizedPnl := ((tradePrice - averagePrice h) * qty)%float in
      let* balance' := add_num balance revenue in
      let newPosition := (position h - qty)%float in
      Ok (inr (balance',
               {| position := newPosition;
                  averagePrice := if (newPosition =? 0)%float then 0%float
                                  else averagePrice h |},
               realizedPnl)).

(** [user.holdings || {}] *)
Definition holdings_of (user : gmap string value) : value :=
  let stored := lookup_prop (VObj user) "holdings" in
  if truthy stored then stored else VObj ∅.

(** [handleTrade] from [user.holdings = user.holdings || {}] to
    [user.history = ...]: the record [user] of the acting user, the checked
    [type], symbol, quantity and price, and the [id] and [timestamp] that
    [crypto.randomUUID()] and [new Date().toISOString()] return. *)
Definition settle (user : gmap string value) (type : value) (trimmedSymbol : string)
    (qty tradePrice : float) (id timestamp : string) : result settlement :=
  let holdings := holdings_of user in
  let user := <["holdings" := holdings]> user in
  let* h := ensureHoldingStructure (lookup_prop holdings trimmedSymbol) in
  let* outcome :=
    accounting (lookup_prop (VObj user) "balance") h type qty tradePrice in
  match outcome with
  | inl r => Ok (Rejected r)
  | inr (balance', h', realizedPnl) =>
      let user := <["balance" := balance']> user in
      let* holdings' :=
        if (position h' =? 0)%float then delete_prop holdings trimmedSymbol
        else set_prop holdings trimmedSymbol (holding_value h') in
      let user := <["holdings" := holdings']> user in
      let entry := make_entry id timestamp type trimmedSymbol qty tradePrice
                     balance' (position h') realizedPnl in
      let* items := history_items (lookup_prop (VObj user) "history") in
      Ok (Settled (<["history" := VArr (entry :: items)]> user) entry)
  end.

(** [['buy', 'sell'].includes(type)] *)
Definition is_side (type : value) : bool :=
  is_string "buy" type || is_string "sell" type.

(** [qty] and [tradePrice], where [Number(quantity)] and [Number(price)]
    return. *)
Definition qty_of (body : value) : float :=
  ToNumber (lookup_prop body "quantity").

Definition tradePrice_of (body : value) : float :=
  ToNumber (lookup_prop body "price").

(** [typeof symbol === 'string' ? symbol.trim().toUpperCase() : ''] *)
Definition trimmedSymbol_of (body : value) : string :=
  match lookup_prop body "symbol" with
  | VStr s => toUpperCase (trim s)
  | _ => ""
  end.

(** [handleTrade] from [const users = readUsers()] on: the request has
    passed the checks.  [username] is the name of the property in
    [users[username]]. *)
Definition trade (store : gmap string value) (username : string)
    (type : value) (trimmedSymbol : string) (qty tradePrice : float)
    (id timestamp : string) : response * gmap string value :=
  match readUsers store with
  | Throw => (BadRequest, store)
  | Unmodelled => (NotModelled, store)
  | Ok (users, store1) =>
      match default VUndef (users !! username) with
      | VObj user =>
          match settle user type trimmedSymbol qty tradePrice id timestamp with
          | Ok (Rejected r) => (r, store1)
          | Ok (Settled user' entry) =>
              (TradeOk entry, writeUsers (<[username := VObj user']> users))
          | Throw => (BadRequest, store1)
          | Unmodelled => (NotModelled, store1)
          end
      | user =>
          if truthy user then (NotModelled, store1)
          else (UnknownAccount, store1)
      end
  end.

(** [handleTrade], inside [withAuth]: [username] is the name of the
    property that the user name of the session stands for, [body] what
    [parseBody] resolved to.  Destructuring a [null] body throws, and so
    may [Number(quantity)] and [Number(price)], before any check: the
    exception reaches [.catch]. *)
Definition handleTrade (store : gmap string value) (username : string)
    (body : value) (id timestamp : string)
  : response * gmap string value :=
  if nullish body then (BadRequest, store)
  else
    let type := lookup_prop body "type" in
    match Number (lookup_prop body "quantity"), Number (lookup_prop body "price") with
    | Ok qty, Ok tradePrice =>
        let trimmedSymbol := trimmedSymbol_of body in
        if negb (is_side type) then (InvalidSide, store)
        else if bool_decide (trimmedSymbol = "") then (InvalidSymbol, store)
        else if falsy_num qty || (qty <=? 0)%float
                || falsy_num tradePrice || (tradePrice <=? 0)%float
        then (InvalidAmount, store)
        else trade store username type trimmedSymbol qty tradePrice id timestamp
    | _, _ => (BadRequest, store)
    end.

End Server.

(** ** What the statements are about *)

Module Ledger.
Import JS Server.

(** *** Signs of binary64 values *)

(** Zero of either sign, a positive number or plus infinity. *)
Definition SFnonneg (x : spec_float) : bool :=
  match x with
  | S754_zero _ | S754_infinity false | S754_finite false _ _ => true
  | _ => false
  end.

Definition SFpositive (x : spec_float) : bool :=
  match x with
  | S754_infinity false | S754_finite false _ _ => true
  | _ => false
  end.

(** The sign of a rounded number is the sign given, and rounding a
    non-negative mantissa never yields NaN. *)
Definition has_sign (s : bool) (x : spec_float) : Prop :=
  match x with
  | S754_zero s' | S754_infinity s' | S754_finite s' _ _ => s' = s
  | S754_nan => False
  end.


(** *** Accounts the server itself has written *)

(** A number as the file holds it after a trade: [null] where the number was
    infinite, otherwise a number that is not negative; [fin] asks for a
    finite number (the file), [nz] for one that is not zero (a position). *)
Definition num_ok (fin nz : bool) (v : value) : Prop :=
  v = VNull \/
  exists f, v = VNum f /\ (0 <=? f)%float = true /\
            (fin = true -> is_finite f = true) /\
            (nz = true -> (f =? 0)%float = false).

(** A holding as the file has it after a trade: its average price is a
    number, or [null] where that was not finite. *)
Definition holding_ok (fin : bool) (h : value) : Prop :=
  exists ho p a,
    h = VObj ho /\ ho !! "position" = Some p /\ num_ok fin true p /\
    ho !! "averagePrice" = Some a /\ (a = VNull \/ exists f, a = VNum f).

Definition entry_ok (e : value) : Prop :=
  exists eo s, e = VObj eo /\ eo !! "symbol" = Some (VStr s) /\ s <> "".

Definition account_ok (fin : bool) (u : value) : Prop :=
  exists o b hs l ai,
    u = VObj o /\
    o !! "balance" = Some b /\ num_ok fin false b /\
    o !! "holdings" = Some (VObj hs) /\ map_Forall (fun _ h => holding_ok fin h) hs /\
    o !! "history" = Some (VArr l) /\ Forall entry_ok l /\
    o !! "aiInsights" = Some (VObj ai).

Definition good_store (s : gmap string value) : Prop :=
  map_Forall (fun _ u => account_ok true u) s.

(** The files the server can come to hold: it creates the file as [{}],
    and registrations, trades and history queries touch it.  (The
    insights handler, which rewrites [aiInsights] only, is left out.) *)
Inductive reachable : gmap string value -> Prop :=
| reach_empty : reachable ∅
| reach_register s name password :
    reachable s -> reachable (handleRegister s name password).2
| reach_trade s name body id timestamp :
    reachable s -> reachable (handleTrade s name body id timestamp).2
| reach_history s name symbolParam :
    reachable s -> reachable (handleHistory s name symbolParam).2.

(** The file as [readUsers] leaves it: rewritten where a record was of an
    older shape, untouched otherwise. *)
Definition loaded (store : gmap string value) : gmap string value :=
  match readUsers store with
  | Ok (_, store1) => store1
  | _ => store
  end.

(** The holdings after a trade that leaves the holding [h'] in [symbol]:
    [if (holding.position === 0) delete ...; else ... = holding]. *)
Definition holdings_after (hs : gmap string value) (symbol : string) (h' : holding)
  : gmap string value :=
  if (position h' =? 0)%float then delete symbol hs
  else <[symbol := holding_value h']> hs.

(** A record that [normalizeUsers] has nothing to do on. *)
Definition current_shape (o : gmap string value) : Prop :=
  truthy (lookup_prop (VObj o) "holdings") = true /\
  truthy (lookup_prop (VObj o) "aiInsights") = true /\
  exists l, o !! "history" = Some (VArr l) /\
            Forall (fun e => (tag_entry e).2 = false) l.

End Ledger.

(** ** Sample data *)

Module Examples.
Import JS Server Ledger.

Definition order (type symbol : string) (quantity price : float) : value :=
  VObj {[ "type" := VStr type; "symbol" := VStr symbol;
          "quantity" := VNum quantity; "price" := VNum price ]}.

(** The file after [ann] registered, and after each of the three trades:
    10 HOG bought at 120, 5 more at 130, all 15 sold at 140. *)
Definition ann0 : gmap string value :=
  (handleRegister ∅ (VStr "ann") (VStr "secret")).2.
Definition ann1 : gmap string value :=
  (handleTrade ann0 "ann" (order "buy" "hog" 10 120) "id1" "t1").2.
Definition ann2 : gmap string value :=
  (handleTrade ann1 "ann" (order "buy" " Hog " 5 130) "id2" "t2").2.
Definition ann3 : gmap string value :=
  (handleTrade ann2 "ann" (order "sell" "HOG" 15 140) "id3" "t3").2.

(** The file after [ann] bought 1e308 HOG at 1e-320, which costs 1e-12,
    and after the same purchase once more. *)
Definition flood1 : gmap string value :=
  (handleTrade ann0 "ann" (order "buy" "HOG" 1e308 1e-320) "id1" "t1").2.
Definition flood2 : gmap string value :=
  (handleTrade flood1 "ann" (order "buy" "HOG" 1e308 1e-320) "id2" "t2").2.

(** The sale of all that [ann] holds after the second buy, and the
    holding it sells. *)
Definition whole_sale : value := order "sell" "HOG" 15 140.
Definition held : holding := {| position := 15; averagePrice := 123.33 |}.

Definition account (s : gmap string value) (name : string) : value :=
  default VUndef (s !! name).

Definition fields (v : value) : gmap string value :=
  match v with VObj o => o | _ => ∅ end.

Definition settled_user (r : result settlement) : gmap string value :=
  match r with Ok (Settled user _) => user | _ => ∅ end.

Definition settled_entry (r : result settlement) : value :=
  match r with Ok (Settled _ entry) => entry | _ => VUndef end.

Definition traded_entry (r : response) : value :=
  match r with TradeOk entry => entry | _ => VUndef end.

Definition read_table (r : result (gmap string value * gmap string value))
  : gmap string value :=
  match r with Ok (users, _) => users | _ => ∅ end.

Definition read_file (r : result (gmap string value * gmap string value))
  : gmap string value :=
  match r with Ok (_, store1) => store1 | _ => ∅ end.

(** A record of [ann] with the holdings [hs]. *)
Definition record (hs : gmap string value) : value :=
  VObj {[ "password" := VStr "secret"; "balance" := VNum 1000000;
          "holdings" := VObj hs; "history" := VArr []; "aiInsights" := VObj ∅ ]}.

(** A record of the older shape: one position, no holdings, and a history
    entry without a symbol. *)
Definition legacy (position averagePrice : float) : value :=
  VObj {[ "password" := VStr "secret"; "balance" := VNum 1000000;
          "position" := VNum position; "averagePrice" := VNum averagePrice;
          "history" := VArr [VObj {[ "type" := VStr "buy" ]}] ]}.

(** The records of [ann] after the first and second trade, the second
    buy and the sale as [settle] sees them. *)
Definition ann1_record : gmap string value := fields (account ann1 "ann").
Definition ann2_record : gmap string value := fields (account ann2 "ann").
Definition second_buy : result settlement :=
  settle ann1_record (VStr "buy") "HOG" 5 130 "id2" "t2".
Definition final_sale : result settlement :=
  settle ann2_record (VStr "sell") "HOG" 15 140 "id3" "t3".

(** What [readUsers] returns on a file with one legacy record. *)
Definition legacy_read (position averagePrice : float)
  : result (gmap string value * gmap string value) :=
  readUsers {[ "ann" := legacy position averagePrice ]}.

(** An order of a kind that is none, whose quantity converts to no
    number: an object that has a [toString] which is no function. *)
Definition stubborn : value := VObj {[ "toString" := VNum 1 ]}.

(** A stored holding without [averagePrice], and one whose position is no
    number. *)
Definition priceless : value := VObj {[ "position" := VNum 5 ]}.
Definition countless : value := VObj {[ "position" := VStr "many" ]}.

(** A stored holding whose position converts to no number. *)
Definition wordless : value := VObj {[ "position" := stubborn ]}.

End Examples.

(** ** server.js: sessions, the other handlers and the router

    [createSession], [clearSession], [authenticate], [withAuth],
    [handleLogin], [handleLogout], [handleSummary], [randomAiInterval],
    [ensureAiState], [rollAiState], [handleAiInsights] and the callback of
    [http.createServer].  The state is the users file and the two maps of
    sessions.  Requests are handled one after the other: a handler that
    awaits [parseBody] is taken to run when the body has arrived.  What
    [parseBody], [serveStatic] and [createAiInsight] do is taken from
    outside: the parsed body, the path handed over, the insight built. *)

Module Api.
Import JS Server Ledger.

(** *** What a request draws from the runtime *)

(** The values that a request takes from outside the program: random
    bytes, identifiers, the clock and the [Date] functions.  [insight] is
    the object that [createAiInsight(symbol, pool, issuedAtMillis)] builds
    on its n-th call, or the exception of its [toISOString]: its text
    depends on [Math.random], the locale and the time zone, and nothing
    here looks into it. *)
Record runtime : Type := {
  token : string;                    (* crypto.randomBytes(24).toString('hex') *)
  uuid : string;                     (* crypto.randomUUID() in handleTrade *)
  isoNow : string;                   (* new Date().toISOString() in handleTrade *)
  now : nat -> float;                (* Date.now(), call by call *)
  random : nat -> float;             (* Math.random() in randomAiInterval, call by call *)
  insight : string -> float -> nat -> result value;
  toISOString : float -> result string;   (* new Date(t).toISOString() *)
  parse : value -> float             (* Date.parse(v), of a [v] that has a text *)
}.

(** *** Sessions *)

(** A key of the Map [userSessions].  A Map finds a primitive by its
    value, NaN being NaN there and minus zero being zero, and finds an
    object or an array under itself only.  What [parseBody] resolves to is
    made of new objects every time: an object is numbered when it comes to
    be a key. *)
Inductive key : Type :=
| KUndef
| KNull
| KBool (b : bool)
| KNum (x : spec_float)
| KStr (s : string)
| KObject (n : nat).

#[global] Instance spec_float_eq_dec : EqDecision spec_float.
Proof. solve_decision. Defined.

#[global] Instance spec_float_countable : Countable spec_float.
Proof.
  refine (inj_countable'
            (fun x => match x with
                      | S754_zero s => inl (inl s)
                      | S754_infinity s => inl (inr s)
                      | S754_nan => inr (inl ())
                      | S754_finite s m e => inr (inr (s, m, e))
                      end)
            (fun y => match y with
                      | inl (inl s) => S754_zero s
                      | inl (inr s) => S754_infinity s
                      | inr (inl _) => S754_nan
                      | inr (inr (s, m, e)) => S754_finite s m e
                      end) _).
  intros []; reflexivity.
Defined.

#[global] Instance key_eq_dec : EqDecision key.
Proof. solve_decision. Defined.

#[global] Instance key_countable : Countable key.
Proof.
  refine (inj_countable'
            (fun k => match k with
                      | KUndef => inl (inl (inl ()))
                      | KNull => inl (inl (inr ()))
                      | KBool b => inl (inr b)
                      | KNum x => inr (inl x)
                      | KStr s => inr (inr (inl s))
                      | KObject n => inr (inr (inr n))
                      end)
            (fun y => match y with
                      | inl (inl (inl _)) => KUndef
                      | inl (inl (inr _)) => KNull
                      | inl (inr b) => KBool b
                      | inr (inl x) => KNum x
                      | inr (inr (inl s)) => KStr s
                      | inr (inr (inr n)) => KObject n
                      end) _).
  intros []; reflexivity.
Defined.

(** [v] is an object or an array. *)
Definition is_object (v : value) : bool :=
  match v with VArr _ | VObj _ => true | _ => false end.

(** The key that the value [v] is; [n] is the number of [v] where it is an
    object or an array. *)
Definition key_of (v : value) (n : nat) : key :=
  match v with
  | VUndef => KUndef
  | VNull => KNull
  | VBool b => KBool b
  | VNum f => KNum (match Prim2SF f with S754_zero _ => S754_zero false | x => x end)
  | VStr s => KStr s
  | VArr _ | VObj _ => KObject n
  end.

(** A value of the map [sessions]: [username] is the value that the body
    of the login had under that name, and [identity] its number where it
    is an object or an array. *)
Record session : Type := { username : value; identity : nat; createdAt : float }.

Definition session_key (s : session) : key := key_of (username s) (identity s).

(** The state of the server: the users file, the two maps [sessions]
    (token to session) and [userSessions] (user name to token), and how
    many objects were numbered. *)
Record world : Type := {
  file : gmap string value;
  sessions : gmap string session;
  userSessions : gmap key string;
  objects : nat
}.

Definition with_file (w : world) (store : gmap string value) : world :=
  {| file := store; sessions := sessions w; userSessions := userSessions w;
     objects := objects w |}.

(** [createSession(username)], [token] being the random bytes drawn.  The
    user name comes out of the body of the request: where it is an object
    or an array it is a new one, which gets the next number. *)
Definition createSession (w : world) (username : value) (token : string)
    (createdAt : float) : string * world :=
  let k := key_of username (objects w) in
  let sessions1 :=
    match userSessions w !! k with
    | Some previousToken => delete previousToken (sessions w)
    | None => sessions w
    end in
  (token,
   {| file := file w;
      sessions := <[token := {| username := username; identity := objects w;
                                createdAt := createdAt |}]> sessions1;
      userSessions := <[k := token]> (userSessions w);
      objects := S (objects w) |}).

(** [clearSession(token)] *)
Definition clearSession (w : world) (token : string) : world :=
  if bool_decide (token = "") then w
  else match sessions w !! token with
       | None => w
       | Some session =>
           {| file := file w;
              sessions := delete token (sessions w);
              userSessions :=
                if bool_decide (userSessions w !! session_key session = Some token)
                then delete (session_key session) (userSessions w)
                else userSessions w;
              objects := objects w |}
       end.

(** [s.slice(n)] *)
Fixpoint slice (n : nat) (s : string) : string :=
  match n, s with
  | O, _ => s
  | S n', String _ s' => slice n' s'
  | S _, EmptyString => EmptyString
  end.

(** [authHeader.startsWith('Bearer ') ? authHeader.slice(7) : null], where
    [authHeader] is [req.headers['authorization'] || '']. *)
Definition bearer (authorization : option string) : option string :=
  let authHeader := default "" authorization in
  if String.prefix "Bearer " authHeader then Some (slice 7 authHeader) else None.

(** [authenticate(req)]: the user name of the session, as the body of the
    login had it. *)
Definition authenticate (w : world) (authorization : option string) : option value :=
  match bearer authorization with
  | Some token =>
      if bool_decide (token = "") then None
      else username <$> sessions w !! token
  | None => None
  end.

(** *** Answers *)

(** What the server answers: an answer of the ledger above, or one of
    the others. *)
Inductive reply : Type :=
| Ledger (r : response)
| Unauthorized                 (* 401, from withAuth *)
| LoginFailed                  (* 401, from handleLogin *)
| LoggedIn (token : string)
| LoggedOut
| SummaryOk (balance holdings history : value)
| InsightsOk (symbol : string) (insights nextRefreshAt : value)
| NoSuchEndpoint               (* 404 *)
| ServeStatic (pathname : string)   (* handed to serveStatic *)
| MethodNotAllowed.            (* 405 *)

(** [withAuth(req, res, handler)] *)
Definition withAuth (w : world) (authorization : option string)
    (handler : value -> reply * world) : reply * world :=
  match authenticate w authorization with
  | Some user => if truthy user then handler user else (Unauthorized, w)
  | None => (Unauthorized, w)
  end.

(** [a === b] for two values that come out of different calls of
    [JSON.parse]: two objects or arrays are then never the same one. *)
Definition strict_eq (a b : value) : bool :=
  match a, b with
  | VUndef, VUndef | VNull, VNull => true
  | VBool x, VBool y => Bool.eqb x y
  | VNum x, VNum y => (x =? y)%float
  | VStr x, VStr y => bool_decide (x = y)
  | _, _ => false
  end.

(** *** The handlers *)

(** [handleRegister(req, res)]: [payload] is what [parseBody] resolved to,
    or [None] where it rejected; then the function of that name above. *)
Definition api_register (w : world) (payload : option value) : reply * world :=
  match payload with
  | None => (Ledger BadRequest, w)
  | Some body =>
      if nullish body then (Ledger BadRequest, w)
      else
        let '(r, store) :=
          handleRegister (file w) (lookup_prop body "username")
            (lookup_prop body "password") in
        (Ledger r, with_file w store)
  end.

(** [handleLogin(req, res)].  [users[username]] takes the string that the
    user name converts to; the session keeps the user name as it is.
    Under a name that only [Object.prototype] defines, [users[username]]
    is a function, which has no [password]: the answer is the one given
    where there is no record. *)
Definition handleLogin (w : world) (payload : option value) (rt : runtime)
  : reply * world :=
  match payload with
  | None => (Ledger BadRequest, w)
  | Some body =>
      if nullish body then (Ledger BadRequest, w)
      else
        let username := lookup_prop body "username" in
        let password := lookup_prop body "password" in
        if negb (truthy username) || negb (truthy password)
        then (Ledger MissingCredentials, w)
        else match readUsers (file w) with
             | Throw => (Ledger BadRequest, w)
             | Unmodelled => (Ledger NotModelled, w)
             | Ok (users, store1) =>
                 match ToString username with
                 | Ok name =>
                     let user := default VUndef (users !! name) in
                     if negb (truthy user)
                        || negb (strict_eq (lookup_prop user "password") password)
                     then (LoginFailed, with_file w store1)
                     else
                       let '(token, w') :=
                         createSession (with_file w store1) username (token rt)
                           (now rt 0) in
                       (LoggedIn token, w')
                 | _ => (Ledger BadRequest, with_file w store1)
                 end
             end
  end.

(** [handleLogout(req, res)] *)
Definition handleLogout (w : world) (authorization : option string) : reply * world :=
  (LoggedOut,
   match bearer authorization with
   | Some token => if bool_decide (token = "") then w else clearSession w token
   | None => w
   end).

(** [x || {}] and [x || []] *)
Definition or_else (x fallback : value) : value :=
  if truthy x then x else fallback.

(** The name of the property in [users[username]], for the user name of
    a session.  No login leaves a session whose user name converts to no
    string, or to a name that only [Object.prototype] defines: what a
    handler does then is not modelled. *)
Definition account_name (users : gmap string value) (username : value) : option string :=
  match ToString username with
  | Ok name => if finds_inherited users name then None else Some name
  | _ => None
  end.

(** [handleSummary(req, res)] *)
Definition handleSummary (w : world) (authorization : option string) : reply * world :=
  withAuth w authorization (fun username =>
    match readUsers (file w) with
    | Throw => (Ledger Uncaught, w)
    | Unmodelled => (Ledger NotModelled, w)
    | Ok (users, store1) =>
        match account_name users username with
        | None => (Ledger NotModelled, with_file w store1)
        | Some name =>
            let user := default VUndef (users !! name) in
            if negb (truthy user) then (Ledger UnknownAccount, with_file w store1)
            else (SummaryOk (lookup_prop user "balance")
                            (or_else (lookup_prop user "holdings") (VObj ∅))
                            (or_else (lookup_prop user "history") (VArr [])),
                  with_file w store1)
        end
    end).

(** [handleHistory(req, res, searchParams)]: [withAuth], then the function
    of that name above. *)
Definition api_history (w : world) (authorization : option string)
    (symbolParam : option string) : reply * world :=
  withAuth w authorization (fun username =>
    match account_name (file w) username with
    | None => (Ledger NotModelled, w)
    | Some name =>
        let '(r, store) := handleHistory (file w) name symbolParam in
        (Ledger r, with_file w store)
    end).

(** [handleTrade(req, res)]: [withAuth], then [parseBody], then the
    function of that name above. *)
Definition api_trade (w : world) (authorization : option string)
    (payload : option value) (rt : runtime) : reply * world :=
  withAuth w authorization (fun username =>
    match payload with
    | None => (Ledger BadRequest, w)
    | Some body =>
        match account_name (file w) username with
        | None => (Ledger NotModelled, w)
        | Some name =>
            let '(r, store) := handleTrade (file w) name body (uuid rt) (isoNow rt) in
            (Ledger r, with_file w store)
        end
    end).

(** *** Insights *)

Definition AI_MIN_INTERVAL : float := 43200000%float.
Definition AI_MAX_INTERVAL : float := 86400000%float.

(** How many times the clock, [Math.random] and [createAiInsight] have
    been called in the request. *)
Record calls : Type := { clock_calls : nat; random_calls : nat; insight_calls : nat }.

(** A computation that draws from the runtime and may throw. *)
Definition M (A : Type) : Type := calls -> result (A * calls).

Definition retM {A} (a : A) : M A := fun c => Ok (a, c).

Definition bindM {A B} (m : M A) (k : A -> M B) : M B :=
  fun c => match m c with
           | Ok (a, c') => k a c'
           | Throw => Throw
           | Unmodelled => Unmodelled
           end.

Notation "'do' x '<-' m ';' k" := (bindM m (fun x => k))
  (at level 10, x name, m at level 100, k at level 200).

Definition liftM {A} (r : result A) : M A :=
  fun c => match r with
           | Ok a => Ok (a, c)
           | Throw => Throw
           | Unmodelled => Unmodelled
           end.

(** [Date.now()] *)
Definition Date_now (rt : runtime) : M float :=
  fun c => Ok (now rt (clock_calls c),
               {| clock_calls := S (clock_calls c); random_calls := random_calls c;
                  insight_calls := insight_calls c |}).

(** [Math.random()] *)
Definition Math_random (rt : runtime) : M float :=
  fun c => Ok (random rt (random_calls c),
               {| clock_calls := clock_calls c; random_calls := S (random_calls c);
                  insight_calls := insight_calls c |}).

(** [createAiInsight(symbol, pool, issuedAtMillis)], the pool being the
    one of the symbol. *)
Definition createAiInsight (rt : runtime) (symbol : string) (issuedAtMillis : float)
  : M value :=
  fun c => match insight rt symbol issuedAtMillis (insight_calls c) with
           | Ok v => Ok (v, {| clock_calls := clock_calls c;
                               random_calls := random_calls c;
                               insight_calls := S (insight_calls c) |})
           | Throw => Throw
           | Unmodelled => Unmodelled
           end.

(** [randomAiInterval(baseMillis)] *)
Definition randomAiInterval (rt : runtime) (baseMillis : float) : M float :=
  do r <- Math_random rt;
  let span := (AI_MIN_INTERVAL + r * (AI_MAX_INTERVAL - AI_MIN_INTERVAL))%float in
  retM (baseMillis + span)%float.

(** [new Date(randomAiInterval(baseMillis)).toISOString()] *)
Definition nextRefresh (rt : runtime) (baseMillis : float) : M value :=
  do next <- randomAiInterval rt baseMillis;
  do iso <- liftM (toISOString rt next);
  retM (VStr iso).

(** [Date.parse(v)]: [v] is made a string first, which throws where
    [String(v)] does. *)
Definition Date_parse (rt : runtime) (v : value) : result float :=
  if unprintable v then Throw else Ok (parse rt v).

(** [const lastIssued = Date.parse(state.entries[0]?.issuedAt || Date.now());
     const base = Number.isNaN(lastIssued) ? Date.now() : lastIssued;] *)
Definition lastIssuedBase (rt : runtime) (state : value) : M float :=
  do entries <- liftM (get_prop state "entries");
  do first <- liftM (get_prop entries "0");
  let issuedAt := if nullish first then VUndef else lookup_prop first "issuedAt" in
  do arg <- (if truthy issuedAt then retM issuedAt
             else do t <- Date_now rt; retM (VNum t));
  do lastIssued <- liftM (Date_parse rt arg);
  if is_nan lastIssued then Date_now rt else retM lastIssued.

(** [!!entries.length]: an array has a length other than zero unless it is
    empty. *)
Definition has_length (entries : value) : result bool :=
  match entries with
  | VArr l => Ok (negb (bool_decide (l = [])))
  | _ => let* length := get_prop entries "length" in Ok (truthy length)
  end.

(** [if (!user.aiInsights) user.aiInsights = {};] *)
Definition defaultAiInsights (user : gmap string value) : gmap string value :=
  if truthy (lookup_prop (VObj user) "aiInsights") then user
  else <["aiInsights" := VObj ∅]> user.

(** The four tests of [ensureAiState], each with what it leaves. *)

(** [if (!user.aiInsights[symbol]) { ... }]: [user.aiInsights] after it. *)
Definition ensureSymbol (rt : runtime) (aiInsights : value) (symbol : string) : M value :=
  do stored <- liftM (get_prop aiInsights symbol);
  if truthy stored then retM aiInsights
  else
    do t <- Date_now rt;
    do initialInsight <- createAiInsight rt symbol t;
    do t' <- Date_now rt;
    do nextRefreshAt <- nextRefresh rt t';
    liftM (set_prop aiInsights symbol
            (VObj (<["entries" := VArr [initialInsight]]>
                     {[ "nextRefreshAt" := nextRefreshAt ]}))).

(** [if (!Array.isArray(state.entries)) state.entries = [];] *)
Definition ensureEntries (state : value) : M value :=
  do entries <- liftM (get_prop state "entries");
  if isArray entries then retM state
  else liftM (set_prop state "entries" (VArr [])).

(** [if (!state.entries.length) { ... }] *)
Definition ensureFirst (rt : runtime) (symbol : string) (state : value) : M value :=
  do entries <- liftM (get_prop state "entries");
  do nonempty <- liftM (has_length entries);
  if nonempty then retM state
  else
    do t <- Date_now rt;
    do initialInsight <- createAiInsight rt symbol t;
    do state <- liftM (set_prop state "entries" (VArr [initialInsight]));
    do t' <- Date_now rt;
    do nextRefreshAt <- nextRefresh rt t';
    liftM (set_prop state "nextRefreshAt" nextRefreshAt).

(** [if (!state.nextRefreshAt) { ... }] *)
Definition ensureNextRefresh (rt : runtime) (state : value) : M value :=
  do stored <- liftM (get_prop state "nextRefreshAt");
  if truthy stored then retM state
  else
    do base <- lastIssuedBase rt state;
    do nextRefreshAt <- nextRefresh rt base;
    liftM (set_prop state "nextRefreshAt" nextRefreshAt).

(** [ensureAiState(user, symbol, pool)]: the record of the user as the
    function leaves it, and the state it returns, which is the object
    under [user.aiInsights[symbol]]. *)
Definition ensureAiState (rt : runtime) (user : gmap string value) (symbol : string)
  : M (gmap string value * value) :=
  let user := defaultAiInsights user in
  do aiInsights <- ensureSymbol rt (lookup_prop (VObj user) "aiInsights") symbol;
  do state <- liftM (get_prop aiInsights symbol);
  do state <- ensureEntries state;
  do state <- ensureFirst rt symbol state;
  do state <- ensureNextRefresh rt state;
  do aiInsights <- liftM (set_prop aiInsights symbol state);
  retM (<["aiInsights" := aiInsights]> user, state).

(** The loop of [rollAiState]; [budget] is [10 - iterations]. *)
Fixpoint roll (rt : runtime) (symbol : string) (now : float) (budget : nat)
    (state : value) (nextMillis : float) : M (value * float) :=
  match budget with
  | O => retM (state, nextMillis)
  | S budget' =>
      if (nextMillis <=? now)%float then
        do insight <- createAiInsight rt symbol nextMillis;
        do entries <- liftM (get_prop state "entries");
        match entries with
        | VArr l =>
            do state <- liftM (set_prop state "entries" (VArr (firstn 3 (insight :: l))));
            do nextMillis <- randomAiInterval rt nextMillis;
            roll rt symbol now budget' state nextMillis
        | _ => liftM Throw
        end
      else retM (state, nextMillis)
  end.

(** [rollAiState(state, pool, symbol)] *)
Definition rollAiState (rt : runtime) (state : value) (symbol : string) : M value :=
  do now <- Date_now rt;
  do stored <- liftM (get_prop state "nextRefreshAt");
  do parsed <- liftM (Date_parse rt (or_else stored (VStr "")));
  do nextMillis <-
    (if is_nan parsed then
       do base <- lastIssuedBase rt state;
       randomAiInterval rt base
     else retM parsed);
  do rolled <- roll rt symbol now 10 state nextMillis;
  let '(state, nextMillis) := rolled in
  do iso <- liftM (toISOString rt nextMillis);
  liftM (set_prop state "nextRefreshAt" (VStr iso)).

Definition no_calls : calls :=
  {| clock_calls := 0; random_calls := 0; insight_calls := 0 |}.

(** [(searchParams.get('symbol') || 'HOG').toUpperCase()] *)
Definition insights_symbol (symbolParam : option string) : string :=
  toUpperCase (match symbolParam with
               | Some s => if bool_decide (s = "") then "HOG" else s
               | None => "HOG"
               end).

(** [ensureAiState] and [rollAiState] on the record of the user: the
    record with the state rolled under [aiInsights[symbol]], and that
    state. *)
Definition refresh (rt : runtime) (user : gmap string value) (symbol : string)
  : M (gmap string value * value) :=
  do ensured <- ensureAiState rt user symbol;
  let '(user, state) := ensured in
  do state <- rollAiState rt state symbol;
  do aiInsights <- liftM (set_prop (lookup_prop (VObj user) "aiInsights") symbol state);
  retM (<["aiInsights" := aiInsights]> user, state).

(** [handleAiInsights(req, res, searchParams)] *)
Definition handleAiInsights (w : world) (authorization : option string)
    (symbolParam : option string) (rt : runtime) : reply * world :=
  withAuth w authorization (fun username =>
    match readUsers (file w) with
    | Throw => (Ledger Uncaught, w)
    | Unmodelled => (Ledger NotModelled, w)
    | Ok (users, store1) =>
        match account_name users username with
        | None => (Ledger NotModelled, with_file w store1)
        | Some name =>
            match default VUndef (users !! name) with
            | VObj user =>
                let user := defaultAiInsights user in
                let symbol := insights_symbol symbolParam in
                match refresh rt user symbol no_calls with
                | Ok ((user', state), _) =>
                    (InsightsOk symbol (lookup_prop state "entries")
                                (lookup_prop state "nextRefreshAt"),
                     with_file w (writeUsers (<[name := VObj user']> users)))
                | Throw => (Ledger Uncaught, with_file w store1)
                | Unmodelled => (Ledger NotModelled, with_file w store1)
                end
            | user =>
                if truthy user then (Ledger NotModelled, with_file w store1)
                else (Ledger UnknownAccount, with_file w store1)
            end
        end
    end).

(** *** The router *)

(** What the callback of [http.createServer] reads of a request:
    [pathname] and [symbolParam] are [parsedUrl.pathname] and
    [parsedUrl.searchParams.get('symbol')]. *)
Record request : Type := {
  method : string;
  pathname : string;
  authorization : option string;
  symbolParam : option string;
  payload : option value
}.

Definition routed (req : request) (m path : string) : bool :=
  bool_decide (method req = m) && bool_decide (pathname req = path).

(** The callback of [http.createServer]. *)
Definition server (w : world) (req : request) (rt : runtime) : reply * world :=
  if String.prefix "/api/" (pathname req) then
    if routed req "POST" "/api/register" then api_register w (payload req)
    else if routed req "POST" "/api/login" then handleLogin w (payload req) rt
    else if routed req "POST" "/api/logout" then handleLogout w (authorization req)
    else if routed req "GET" "/api/summary" then handleSummary w (authorization req)
    else if routed req "GET" "/api/history"
    then api_history w (authorization req) (symbolParam req)
    else if routed req "POST" "/api/trade"
    then api_trade w (authorization req) (payload req) rt
    else if routed req "GET" "/api/ai-insights"
    then handleAiInsights w (authorization req) (symbolParam req) rt
    else (NoSuchEndpoint, w)
  else if bool_decide (method req = "GET") then (ServeStatic (pathname req), w)
  else (MethodNotAllowed, w).

End Api.

(** ** The server at work *)

Module Running.
Import JS Server Ledger Api.

(** The state when the process starts on the users file [store]: no
    session. *)
Definition boot (store : gmap string value) : world :=
  {| file := store; sessions := ∅; userSessions := ∅; objects := 0 |}.

(** The states the server can come to be in, one request being handled
    after the other: it starts on the file [{}], a restart keeps the file
    and forgets the sessions. *)
Inductive running : world -> Prop :=
| run_start : running (boot ∅)
| run_restart w : running w -> running (boot (file w))
| run_request w req rt : running w -> running (server w req rt).2.

(** The ways a request changes the users file. *)
Inductive file_change (s : gmap string value) : gmap string value -> Prop :=
| change_none : file_change s s
| change_register name password :
    s !! name = None ->
    file_change s (writeUsers (<[name := newAccount password]> s))
| change_trade name o type symbol q p id timestamp user' entry :
    s !! name = Some (VObj o) ->
    symbol <> "" -> (0 <? q)%float = true -> (0 <? p)%float = true ->
    settle o type symbol q p id timestamp = Ok (Settled user' entry) ->
    file_change s (writeUsers (<[name := VObj user']> s))
| change_insights name o rt symbol user' state c :
    s !! name = Some (VObj o) ->
    refresh rt (defaultAiInsights o) symbol no_calls = Ok (user', state, c) ->
    file_change s (writeUsers (<[name := VObj user']> s)).

(** The size of a value, for induction on what an object or an array
    holds. *)
Fixpoint vsize (v : value) : nat :=
  match v with
  | VArr l => S (list_sum (List.map vsize l))
  | VObj o => S (map_fold (fun _ x acc => vsize x + acc)%nat 0%nat o)
  | _ => 1%nat
  end.

(** The newest entry of the history shows the balance of the record; a
    record without history holds the initial balance. *)
Definition audited (u : value) : Prop :=
  match lookup_prop u "history" with
  | VArr (entry :: _) => lookup_prop entry "balanceAfter" = lookup_prop u "balance"
  | VArr [] => lookup_prop u "balance" = VNum INITIAL_BALANCE
  | _ => True
  end.

(** A state of the insights of a symbol: one to three entries and the
    time of the next refresh. *)
Definition state_ok (state : value) : Prop :=
  exists so l iso,
    state = VObj so /\ so !! "entries" = Some (VArr l) /\
    l <> [] /\ (length l <= 3)%nat /\
    so !! "nextRefreshAt" = Some (VStr iso).

Definition insights_ok (u : value) : Prop :=
  forall ai symbol state,
    lookup_prop u "aiInsights" = VObj ai -> ai !! symbol = Some state -> state_ok state.

(** The newest entry of a history for a symbol. *)
Definition newest (symbol : string) (history : value) : option value :=
  match history with
  | VArr l => List.find (fun entry => is_string symbol (lookup_prop entry "symbol")) l
  | _ => None
  end.

(** The position of the holding that an entry with [positionAfter]
    leaves: none where the position is zero. *)
Definition position_shown (positionAfter : value) : value :=
  match positionAfter with
  | VNum f => if (f =? 0)%float then VUndef else positionAfter
  | _ => positionAfter
  end.

(** The position of every holding is the one that the newest entry of its
    symbol shows; a symbol without entry has no holding. *)
Definition positions_audited (u : value) : Prop :=
  forall symbol,
    lookup_prop (lookup_prop (lookup_prop u "holdings") symbol) "position"
    = match newest symbol (lookup_prop u "history") with
      | Some entry => position_shown (lookup_prop entry "positionAfter")
      | None => VUndef
      end.

(** What holds of every file the server writes. *)
Definition file_ok (s : gmap string value) : Prop :=
  good_store s /\ writeUsers s = s /\
  map_Forall (fun _ u => audited u) s /\ map_Forall (fun _ u => insights_ok u) s /\
  map_Forall (fun _ u => positions_audited u) s.

(** What holds of every state the server comes to be in. *)
Record world_ok (w : world) : Prop := {
  ok_file : file_ok (file w);
  ok_sessions :
    forall t s, sessions w !! t = Some s -> userSessions w !! session_key s = Some t;
  ok_users :
    forall t s, sessions w !! t = Some s ->
                truthy (username s) = true /\
                exists name, ToString (username s) = Ok name /\ is_Some (file w !! name);
  ok_objects :
    forall n t, userSessions w !! KObject n = Some t -> (n < objects w)%nat
}.

End Running.

(** ** Sample requests *)

Module Samples.
Import JS Server Ledger Examples Api Running.

Definition credentials (name : string) (password : value) : value :=
  VObj {[ "username" := VStr name; "password" := password ]}.

(** Credentials whose user name is any value. *)
Definition credentials_of (username password : value) : value :=
  VObj {[ "username" := username; "password" := password ]}.

Definition post (path : string) (authorization : option string) (body : value)
  : request :=
  {| method := "POST"; pathname := path; authorization := authorization;
     symbolParam := None; payload := Some body |}.

Definition get (path : string) (authorization : option string)
    (symbolParam : option string) : request :=
  {| method := "GET"; pathname := path; authorization := authorization;
     symbolParam := symbolParam; payload := None |}.

(** A runtime whose clock stands still, whose stored dates read as long
    past, and that draws the token and the identifier given. *)
Definition clockwork (token uuid : string) : runtime :=
  {| token := token; uuid := uuid; isoNow := "2024-01-01T00:00:00.000Z";
     now := fun _ => 1704067200000%float;
     random := fun _ => 0.5%float;
     insight := fun symbol issuedAtMillis n =>
                  Ok (VObj {[ "symbol" := VStr symbol; "confidence" := VNum 55 ]});
     toISOString := fun _ => Ok "2024-01-01T18:00:00.000Z";
     parse := fun _ => 0%float |}.

(** The same runtime, but that stored dates read as one day ahead. *)
Definition patient : runtime :=
  {| token := ""; uuid := ""; isoNow := "2024-01-01T00:00:00.000Z";
     now := fun _ => 1704067200000%float;
     random := fun _ => 0.5%float;
     insight := fun symbol issuedAtMillis n =>
                  Ok (VObj {[ "symbol" := VStr symbol; "confidence" := VNum 55 ]});
     toISOString := fun _ => Ok "2024-01-02T00:00:00.000Z";
     parse := fun _ => 1704153600000%float |}.

(** Ann registers, logs in, buys 10 HOG at 120, asks for insights, and
    logs in once more from elsewhere. *)
Definition ann_registered : world :=
  (server (boot ∅) (post "/api/register" None (credentials "ann" (VStr "secret")))
     (clockwork "" "")).2.
Definition ann_logged_in : world :=
  (server ann_registered (post "/api/login" None (credentials "ann" (VStr "secret")))
     (clockwork "token-1" "")).2.
Definition ann_bought : world :=
  (server ann_logged_in
     (post "/api/trade" (Some "Bearer token-1") (order "buy" " hog " 10 120))
     (clockwork "" "id-1")).2.
Definition ann_advised : world :=
  (server ann_bought (get "/api/ai-insights" (Some "Bearer token-1") (Some "hog"))
     (clockwork "" "")).2.
Definition ann_elsewhere : world :=
  (server ann_advised (post "/api/login" None (credentials "ann" (VStr "secret")))
     (clockwork "token-2" "")).2.

(** Ann logs in twice more, the name in a list: [users[['ann']]] is the
    record of [ann]. *)
Definition ann_listed : world :=
  (server ann_logged_in
     (post "/api/login" None (credentials_of (VArr [VStr "ann"]) (VStr "secret")))
     (clockwork "token-2" "")).2.
Definition ann_listed_twice : world :=
  (server ann_listed
     (post "/api/login" None (credentials_of (VArr [VStr "ann"]) (VStr "secret")))
     (clockwork "token-3" "")).2.

(** Somebody registers under the empty list, which is the empty name, and
    logs in. *)
Definition nobody_registered : world :=
  (server (boot ∅) (post "/api/register" None (credentials_of (VArr []) (VStr "secret")))
     (clockwork "" "")).2.
Definition nobody_logged_in : world :=
  (server nobody_registered
     (post "/api/login" None (credentials_of (VArr []) (VStr "secret")))
     (clockwork "token-0" "")).2.

(** Bob registers with a password that is a list. *)
Definition bob_registered : world :=
  (server ann_logged_in
     (post "/api/register" None (credentials "bob" (VArr [VStr "secret"])))
     (clockwork "" "")).2.

(** What was answered. *)
Definition insights_of (r : reply) : value :=
  match r with InsightsOk _ insights _ => insights | _ => VUndef end.

Definition entry_of (r : reply) : value :=
  match r with Ledger (TradeOk entry) => entry | _ => VUndef end.

(** The record of Ann after the insights request, the insights in it,
    and those of HOG. *)
Definition ann_record : gmap string value := fields (account (file ann_advised) "ann").
Definition ann_insights : gmap string value :=
  fields (lookup_prop (VObj ann_record) "aiInsights").
Definition ann_hog : gmap string value := fields (lookup_prop (VObj ann_insights) "HOG").
Definition ann_hog_entries : list value :=
  match lookup_prop (VObj ann_hog) "entries" with VArr l => l | _ => [] end.

(** The entry of the purchase of Ann. *)
Definition ann_entry : value :=
  entry_of (api_trade ann_logged_in (Some "Bearer token-1")
              (Some (order "buy" " hog " 10 120)) (clockwork "" "id-1")).1.

End Samples.

(** ** Code points and bytes

    What the statements on [trim] and [toUpperCase] are made of. *)

Module Text.
Import JS.

(** A code point, as against a stray byte. *)
Definition is_point (c : Z) : bool := (0 <=? c) && (c <? 1114112).

(** A byte that begins no character, before the bytes [l]. *)
Definition lone (b0 : Z) (l : list ascii) : bool :=
  match l with
  | a1 :: l2 =>
      match two b0 (byte a1) with
      | Some _ => false
      | None =>
          match l2 with
          | a2 :: l3 =>
              match three b0 (byte a1) (byte a2) with
              | Some _ => false
              | None =>
                  match l3 with
                  | a3 :: _ =>
                      match four b0 (byte a1) (byte a2) (byte a3) with
                      | Some _ => false
                      | None => true
                      end
                  | [] => true
                  end
              end
          | [] => true
          end
      end
  | [] => true
  end.

(** The bytes that continue a character, of the first [n]. *)
Fixpoint ahead (n : nat) (l : list ascii) : list ascii :=
  match n, l with
  | S n', a :: l' => if continues (byte a) then a :: ahead n' l' else []
  | _, _ => []
  end.

(** A list of code points and stray bytes that [decode] gives back from
    its bytes: the strays of it begin no character. *)
Definition decoded (l : list Z) : Prop := decode (flat_map encode l) = l.

(** The code points of a row of [simple_upper]. *)
Definition row (e : Z * Z * Z * Z) : list Z :=
  let '(lo, hi, step, _) := e in
  List.map (fun k => lo + step * Z.of_nat k) (seq 0 (Z.to_nat ((hi - lo) / step) + 1)).

(** [c] is one of them. *)
Definition in_row (c : Z) (e : Z * Z * Z * Z) : bool :=
  let '(lo, hi, step, _) := e in
  (lo <=? c) && (c <=? hi) && ((c - lo) mod step =? 0).

(** How far the upper case is. *)
Definition delta (e : Z * Z * Z * Z) : Z := e.2.

Definition same (l l' : list Z) : bool := bool_decide (l = l').

(** No white space in front. *)
Definition clean (l : list Z) : Prop :=
  match l with
  | [] => True
  | c :: _ => is_ws c = false
  end.

End Text.

(** ** Facts on binary64 arithmetic *)

Module FloatFacts.
Import JS Ledger.
Local Open Scope Z_scope.

Lemma Prim2SF_zero : Prim2SF 0%float = S754_zero false.
Proof. reflexivity. Qed.

Lemma leb_zero (f : float) : (0 <=? f)%float = SFnonneg (Prim2SF f).
Proof.
  rewrite leb_spec, Prim2SF_zero.
  destruct (Prim2SF f) as [[]|[]| |[] m e]; reflexivity.
Qed.

Lemma ltb_zero (f : float) : (0 <? f)%float = SFpositive (Prim2SF f).
Proof.
  rewrite ltb_spec, Prim2SF_zero.
  destruct (Prim2SF f) as [[]|[]| |[] m e]; reflexivity.
Qed.

Lemma shr_1_nonneg mrs : 0 <= shr_m mrs -> 0 <= shr_m (shr_1 mrs).
Proof.
  destruct mrs as [m r s]; simpl.
  destruct m as [|[p|p|]|[p|p|]]; simpl; lia.
Qed.

Lemma iter_shr_1_nonneg p : forall mrs,
  0 <= shr_m mrs -> 0 <= shr_m (SpecFloat.iter_pos shr_1 p mrs).
Proof.
  induction p as [p IH|p IH|]; intros mrs H; simpl.
  - apply IH, IH, shr_1_nonneg, H.
  - apply IH, IH, H.
  - apply shr_1_nonneg, H.
Qed.

Lemma shr_fexp_nonneg m e l :
  0 <= m -> 0 <= shr_m (fst (shr_fexp prec emax m e l)).
Proof.
  intros H. unfold shr_fexp, shr.
  assert (H0 : 0 <= shr_m (shr_record_of_loc m l)).
  { destruct l as [|[]]; simpl; exact H. }
  destruct (fexp prec emax (Zdigits2 m + e) - e); simpl; auto.
  apply iter_shr_1_nonneg, H0.
Qed.

Lemma round_nearest_even_nonneg m l : 0 <= m -> 0 <= round_nearest_even m l.
Proof.
  intros H. destruct l as [|[]]; simpl; try lia.
  destruct (Z.even m); lia.
Qed.

Lemma binary_round_aux_sign s m e l :
  0 <= m -> has_sign s (binary_round_aux prec emax s m e l).
Proof.
  intros H. unfold binary_round_aux.
  pose proof (shr_fexp_nonneg m e l H) as H1.
  destruct (shr_fexp prec emax m e l) as [mrs' e']. simpl in H1.
  pose proof (shr_fexp_nonneg _ e' loc_Exact
                (round_nearest_even_nonneg _ (loc_of_shr_record mrs') H1)) as H2.
  destruct (shr_fexp prec emax _ e' loc_Exact) as [mrs'' e'']. simpl in H2.
  destruct (shr_m mrs'') as [|p|p]; simpl; try reflexivity; try lia.
  destruct (e'' <=? emax - prec); reflexivity.
Qed.

Lemma binary_round_sign s m e : has_sign s (binary_round prec emax s m e).
Proof.
  unfold binary_round.
  destruct (shl_align m e _) as [mz ez].
  apply binary_round_aux_sign. lia.
Qed.

Lemma has_sign_nonneg x : has_sign false x -> SFnonneg x = true.
Proof. destruct x as [s|s| |s m e]; simpl; intros H; subst; tauto. Qed.

Lemma binary_normalize_nonneg m e :
  0 <= m -> SFnonneg (binary_normalize prec emax m e false) = true.
Proof.
  intros H. destruct m as [|p|p]; simpl; try reflexivity; try lia.
  apply has_sign_nonneg, binary_round_sign.
Qed.

Lemma SFmul_nonneg x y :
  SFpositive x = true -> SFpositive y = true ->
  SFnonneg (SFmul prec emax x y) = true.
Proof.
  destruct x as [sx|[]| |[] mx ex], y as [sy|[]| |[] my ey]; simpl; try discriminate;
    intros _ _; try reflexivity.
  apply has_sign_nonneg, binary_round_aux_sign. lia.
Qed.

Lemma SFadd_nonneg x y :
  SFnonneg x = true -> SFnonneg y = true ->
  SFnonneg (SFadd prec emax x y) = true.
Proof.
  destruct x as [[]|[]| |[] mx ex], y as [[]|[]| |[] my ey]; simpl; try discriminate;
    intros _ _; try reflexivity.
  apply has_sign_nonneg, binary_round_sign.
Qed.

(** [digits2_pos] counts binary digits. *)
Lemma digits2_pos_bounds (m : positive) :
  2 ^ (Z.pos (digits2_pos m) - 1) <= Z.pos m < 2 ^ Z.pos (digits2_pos m).
Proof.
  induction m as [m IH|m IH|]; simpl digits2_pos.
  - rewrite Pos2Z.inj_succ.
    replace (Z.succ (Z.pos (digits2_pos m)) - 1) with (Z.succ (Z.pos (digits2_pos m) - 1)) by lia.
    rewrite !Z.pow_succ_r by lia. lia.
  - rewrite Pos2Z.inj_succ.
    replace (Z.succ (Z.pos (digits2_pos m)) - 1) with (Z.succ (Z.pos (digits2_pos m) - 1)) by lia.
    rewrite !Z.pow_succ_r by lia. lia.
  - simpl. lia.
Qed.

Lemma iter_xO (d m : positive) : Z.pos (Pos.iter xO m d) = Z.pos m * 2 ^ Z.pos d.
Proof.
  revert m. induction d as [|d IH] using Pos.peano_ind; intros m.
  - simpl. lia.
  - rewrite Pos.iter_succ, Pos2Z.inj_succ, Z.pow_succ_r by lia.
    rewrite Pos2Z.inj_xO, IH. lia.
Qed.

(** A valid mantissa has at most [prec] digits, exactly [prec] above the
    least exponent. *)
Lemma bounded_digits m e :
  bounded prec emax m e = true ->
  emin <= e /\ Z.pos m < 2 ^ prec /\ (emin < e -> 2 ^ (prec - 1) <= Z.pos m).
Proof.
  unfold bounded, canonical_mantissa, fexp. intros H.
  apply andb_prop in H as [H _]. apply Z.eqb_eq in H.
  pose proof (digits2_pos_bounds m) as [Hlo Hhi].
  set (d := Z.pos (digits2_pos m)) in *.
  assert (Hd : 0 < d) by (unfold d; lia).
  unfold SpecFloat.emin in *. change prec with 53 in *. change emax with 1024 in *.
  split; [lia|]. split.
  - apply Z.lt_le_trans with (1 := Hhi). apply Z.pow_le_mono_r; lia.
  - intros He. assert (d = 53) by lia. replace (53 - 1) with (d - 1) by lia. exact Hlo.
Qed.

Lemma SFsub_nonneg x y :
  valid_binary x = true -> valid_binary y = true ->
  SFnonneg x = true -> SFnonneg y = true ->
  (forall s, x <> S754_infinity s) ->
  SFltb x y = false ->
  SFnonneg (SFsub prec emax x y) = true.
Proof.
  intros Vx Vy Nx Ny Fx Hlt.
  destruct x as [sx|sx| |sx mx ex]; try discriminate; [| exfalso; eapply Fx; reflexivity |].
  - destruct y as [sy|[]| |[] my ey]; try discriminate.
    destruct sx, sy; reflexivity.
  - destruct sx; try discriminate.
    destruct y as [sy|[]| |[] my ey]; try discriminate; try reflexivity.
    simpl in Vx, Vy.
    apply bounded_digits in Vx as (Hex & Hmx & Hnx).
    apply bounded_digits in Vy as (Hey & Hmy & Hny).
    unfold SFltb, SFcompare in Hlt. unfold SFsub.
    apply binary_normalize_nonneg. unfold cond_Zopp.
    destruct (Z.compare_spec ex ey) as [Heq|Hl|Hg]; try discriminate.
    + subst ey. rewrite Z.min_id. unfold shl_align. rewrite Z.sub_diag. simpl.
      rewrite Pos.compare_cont_spec in Hlt. simpl in Hlt.
      destruct (Pos.compare_spec mx my) as [?|?|?]; try discriminate; lia.
    + rewrite Z.min_r by lia. unfold shl_align at 2. rewrite Z.sub_diag. simpl fst.
      unfold shl_align. destruct (ey - ex) as [|d|d] eqn:Hd; try lia.
      simpl fst. rewrite iter_xO.
      assert (2 ^ 1 <= 2 ^ Z.pos d) by (apply Z.pow_le_mono_r; lia).
      specialize (Hnx ltac:(lia)).
      change (2 ^ prec) with (2 * 2 ^ (prec - 1)) in *. change (2 ^ 1) with 2 in *. nia.
Qed.

(** *** The same facts on primitive floats *)

Local Open Scope float_scope.

Lemma SFcompare_refl_finite s m e :
  SFcompare (S754_finite s m e) (S754_finite s m e) = Some Eq.
Proof.
  simpl. rewrite Z.compare_refl, Pos.compare_cont_refl. destruct s; reflexivity.
Qed.

Lemma is_nan_spec f : is_nan f = match Prim2SF f with S754_nan => true | _ => false end.
Proof.
  unfold is_nan. rewrite FloatAxioms.eqb_spec. unfold SFeqb.
  destruct (Prim2SF f) as [[]|[]| |s m e]; try reflexivity.
  rewrite SFcompare_refl_finite. reflexivity.
Qed.

Lemma is_zero_spec f : is_zero f = match Prim2SF f with S754_zero _ => true | _ => false end.
Proof.
  unfold is_zero. rewrite FloatAxioms.eqb_spec. change (Prim2SF PrimFloat.zero) with (S754_zero false).
  destruct (Prim2SF f) as [[]|[]| |[] m e]; reflexivity.
Qed.

Lemma eqb_zero_spec f : (f =? 0) = match Prim2SF f with S754_zero _ => true | _ => false end.
Proof. exact (is_zero_spec f). Qed.

Lemma is_finite_spec f :
  is_finite f = match Prim2SF f with S754_zero _ | S754_finite _ _ _ => true | _ => false end.
Proof.
  unfold is_finite, is_infinity. rewrite is_nan_spec, FloatAxioms.eqb_spec, abs_spec.
  change (Prim2SF infinity) with (S754_infinity false).
  destruct (Prim2SF f) as [[]|[]| |[] m e]; reflexivity.
Qed.

(** [!q || q <= 0] is the negation of [q > 0]. *)
Lemma not_positive q : falsy_num q || (q <=? 0) = negb (0 <? q).
Proof.
  unfold falsy_num. rewrite is_nan_spec, eqb_zero_spec, ltb_zero, leb_spec.
  change (Prim2SF 0) with (S754_zero false).
  destruct (Prim2SF q) as [[]|[]| |[] m e]; reflexivity.
Qed.

Lemma positive_nonneg q : (0 <? q) = true -> (0 <=? q) = true.
Proof.
  rewrite ltb_zero, leb_zero. destruct (Prim2SF q) as [[]|[]| |[] m e]; auto.
Qed.

Lemma mul_nonneg x y : (0 <? x) = true -> (0 <? y) = true -> (0 <=? x * y) = true.
Proof. rewrite !ltb_zero, leb_zero, mul_spec. apply SFmul_nonneg. Qed.

Lemma add_nonneg x y : (0 <=? x) = true -> (0 <=? y) = true -> (0 <=? x + y) = true.
Proof. rewrite !leb_zero, add_spec. apply SFadd_nonneg. Qed.

Lemma sub_nonneg x y :
  (0 <=? x) = true -> (0 <=? y) = true -> is_finite x = true ->
  (x <? y) = false -> (0 <=? x - y) = true.
Proof.
  rewrite !leb_zero, is_finite_spec, ltb_spec, sub_spec. intros Hx Hy Fx Hlt.
  apply SFsub_nonneg; auto using Prim2SF_valid.
  intros s E. rewrite E in Fx. discriminate.
Qed.

Lemma or_zero_nonneg f : (0 <=? f) = true -> (0 <=? or_zero f) = true.
Proof. unfold or_zero. destruct (falsy_num f); auto. Qed.

Lemma or_zero_finite f : is_finite f = true -> is_finite (or_zero f) = true.
Proof. unfold or_zero. destruct (falsy_num f); auto. Qed.

Lemma or_zero_not_nan f : is_nan (or_zero f) = false.
Proof.
  unfold or_zero, falsy_num. destruct (f =? 0) eqn:E; simpl; [reflexivity|].
  destruct (is_nan f) eqn:N; [reflexivity | exact N].
Qed.

(** *** Sums that are not zero *)

Local Open Scope Z_scope.

Lemma shr_1_div mrs : 0 <= shr_m mrs -> shr_m (shr_1 mrs) = shr_m mrs / 2.
Proof.
  destruct mrs as [m r s]. cbn [shr_m].
  destruct m as [|[p|p|]|[p|p|]]; cbn [shr_1 shr_m]; intros H; try lia.
  - reflexivity.
  - apply Z.div_unique with 1; lia.
  - apply Z.div_unique with 0; lia.
  - reflexivity.
Qed.

Lemma pow2_xO p : 2 ^ Z.pos p~0 = 2 ^ Z.pos p * 2 ^ Z.pos p.
Proof. rewrite <- Z.pow_add_r by lia. f_equal. lia. Qed.

Lemma pow2_xI p : 2 ^ Z.pos p~1 = 2 * (2 ^ Z.pos p * 2 ^ Z.pos p).
Proof.
  rewrite <- Z.pow_add_r by lia. rewrite <- Z.pow_succ_r by lia. f_equal. lia.
Qed.

Lemma iter_shr_1_div p : forall mrs,
  0 <= shr_m mrs ->
  shr_m (SpecFloat.iter_pos shr_1 p mrs) = shr_m mrs / 2 ^ Z.pos p.
Proof.
  induction p as [p IH|p IH|]; intros mrs H; simpl SpecFloat.iter_pos.
  - rewrite IH by (apply iter_shr_1_nonneg, shr_1_nonneg, H).
    rewrite IH by (apply shr_1_nonneg, H). rewrite shr_1_div by exact H.
    assert (0 < 2 ^ Z.pos p) by (apply Z.pow_pos_nonneg; lia).
    rewrite !Z.div_div by lia. rewrite pow2_xI. reflexivity.
  - rewrite IH by (apply iter_shr_1_nonneg, H). rewrite IH by exact H.
    assert (0 < 2 ^ Z.pos p) by (apply Z.pow_pos_nonneg; lia).
    rewrite Z.div_div by lia. rewrite pow2_xO. reflexivity.
  - rewrite shr_1_div by exact H. reflexivity.
Qed.

(** Shifting to the exponent of the format keeps a positive mantissa
    positive when the exponent is not below the least one. *)
Lemma shr_fexp_pos m e l :
  0 < m -> emin <= e ->
  0 < shr_m (shr_fexp prec emax m e l).1 /\ emin <= (shr_fexp prec emax m e l).2.
Proof.
  intros Hm He. unfold shr_fexp, shr.
  assert (H0 : shr_m (shr_record_of_loc m l) = m) by (destruct l as [|[]]; reflexivity).
  destruct m as [|p|p]; try lia. simpl Zdigits2.
  pose proof (digits2_pos_bounds p) as [Hlo Hhi].
  set (d := Z.pos (digits2_pos p)) in *.
  assert (Hd : 0 < d) by (unfold d; lia).
  unfold fexp, SpecFloat.emin in *. change prec with 53 in *. change emax with 1024 in *.
  destruct (Z.max (d + e - 53) (3 - 1024 - 53) - e) as [|n|n] eqn:En; simpl; try (rewrite H0; lia).
  rewrite iter_shr_1_div by (rewrite H0; lia). rewrite H0.
  assert (Hn : Z.pos n = d - 53) by lia.
  split; [|lia].
  apply Z.div_str_pos. split; [apply Z.pow_pos_nonneg; lia|].
  apply Z.le_trans with (2 := Hlo). apply Z.pow_le_mono_r; lia.
Qed.

Lemma round_nearest_even_pos m l : 0 < m -> 0 < round_nearest_even m l.
Proof.
  intros H. destruct l as [|[]]; simpl; try lia.
  destruct (Z.even m); lia.
Qed.

Lemma binary_round_aux_positive m e l :
  0 < m -> emin <= e ->
  SFpositive (binary_round_aux prec emax false m e l) = true.
Proof.
  intros Hm He. unfold binary_round_aux.
  pose proof (shr_fexp_pos m e l Hm He) as [H1 H1e].
  destruct (shr_fexp prec emax m e l) as [mrs' e']. simpl in H1, H1e.
  pose proof (shr_fexp_pos _ e' loc_Exact
                (round_nearest_even_pos _ (loc_of_shr_record mrs') H1) H1e) as [H2 _].
  destruct (shr_fexp prec emax _ e' loc_Exact) as [mrs'' e'']. simpl in H2.
  destruct (shr_m mrs'') as [|p|p]; try lia.
  destruct (e'' <=? emax - prec); reflexivity.
Qed.

Lemma binary_round_positive m e :
  emin <= e -> SFpositive (binary_round prec emax false m e) = true.
Proof.
  intros He. unfold binary_round.
  destruct (shl_align m e _) as [mz ez] eqn:Ea.
  apply binary_round_aux_positive; [lia|].
  unfold shl_align in Ea.
  destruct (fexp prec emax (Z.pos (digits2_pos m) + e) - e) eqn:Ed;
    inversion Ea; subst; try lia.
  unfold fexp, SpecFloat.emin. lia.
Qed.

Lemma SFadd_positive x y :
  valid_binary x = true -> valid_binary y = true ->
  SFnonneg x = true -> SFpositive y = true ->
  SFpositive (SFadd prec emax x y) = true.
Proof.
  intros Vx Vy.
  destruct x as [[]|[]| |[] mx ex], y as [sy|[]| |[] my ey]; simpl; try discriminate;
    intros _ _; try reflexivity.
  simpl in Vx, Vy.
  apply bounded_digits in Vx as (Hex & _). apply bounded_digits in Vy as (Hey & _).
  apply binary_round_positive. lia.
Qed.

Local Open Scope float_scope.

(** Adding a positive number to one that is not negative never gives zero. *)
Lemma add_positive x y :
  (0 <=? x) = true -> (0 <? y) = true -> (0 <? x + y) = true.
Proof.
  rewrite leb_zero, !ltb_zero, add_spec. apply SFadd_positive; apply Prim2SF_valid.
Qed.

Lemma positive_not_zero x : (0 <? x) = true -> (x =? 0) = false.
Proof.
  rewrite ltb_zero, eqb_zero_spec. destruct (Prim2SF x) as [[]|[]| |[] m e]; auto; discriminate.
Qed.

End FloatFacts.

(** ** Facts on the users file *)

Module StoreFacts.
Import JS Server Ledger FloatFacts.
Local Open Scope Z_scope.

(** *** [normalizeUsers] *)

Lemma tag_entries_unchanged (l : list value) :
  existsb snd (List.map tag_entry l) = false ->
  List.map fst (List.map tag_entry l) = l.
Proof.
  induction l as [|e l IH]; simpl; [reflexivity|].
  intros H. apply orb_false_elim in H as [He Hl].
  rewrite IH by exact Hl. f_equal.
  unfold tag_entry in *. destruct (truthy e && _); [discriminate | reflexivity].
Qed.

Lemma migrateHoldings_unchanged o : (migrateHoldings o).2 = false -> (migrateHoldings o).1 = o.
Proof. unfold migrateHoldings. destruct (truthy _); simpl; [reflexivity | discriminate]. Qed.

Lemma ensureHistory_unchanged o : (ensureHistory o).2 = false -> (ensureHistory o).1 = o.
Proof. unfold ensureHistory. destruct (isArray _); simpl; [reflexivity | discriminate]. Qed.

Lemma ensureAiInsights_unchanged o :
  (ensureAiInsights o).2 = false -> (ensureAiInsights o).1 = o.
Proof. unfold ensureAiInsights. destruct (truthy _); simpl; [reflexivity | discriminate]. Qed.

Lemma tagHistory_unchanged o : (tagHistory o).2 = false -> (tagHistory o).1 = o.
Proof.
  unfold tagHistory. simpl.
  destruct (o !! "history") as [[]|] eqn:Hh; simpl; try reflexivity.
  intros Hl. rewrite tag_entries_unchanged by exact Hl. apply insert_id, Hh.
Qed.

Lemma normalizeRecord_parts o :
  normalizeRecord o =
  ((tagHistory (ensureAiInsights (ensureHistory (migrateHoldings o).1).1).1).1,
   (migrateHoldings o).2 || (ensureHistory (migrateHoldings o).1).2
   || (ensureAiInsights (ensureHistory (migrateHoldings o).1).1).2
   || (tagHistory (ensureAiInsights (ensureHistory (migrateHoldings o).1).1).1).2).
Proof.
  unfold normalizeRecord.
  destruct (migrateHoldings o) as [o1 u1]; simpl.
  destruct (ensureHistory o1) as [o2 u2]; simpl.
  destruct (ensureAiInsights o2) as [o3 u3]; simpl.
  destruct (tagHistory o3) as [o4 u4]; reflexivity.
Qed.

(** Where [updated] stays false the record is the one given. *)
Lemma normalizeRecord_unchanged (o : gmap string value) :
  (normalizeRecord o).2 = false -> (normalizeRecord o).1 = o.
Proof.
  rewrite normalizeRecord_parts. simpl. intros H.
  apply orb_false_elim in H as [H H4].
  apply orb_false_elim in H as [H H3].
  apply orb_false_elim in H as [H1 H2].
  apply migrateHoldings_unchanged in H1. rewrite H1 in *.
  apply ensureHistory_unchanged in H2. rewrite H2 in *.
  apply ensureAiInsights_unchanged in H3. rewrite H3 in *.
  apply tagHistory_unchanged in H4. exact H4.
Qed.

Lemma current_shape_normalizeRecord o :
  current_shape o -> normalizeRecord o = (o, false).
Proof.
  intros (Hh & Ha & l & Hl & Ht).
  assert (E1 : migrateHoldings o = (o, false)).
  { unfold migrateHoldings. rewrite Hh. reflexivity. }
  assert (E2 : ensureHistory o = (o, false)).
  { unfold ensureHistory. simpl. rewrite Hl. reflexivity. }
  assert (E3 : ensureAiInsights o = (o, false)).
  { unfold ensureAiInsights. rewrite Ha. reflexivity. }
  assert (E4 : (tagHistory o).2 = false).
  { unfold tagHistory. simpl. rewrite Hl. simpl. clear Hl.
    induction Ht as [|e l' He Hl' IH]; simpl; [reflexivity|]. rewrite He. exact IH. }
  rewrite normalizeRecord_parts, E1. simpl. rewrite E2. simpl. rewrite E3. simpl.
  rewrite E4, (tagHistory_unchanged o E4). reflexivity.
Qed.

(** A round of the loop on a record that is an object. *)
Lemma normalizeUser_object o u' b :
  normalizeUser (VObj o) = Ok (u', b) ->
  migration_throws o = false /\
  u' = VObj (normalizeRecord o).1 /\ b = (normalizeRecord o).2.
Proof.
  unfold normalizeUser. simpl. destruct (migration_throws o); [discriminate|].
  destruct (normalizeRecord o) as [o' b']. intros H. inversion H. auto.
Qed.

Lemma normalizeUser_unchanged u u' :
  normalizeUser u = Ok (u', false) -> u' = u.
Proof.
  destruct (truthy u) eqn:T.
  - destruct u; try (unfold normalizeUser; rewrite T; discriminate).
    intros H. apply normalizeUser_object in H as (_ & -> & Hb).
    f_equal. apply normalizeRecord_unchanged. congruence.
  - unfold normalizeUser. rewrite T. simpl. congruence.
Qed.

(** What [normalizeUsers] returns when it returns. *)
Lemma normalizeUsers_Ok store users store1 :
  normalizeUsers store = Ok (users, store1) ->
  (forall k u, store !! k = Some u ->
     exists u' b, normalizeUser u = Ok (u', b) /\ users !! k = Some u') /\
  (forall k, store !! k = None -> users !! k = None) /\
  ((users = store /\ store1 = store) \/ store1 = writeUsers users).
Proof.
  unfold normalizeUsers.
  destruct (decide (map_Exists _ _)) as [|Ht]; [discriminate|].
  destruct (decide (map_Exists _ _)) as [|Hu]; [discriminate|].
  intros H. inversion H as [[Hus Hs1]]. clear H.
  rewrite map_Exists_lookup in Ht, Hu.
  assert (Hall : forall k u, store !! k = Some u ->
            exists u' b, normalizeUser u = Ok (u', b)).
  { intros k u Hk. destruct (normalizeUser u) as [[u' b]| |] eqn:E; [eauto| |].
    - exfalso. apply Ht. exists k, Throw.
      split; [rewrite lookup_fmap, Hk; simpl; congruence | exact I].
    - exfalso. apply Hu. exists k, Unmodelled.
      split; [rewrite lookup_fmap, Hk; simpl; congruence | exact I]. }
  split; [|split].
  - intros k u Hk. destruct (Hall k u Hk) as (u' & b & E). exists u', b. split; [exact E|].
    rewrite !lookup_fmap, Hk. simpl. rewrite E. reflexivity.
  - intros k Hk. rewrite !lookup_fmap, Hk. reflexivity.
  - destruct (decide (map_Exists _ _)) as [|Hn]; [right; reflexivity|].
    left. split; [|reflexivity].
    rewrite map_Exists_lookup in Hn.
    apply map_eq. intros k. rewrite !lookup_fmap.
    destruct (store !! k) as [u|] eqn:Hk; simpl; [|reflexivity].
    destruct (Hall k u Hk) as (u' & b & E). rewrite E. simpl. f_equal.
    destruct b.
    + exfalso. apply Hn. exists k, (Ok (u', true)).
      split; [rewrite lookup_fmap, Hk; simpl; congruence | exact I].
    + eapply normalizeUser_unchanged, E.
Qed.

(** A table of records of the current shape is read as it is, and the file
    is not written. *)
Lemma normalizeUsers_current store :
  (forall k u, store !! k = Some u -> normalizeUser u = Ok (u, false)) ->
  normalizeUsers store = Ok (store, store).
Proof.
  intros Hall. unfold normalizeUsers.
  destruct (decide (map_Exists _ _)) as [Ht|_].
  { apply map_Exists_lookup in Ht as (k & r & Hk & Hr).
    rewrite lookup_fmap in Hk. destruct (store !! k) as [u|] eqn:E; [|discriminate].
    simpl in Hk. rewrite (Hall k u E) in Hk. inversion Hk; subst. contradiction. }
  destruct (decide (map_Exists _ _)) as [Ht|_].
  { apply map_Exists_lookup in Ht as (k & r & Hk & Hr).
    rewrite lookup_fmap in Hk. destruct (store !! k) as [u|] eqn:E; [|discriminate].
    simpl in Hk. rewrite (Hall k u E) in Hk. inversion Hk; subst. contradiction. }
  assert (Hus : record_of <$> (normalizeUser <$> store) = store).
  { apply map_eq. intros k. rewrite !lookup_fmap.
    destruct (store !! k) as [u|] eqn:E; [|reflexivity]. simpl.
    rewrite (Hall k u E). reflexivity. }
  rewrite Hus.
  destruct (decide (map_Exists _ _)) as [Ht|_]; [|reflexivity].
  apply map_Exists_lookup in Ht as (k & r & Hk & Hr).
  rewrite lookup_fmap in Hk. destruct (store !! k) as [u|] eqn:E; [|discriminate].
  simpl in Hk. rewrite (Hall k u E) in Hk. inversion Hk; subst. contradiction.
Qed.



(** *** The accounts the server writes *)

Lemma entry_ok_untagged e : entry_ok e -> (tag_entry e).2 = false.
Proof.
  intros (eo & s & -> & Hs & Hne). unfold tag_entry. simpl. rewrite Hs. simpl.
  rewrite bool_decide_eq_false_2 by exact Hne. reflexivity.
Qed.

Lemma account_ok_current fin u :
  account_ok fin u -> exists o, u = VObj o /\ current_shape o.
Proof.
  intros (o & b & hs & l & ai & -> & Hb & _ & Hh & _ & Hl & Hes & Ha).
  exists o. split; [reflexivity|]. unfold current_shape. simpl.
  rewrite Hh, Ha. simpl. split; [reflexivity|]. split; [reflexivity|].
  exists l. split; [exact Hl|].
  eapply Forall_impl; [exact Hes|]. intros e. apply entry_ok_untagged.
Qed.

(** A record of the current shape is left as it is. *)
Lemma current_shape_normalizeUser o :
  current_shape o -> normalizeUser (VObj o) = Ok (VObj o, false).
Proof.
  intros Hc. unfold normalizeUser, migration_throws. simpl.
  destruct Hc as (Hh & Hc'). simpl in Hh. rewrite Hh. simpl.
  rewrite (current_shape_normalizeRecord o (conj Hh Hc')). reflexivity.
Qed.

Lemma account_ok_normalizeUser fin u :
  account_ok fin u -> normalizeUser u = Ok (u, false).
Proof.
  intros H. apply account_ok_current in H as (o & -> & Hc).
  apply current_shape_normalizeUser, Hc.
Qed.

Lemma good_store_readUsers s : good_store s -> readUsers s = Ok (s, s).
Proof.
  intros H. apply normalizeUsers_current. intros k u Hk.
  eapply account_ok_normalizeUser, H, Hk.
Qed.

(** *** Writing the file and reading it back *)

Lemma json_obj o : json (VObj o) = VObj (omap json_field o).
Proof. reflexivity. Qed.

Lemma json_arr l : json (VArr l) = VArr (List.map json l).
Proof. reflexivity. Qed.

Lemma json_field_defined v : v <> VUndef -> json_field v = Some (json v).
Proof. destruct v; try reflexivity. congruence. Qed.

Lemma json_num_ok fin nz v :
  num_ok fin nz v -> json_field v = Some (json v) /\ num_ok true nz (json v).
Proof.
  intros [->|(f & -> & Hf & Hfin & Hnz)]; (split; [reflexivity|]); [left; reflexivity|].
  simpl. destruct (is_finite f) eqn:Ff; [|left; reflexivity]. right.
  destruct (is_zero f) eqn:Z.
  - exists 0%float. split; [reflexivity|]. split; [reflexivity|]. split; [reflexivity|].
    intros ->. specialize (Hnz eq_refl).
    change ((f =? 0)%float = true) in Z. congruence.
  - exists f. auto.
Qed.

Lemma json_holding_ok fin h :
  holding_ok fin h -> json_field h = Some (json h) /\ holding_ok true (json h).
Proof.
  intros (ho & p & a & -> & Hp & Hok & Ha & Hna). split; [reflexivity|].
  destruct (json_num_ok _ _ _ Hok) as [Hj Hok'].
  exists (omap json_field ho), (json p), (json a). split; [reflexivity|].
  split; [rewrite lookup_omap, Hp; exact Hj|]. split; [exact Hok'|].
  split.
  - rewrite lookup_omap, Ha. destruct Hna as [->|[f ->]]; reflexivity.
  - destruct Hna as [->|[f ->]]; [left; reflexivity|]. simpl.
    destruct (is_finite f); eauto.
Qed.

Lemma json_entry_ok e : entry_ok e -> entry_ok (json e).
Proof.
  intros (eo & s & -> & Hs & Hne).
  exists (omap json_field eo), s. split; [reflexivity|]. split; [|exact Hne].
  rewrite lookup_omap, Hs. reflexivity.
Qed.

(** What the server holds in memory after a trade is a good account once
    written to the file. *)
Lemma json_account_ok fin u :
  account_ok fin u -> json_field u = Some (json u) /\ account_ok true (json u).
Proof.
  intros (o & b & hs & l & ai & -> & Hb & Hbok & Hh & Hhs & Hl & Hes & Ha).
  split; [reflexivity|].
  destruct (json_num_ok _ _ _ Hbok) as [Hjb Hbok'].
  exists (omap json_field o), (json b), (omap json_field hs), (List.map json l),
         (omap json_field ai).
  split; [reflexivity|].
  split; [rewrite lookup_omap, Hb; exact Hjb|].
  split; [exact Hbok'|].
  split; [rewrite lookup_omap, Hh; reflexivity|].
  split.
  { intros k h' Hk. rewrite lookup_omap in Hk.
    destruct (hs !! k) as [h|] eqn:E; [|discriminate]. simpl in Hk.
    destruct (json_holding_ok _ _ (Hhs k h E)) as [Hj Hok].
    rewrite Hj in Hk. inversion Hk; subst. exact Hok. }
  split; [rewrite lookup_omap, Hl; reflexivity|].
  split; [|rewrite lookup_omap, Ha; reflexivity].
  clear Hl. induction Hes as [|e l' He Hl' IH]; simpl; constructor; auto using json_entry_ok.
Qed.

Lemma num_ok_weaken fin nz v : num_ok true nz v -> num_ok fin nz v.
Proof.
  intros [->|(f & -> & H0 & Hf & Hnz)]; [left; reflexivity|right].
  exists f. split; [reflexivity|]. split; [exact H0|]. split; [|exact Hnz].
  intros _. apply Hf. reflexivity.
Qed.

Lemma account_ok_weaken u : account_ok true u -> account_ok false u.
Proof.
  intros (o & b & hs & l & ai & -> & Hb & Hbok & Hh & Hhs & Hl & Hes & Ha).
  exists o, b, hs, l, ai.
  split; [reflexivity|]. split; [exact Hb|].
  split; [apply num_ok_weaken, Hbok|]. split; [exact Hh|].
  split; [|auto].
  intros k h Hk. destruct (Hhs k h Hk) as (ho & p & a & -> & Hp & Hok & Hav).
  exists ho, p, a. split; [reflexivity|]. split; [exact Hp|].
  split; [apply num_ok_weaken, Hok | exact Hav].
Qed.

(** Writing a table of sound accounts gives a good file. *)
Lemma writeUsers_good users :
  map_Forall (fun _ u => account_ok false u) users -> good_store (writeUsers users).
Proof.
  intros H k u' Hk. unfold writeUsers in Hk. rewrite lookup_omap in Hk.
  destruct (users !! k) as [u|] eqn:E; [|discriminate]. simpl in Hk.
  destruct (json_account_ok _ _ (H k u E)) as [Hj Hok].
  rewrite Hj in Hk. inversion Hk; subst. exact Hok.
Qed.

Lemma newAccount_ok password : account_ok true (newAccount password).
Proof.
  unfold newAccount.
  eexists _, (VNum INITIAL_BALANCE), ∅, [], ∅.
  split; [reflexivity|].
  split; [reflexivity|].
  split.
  { right. exists INITIAL_BALANCE.
    split; [reflexivity|]. split; [reflexivity|]. split; [reflexivity | discriminate]. }
  split; [reflexivity|].
  split; [apply map_Forall_empty|].
  split; [reflexivity|].
  split; [constructor|reflexivity].
Qed.

(** *** A trade on a good account *)

Local Open Scope float_scope.

Lemma num_ok_ToNumber nz b :
  num_ok true nz b ->
  (0 <=? ToNumber b) = true /\ is_finite (ToNumber b) = true /\
  add_num b = fun x => Ok (VNum (ToNumber b + x)).
Proof.
  intros [->|(f & -> & H0 & Hf & _)]; simpl; auto.
Qed.

(** [Number] returns what [ToNumber] is. *)
Lemma Number_Ok v f : Number v = Ok f -> f = ToNumber v.
Proof. unfold Number. destruct (unprintable v); intros H; inversion H; reflexivity. Qed.

Lemma Number_printable v : unprintable v = false -> Number v = Ok (ToNumber v).
Proof. unfold Number. intros ->. reflexivity. Qed.

Lemma Number_throws v : unprintable v = true -> Number v = Throw.
Proof. unfold Number. intros ->. reflexivity. Qed.

Lemma Number_cases v :
  (unprintable v = false /\ Number v = Ok (ToNumber v)) \/
  (unprintable v = true /\ Number v = Throw).
Proof. unfold Number. destruct (unprintable v); auto. Qed.

Lemma num_ok_Number fin nz b : num_ok fin nz b -> Number b = Ok (ToNumber b).
Proof. intros [->|(f & -> & _)]; reflexivity. Qed.

(** What converts to no number would be NaN. *)
Lemma unprintable_nan v : unprintable v = true -> ToNumber v = nan.
Proof.
  destruct v as [| | | | |l|o]; try discriminate; [|reflexivity].
  destruct l as [|x [|y l]]; [discriminate| |reflexivity].
  revert x. fix IH 1. intros x. simpl. rewrite orb_false_r.
  destruct x as [| | | | |l|o]; try discriminate; [|reflexivity].
  destruct l as [|y [|z l]]; [discriminate| |reflexivity].
  intros H. simpl in H. rewrite orb_false_r in H. simpl. apply (IH y). simpl.
  rewrite orb_false_r. exact H.
Qed.

Lemma positive_printable v : (0 <? ToNumber v) = true -> unprintable v = false.
Proof.
  destruct (unprintable v) eqn:E; [|reflexivity].
  rewrite (unprintable_nan v E). discriminate.
Qed.

Lemma ensureHoldingStructure_absent :
  ensureHoldingStructure VUndef = Ok {| position := 0; averagePrice := 0 |}.
Proof. reflexivity. Qed.

Lemma ensureHoldingStructure_ok hv :
  hv = VUndef \/ holding_ok true hv ->
  exists h, ensureHoldingStructure hv = Ok h /\
            (0 <=? position h) = true /\ is_finite (position h) = true.
Proof.
  intros [->|(ho & p & a & -> & Hp & Hok & Ha & Hna)].
  - eexists. split; [apply ensureHoldingStructure_absent|]. split; reflexivity.
  - unfold ensureHoldingStructure. simpl. rewrite Hp, Ha. simpl.
    rewrite (num_ok_Number _ _ _ Hok). simpl.
    assert (Na : Number a = Ok (ToNumber a)) by (destruct Hna as [->|[f ->]]; reflexivity).
    rewrite Na. simpl.
    eexists. split; [reflexivity|]. simpl.
    destruct (num_ok_ToNumber _ _ Hok) as (H0 & Hf & _).
    split; [apply or_zero_nonneg, H0 | apply or_zero_finite, Hf].
Qed.

Lemma accounting_ok b h type q p :
  num_ok true false b ->
  (0 <=? position h) = true -> is_finite (position h) = true ->
  (0 <? q) = true -> (0 <? p) = true ->
  accounting b h type q p = Ok (inl InsufficientFunds) \/
  accounting b h type q p = Ok (inl InsufficientPosition) \/
  exists b' h' pnl,
    accounting b h type q p = Ok (inr (b', h', pnl)) /\
    num_ok false false b' /\ (0 <=? position h') = true.
Proof.
  intros Hb Hn Hfn Hq Hp.
  destruct (num_ok_ToNumber _ _ Hb) as (Hb0 & Hbf & Hadd).
  pose proof (mul_nonneg p q Hp Hq) as Hcost.
  pose proof (positive_nonneg q Hq) as Hq0.
  unfold accounting. destruct (is_string "buy" type).
  - rewrite (num_ok_Number _ _ _ Hb). cbn [bind].
    destruct (ToNumber b <? p * q) eqn:Hlt; [left; reflexivity|].
    right; right. eexists _, _, _. split; [reflexivity|]. simpl. split.
    + right. eexists. split; [reflexivity|].
      split; [apply sub_nonneg; assumption|]. split; discriminate.
    + apply add_nonneg; assumption.
  - destruct (position h <? q) eqn:Hlt; [right; left; reflexivity|].
    right; right. rewrite Hadd. simpl. eexists _, _, _. split; [reflexivity|]. simpl. split.
    + right. eexists. split; [reflexivity|].
      split; [apply add_nonneg; assumption|]. split; discriminate.
    + apply sub_nonneg; assumption.
Qed.

Lemma holding_value_ok h :
  (0 <=? position h) = true -> (position h =? 0) = false ->
  holding_ok false (holding_value h).
Proof.
  intros H0 Hnz. unfold holding_value.
  eexists _, (VNum (position h)), (VNum (averagePrice h)). split; [reflexivity|].
  split; [apply lookup_insert_eq|].
  split.
  - right. exists (position h). split; [reflexivity|]. split; [exact H0|].
    split; [discriminate | intros _; exact Hnz].
  - split; [rewrite lookup_insert_ne by discriminate; apply lookup_insert_eq|].
    right. eauto.
Qed.

Lemma make_entry_ok id ts type sym q p b n pnl :
  sym <> "" -> entry_ok (make_entry id ts type sym q p b n pnl).
Proof.
  intros Hne. unfold make_entry. eexists _, sym. split; [reflexivity|].
  split; [|exact Hne]. reflexivity.
Qed.

Lemma holding_ok_weaken h : holding_ok true h -> holding_ok false h.
Proof.
  intros (ho & p & a & -> & Hp & Hok & Ha). exists ho, p, a.
  split; [reflexivity|]. split; [exact Hp|]. split; [apply num_ok_weaken, Hok | exact Ha].
Qed.

(** A checked trade on a good account is rejected for want of funds or of
    position, or settles to a sound account. *)
Lemma settle_ok o type sym q p id ts :
  account_ok true (VObj o) -> sym <> "" ->
  (0 <? q) = true -> (0 <? p) = true ->
  settle o type sym q p id ts = Ok (Rejected InsufficientFunds) \/
  settle o type sym q p id ts = Ok (Rejected InsufficientPosition) \/
  exists user' entry,
    settle o type sym q p id ts = Ok (Settled user' entry) /\
    account_ok false (VObj user').
Proof.
  intros (o0 & b & hs & l & ai & E & Hb & Hbok & Hh & Hhs & Hl & Hes & Ha) Hsym Hq Hp.
  inversion E; subst o0; clear E.
  unfold settle, holdings_of. simpl lookup_prop. rewrite Hh. simpl.
  destruct (ensureHoldingStructure_ok (default VUndef (hs !! sym))) as (h & Eh & Hn & Hfn).
  { destruct (hs !! sym) as [h0|] eqn:E0; [right; exact (Hhs sym h0 E0) | left; reflexivity]. }
  rewrite Eh. simpl.
  rewrite lookup_insert_ne by discriminate. rewrite Hb. simpl.
  destruct (accounting_ok b h type q p Hbok Hn Hfn Hq Hp)
    as [Ea|[Ea|(b' & h' & pnl & Ea & Hb' & Hn')]]; rewrite Ea; simpl; auto.
  right; right.
  assert (Hhist : forall hs' : gmap string value,
            (<["holdings" := VObj hs']> (<["balance" := b']> (<["holdings" := VObj hs]> o)))
              !! "history" = Some (VArr l)).
  { intros hs'. rewrite !lookup_insert_ne by discriminate. exact Hl. }
  assert (Hfinal : forall hs' : gmap string value,
            map_Forall (fun _ h => holding_ok false h) hs' ->
            forall entry, entry_ok entry ->
            account_ok false
              (VObj (<["history" := VArr (entry :: l)]>
                    (<["holdings" := VObj hs']>
                    (<["balance" := b']> (<["holdings" := VObj hs]> o)))))).
  { intros hs' Hhs' entry Hentry.
    eexists _, b', hs', (entry :: l), ai. split; [reflexivity|].
    split; [rewrite !lookup_insert_ne by discriminate; apply lookup_insert_eq|].
    split; [exact Hb'|].
    split; [rewrite lookup_insert_ne by discriminate; apply lookup_insert_eq|].
    split; [exact Hhs'|].
    split; [apply lookup_insert_eq|].
    split; [constructor; [exact Hentry | exact Hes]|].
    rewrite !lookup_insert_ne by discriminate. exact Ha. }
  assert (Hhs0 : map_Forall (fun _ h => holding_ok false h) hs).
  { intros k h0 Hk. apply holding_ok_weaken, (Hhs k h0 Hk). }
  destruct (position h' =? 0) eqn:Hz; simpl; rewrite Hhist; simpl.
  - eexists _, _. split; [reflexivity|].
    apply Hfinal; [apply map_Forall_delete, Hhs0 | apply make_entry_ok, Hsym].
  - eexists _, _. split; [reflexivity|].
    apply Hfinal; [|apply make_entry_ok, Hsym].
    apply map_Forall_insert_2; [apply holding_value_ok; assumption | exact Hhs0].
Qed.

(** The check on quantity and price fails exactly when one of them is not
    greater than zero. *)
Lemma amounts_check q p :
  falsy_num q || (q <=? 0) || falsy_num p || (p <=? 0) = negb ((0 <? q) && (0 <? p)).
Proof.
  rewrite <- orb_assoc, !not_positive, negb_andb. reflexivity.
Qed.

Lemma good_store_weaken s :
  good_store s -> map_Forall (fun _ u => account_ok false u) s.
Proof. intros H k u Hk. apply account_ok_weaken, (H k u Hk). Qed.

Lemma trade_good s name type sym q p id ts :
  good_store s -> sym <> "" -> (0 <? q) = true -> (0 <? p) = true ->
  good_store (trade s name type sym q p id ts).2.
Proof.
  intros Hs Hsym Hq Hp. unfold trade.
  rewrite (good_store_readUsers s Hs).
  destruct (s !! name) as [u|] eqn:Hu; simpl; [|exact Hs].
  destruct u as [| |b|f|s0|l|o]; try exact Hs;
    try (destruct b; exact Hs); try (destruct (negb _); exact Hs).
  pose proof (Hs name _ Hu) as Hacc.
  destruct (settle_ok o type _ _ _ id ts Hacc Hsym Hq Hp)
    as [E|[E|(user' & entry & E & Hok)]]; rewrite E; simpl; try exact Hs.
  apply writeUsers_good, map_Forall_insert_2; [exact Hok | apply good_store_weaken, Hs].
Qed.

(** [handleTrade], the two conversions told apart from the checks. *)
Lemma handleTrade_unfold s name body id ts :
  handleTrade s name body id ts =
  if nullish body then (BadRequest, s)
  else if unprintable (lookup_prop body "quantity")
          || unprintable (lookup_prop body "price")
  then (BadRequest, s)
  else if negb (is_side (lookup_prop body "type")) then (InvalidSide, s)
  else if bool_decide (trimmedSymbol_of body = "") then (InvalidSymbol, s)
  else if falsy_num (qty_of body) || (qty_of body <=? 0)
          || falsy_num (tradePrice_of body) || (tradePrice_of body <=? 0)
  then (InvalidAmount, s)
  else trade s name (lookup_prop body "type") (trimmedSymbol_of body)
         (qty_of body) (tradePrice_of body) id ts.
Proof.
  unfold handleTrade, Number, qty_of, tradePrice_of.
  destruct (nullish body); [reflexivity|].
  destruct (unprintable (lookup_prop body "quantity")); [reflexivity|].
  destruct (unprintable (lookup_prop body "price")); reflexivity.
Qed.

(** A request that passes the checks of [handleTrade] goes on to [trade]. *)
Lemma handleTrade_checked s name body id ts :
  nullish body = false -> is_side (lookup_prop body "type") = true ->
  trimmedSymbol_of body <> "" ->
  (0 <? qty_of body) = true -> (0 <? tradePrice_of body) = true ->
  handleTrade s name body id ts =
  trade s name (lookup_prop body "type") (trimmedSymbol_of body)
    (qty_of body) (tradePrice_of body) id ts.
Proof.
  intros Hb Ht Hsym Hq Hp. rewrite handleTrade_unfold.
  rewrite (positive_printable _ Hq), (positive_printable _ Hp).
  rewrite Hb, Ht, amounts_check, Hq, Hp. simpl.
  rewrite bool_decide_eq_false_2 by exact Hsym. reflexivity.
Qed.

Lemma handleTrade_good s name body id ts :
  good_store s -> good_store (handleTrade s name body id ts).2.
Proof.
  intros Hs. rewrite handleTrade_unfold.
  destruct (nullish body); [exact Hs|].
  destruct (_ || _); [exact Hs|].
  destruct (is_side _); simpl; [|exact Hs].
  destruct (bool_decide _) eqn:Hsym; [exact Hs|].
  apply bool_decide_eq_false in Hsym.
  rewrite amounts_check.
  destruct (0 <? qty_of body) eqn:Hq; simpl; [|exact Hs].
  destruct (0 <? tradePrice_of body) eqn:Hp; simpl; [|exact Hs].
  apply trade_good; assumption.
Qed.

Lemma handleRegister_good s name password :
  good_store s -> good_store (handleRegister s name password).2.
Proof.
  intros Hs. unfold handleRegister.
  destruct (_ || _); [exact Hs|].
  rewrite (good_store_readUsers s Hs).
  destruct (ToString name) as [key| |]; try exact Hs.
  destruct (_ || _); simpl; [exact Hs|].
  apply writeUsers_good, map_Forall_insert_2;
    [apply account_ok_weaken, newAccount_ok | apply good_store_weaken, Hs].
Qed.

Lemma handleHistory_store s name symbolParam :
  (handleHistory s name symbolParam).2 = loaded s.
Proof.
  unfold handleHistory, loaded.
  destruct (readUsers s) as [[users store1]| |]; try reflexivity.
  destruct (negb (truthy _)); [reflexivity|].
  destruct (negb (bool_decide _)); [|reflexivity].
  destruct (if truthy _ then _ else _); try reflexivity.
  destruct (existsb nullish l); reflexivity.
Qed.

Lemma good_store_loaded s : good_store s -> loaded s = s.
Proof. intros Hs. unfold loaded. rewrite (good_store_readUsers s Hs). reflexivity. Qed.

(** Every file the server comes to hold is good. *)
Lemma reachable_good s : reachable s -> good_store s.
Proof.
  induction 1 as [|s name pw _ IH|s name body id ts _ IH|s name f _ IH].
  - apply map_Forall_empty.
  - apply handleRegister_good, IH.
  - apply handleTrade_good, IH.
  - rewrite handleHistory_store, good_store_loaded; exact IH.
Qed.



(** [normalizeUsers] touches [history] and [aiInsights] only, once the
    holdings are migrated. *)
Lemma normalizeRecord_other o k :
  k <> "history" -> k <> "aiInsights" ->
  (normalizeRecord o).1 !! k = (migrateHoldings o).1 !! k.
Proof.
  intros Hh Ha. rewrite normalizeRecord_parts. cbn [fst].
  set (o1 := (migrateHoldings o).1).
  assert (E2 : (ensureHistory o1).1 !! k = o1 !! k).
  { unfold ensureHistory. destruct (isArray _); simpl; [reflexivity|].
    apply lookup_insert_ne. congruence. }
  set (o2 := (ensureHistory o1).1) in *.
  assert (E3 : (ensureAiInsights o2).1 !! k = o2 !! k).
  { unfold ensureAiInsights. destruct (truthy _); simpl; [reflexivity|].
    apply lookup_insert_ne. congruence. }
  set (o3 := (ensureAiInsights o2).1) in *.
  rewrite <- E2, <- E3. unfold tagHistory.
  destruct (lookup_prop (VObj o3) "history"); simpl; try reflexivity.
  apply lookup_insert_ne. congruence.
Qed.

Lemma migrateHoldings_history o : (migrateHoldings o).1 !! "history" = o !! "history".
Proof.
  unfold migrateHoldings. destruct (truthy _); simpl; [reflexivity|].
  rewrite !lookup_delete_ne, lookup_insert_ne by discriminate. reflexivity.
Qed.

(** The history after [normalizeUsers]: the entries stored, each tagged
    where it lacks a symbol; none where no array was stored. *)
Lemma normalizeRecord_tagged o :
  (normalizeRecord o).1 !! "history" =
  Some (VArr (List.map (fun e => (tag_entry e).1)
                (match o !! "history" with Some (VArr l) => l | _ => [] end))).
Proof.
  rewrite normalizeRecord_parts. cbn [fst].
  pose proof (migrateHoldings_history o) as E1.
  set (o1 := (migrateHoldings o).1) in *.
  assert (E2 : (ensureHistory o1).1 !! "history" =
               Some (VArr (match o !! "history" with Some (VArr l) => l | _ => [] end))).
  { unfold ensureHistory. simpl. rewrite E1.
    destruct (o !! "history") as [[]|]; simpl; try apply lookup_insert_eq. exact E1. }
  set (o2 := (ensureHistory o1).1) in *.
  assert (E3 : (ensureAiInsights o2).1 !! "history" = o2 !! "history").
  { unfold ensureAiInsights. destruct (truthy _); simpl; [reflexivity|].
    apply lookup_insert_ne. discriminate. }
  set (o3 := (ensureAiInsights o2).1) in *.
  unfold tagHistory. simpl. rewrite E3, E2. simpl.
  rewrite lookup_insert_eq, List.map_map. reflexivity.
Qed.

End StoreFacts.

(** ** Facts on a trade *)

Module TradeFacts.
Import JS Server Ledger Examples FloatFacts StoreFacts.
Local Open Scope Z_scope.
Local Open Scope float_scope.

(** [settle] on a record whose [holdings] is an object. *)
Lemma settle_unfold o type sym q p id ts hs :
  o !! "holdings" = Some (VObj hs) ->
  settle o type sym q p id ts =
  let* h := ensureHoldingStructure (lookup_prop (VObj hs) sym) in
  let* outcome := accounting (lookup_prop (VObj o) "balance") h type q p in
  match outcome with
  | inl r => Ok (Rejected r)
  | inr (balance', h', realizedPnl) =>
      let entry := make_entry id ts type sym q p balance' (position h') realizedPnl in
      let* items := history_items (lookup_prop (VObj o) "history") in
      Ok (Settled (<["history" := VArr (entry :: items)]>
                  (<["holdings" := VObj (holdings_after hs sym h')]>
                  (<["balance" := balance']> o))) entry)
  end.
Proof.
  intros Hh. unfold settle, holdings_of. cbv zeta. cbn [lookup_prop]. rewrite Hh.
  cbn [default from_option truthy].
  rewrite (insert_id o "holdings" _ Hh).
  destruct (ensureHoldingStructure _) as [h| |]; simpl; try reflexivity.
  destruct (accounting _ _ _ _ _) as [[r|[[b' h'] pnl]]| |]; simpl; try reflexivity.
  unfold holdings_after.
  assert (Hhist : forall x, (<["holdings" := x]> (<["balance" := b']> o)) !! "history"
                            = o !! "history").
  { intros x. rewrite !lookup_insert_ne by discriminate. reflexivity. }
  destruct (position h' =? 0); cbn [bind delete_prop set_prop]; rewrite Hhist; reflexivity.
Qed.

Lemma account_ok_settle o sym :
  account_ok true (VObj o) ->
  exists hs h,
    o !! "holdings" = Some (VObj hs) /\
    ensureHoldingStructure (lookup_prop (VObj hs) sym) = Ok h /\
    (0 <=? position h) = true /\ is_finite (position h) = true.
Proof.
  intros (o0 & b & hs & l & ai & E & Hb & Hbok & Hh & Hhs & Hl & Hes & Ha).
  inversion E; subst o0; clear E.
  destruct (ensureHoldingStructure_ok (default VUndef (hs !! sym))) as (h & Eh & Hn & Hfn).
  { destruct (hs !! sym) as [h0|] eqn:E0; [right; exact (Hhs sym h0 E0) | left; reflexivity]. }
  exists hs, h. auto.
Qed.

Lemma type_not_nullish body s : lookup_prop body "type" = VStr s -> nullish body = false.
Proof. destruct body; simpl; try reflexivity; discriminate. Qed.

Lemma accounting_rejects b h type q p r :
  accounting b h type q p = Ok (inl r) ->
  r = InsufficientFunds \/ r = InsufficientPosition.
Proof.
  unfold accounting. destruct (is_string "buy" type).
  - destruct (Number b) as [f| |]; cbn [bind]; try discriminate.
    destruct (_ <? _); intros H; inversion H; auto.
  - destruct (_ <? _); [intros H; inversion H; auto|].
    destruct (add_num b _); simpl; discriminate.
Qed.

(** [settle] rejects for want of funds or of position only. *)
Lemma settle_rejects o type sym q p id ts r :
  settle o type sym q p id ts = Ok (Rejected r) ->
  r = InsufficientFunds \/ r = InsufficientPosition.
Proof.
  unfold settle. cbv zeta.
  destruct (ensureHoldingStructure _) as [h| |]; simpl; try discriminate.
  destruct (accounting _ _ _ _ _) as [[r'|[[b' h'] pnl]]| |] eqn:E; simpl; try discriminate.
  - intros H. inversion H; subst. eapply accounting_rejects, E.
  - repeat match goal with
           | |- context [bind ?x _] => destruct x; simpl
           end; discriminate.
Qed.

(** What stands behind an accepted trade. *)
Lemma handleTrade_TradeOk s name body id ts entry s' :
  handleTrade s name body id ts = (TradeOk entry, s') ->
  exists users store1 o user',
    readUsers s = Ok (users, store1) /\
    users !! name = Some (VObj o) /\
    settle o (lookup_prop body "type") (trimmedSymbol_of body)
      (qty_of body) (tradePrice_of body) id ts = Ok (Settled user' entry) /\
    s' = writeUsers (<[name := VObj user']> users) /\
    is_side (lookup_prop body "type") = true /\
    trimmedSymbol_of body <> "" /\
    (0 <? qty_of body) = true /\ (0 <? tradePrice_of body) = true.
Proof.
  rewrite handleTrade_unfold.
  destruct (nullish body); [discriminate|].
  destruct (_ || _); [discriminate|].
  destruct (is_side _) eqn:Ht; simpl; [|discriminate].
  destruct (bool_decide _) eqn:Hsym; [discriminate|].
  apply bool_decide_eq_false in Hsym.
  rewrite amounts_check.
  destruct (0 <? qty_of body) eqn:Hq; simpl; [|discriminate].
  destruct (0 <? tradePrice_of body) eqn:Hp; simpl; [|discriminate].
  unfold trade.
  destruct (readUsers s) as [[users store1]| |]; try discriminate.
  destruct (users !! name) as [u|] eqn:Hu; simpl; [|discriminate].
  destruct u as [| |b|f|s0|l|o]; try discriminate;
    try (destruct b; discriminate); try (destruct (negb _); discriminate).
  destruct (settle o _ _ _ _ _ _) as [[r|user' entry']| |] eqn:E; try discriminate.
  - intros H. inversion H; subst. apply settle_rejects in E as [E|E]; discriminate.
  - intros H. inversion H; subst. exists users, store1, o, user'. auto 10.
Qed.

(** A rejected request leaves the file as it was, or as [readUsers] left it. *)
Lemma handleTrade_rejected s name body id ts :
  (forall entry, (handleTrade s name body id ts).1 <> TradeOk entry) ->
  (handleTrade s name body id ts).2 = s \/ (handleTrade s name body id ts).2 = loaded s.
Proof.
  rewrite handleTrade_unfold. unfold loaded.
  destruct (nullish body); [auto|].
  destruct (_ || _); [auto|].
  destruct (negb (is_side _)); [auto|].
  destruct (bool_decide _); [auto|].
  destruct (_ || _); [auto|].
  unfold trade.
  destruct (readUsers s) as [[users store1]| |]; auto.
  destruct (default VUndef (users !! name)) as [| |b|f|s0|l|o]; simpl; auto;
    try (destruct b; auto); try (destruct (negb _); auto).
  destruct (settle o _ _ _ _ _ _) as [[r|user' entry']| |] eqn:E; simpl; auto.
  intros H. exfalso. apply (H entry'). reflexivity.
Qed.

Lemma holding_ok_position h :
  holding_ok true h ->
  (0 <=? ToNumber (lookup_prop h "position")) = true /\
  forall f, lookup_prop h "position" = VNum f -> (f =? 0) = false.
Proof.
  intros (ho & p & a & -> & Hp & Hok & _). simpl. rewrite Hp. simpl.
  split; [apply (num_ok_ToNumber _ _ Hok)|].
  intros f ->. destruct Hok as [?|(f' & E & _ & _ & Hnz)]; [discriminate|].
  inversion E; subst. apply Hnz. reflexivity.
Qed.

(** A sale of more than the position held is rejected, the file as
    [readUsers] left it. *)
Lemma trade_sell_rejected s users store1 name o h sym q p id ts :
  readUsers s = Ok (users, store1) -> users !! name = Some (VObj o) ->
  ensureHoldingStructure (lookup_prop (holdings_of o) sym) = Ok h ->
  (position h <? q) = true ->
  trade s name (VStr "sell") sym q p id ts = (InsufficientPosition, store1).
Proof.
  intros Hr Hu Eh Hlt. unfold trade. rewrite Hr, Hu. simpl.
  unfold settle. cbv zeta. rewrite Eh. cbn [bind].
  unfold accounting. simpl is_string. cbv iota. rewrite Hlt. reflexivity.
Qed.

Lemma good_holdings_of o hs : o !! "holdings" = Some (VObj hs) -> holdings_of o = VObj hs.
Proof. intros H. unfold holdings_of. simpl. rewrite H. reflexivity. Qed.

Lemma add_num_Ok v x r : add_num v x = Ok r -> r = VNum (ToNumber v + x).
Proof.
  destruct v; simpl; try (intros H; inversion H; reflexivity); try discriminate.
  - destruct (existsb _ _); discriminate.
  - destruct (bool_decide _); discriminate.
Qed.

(** What [settle] leaves of a trade it accepts, from what [accounting]
    returned. *)
Lemma settle_Settled o type sym q p id ts hs h user' entry :
  o !! "holdings" = Some (VObj hs) ->
  ensureHoldingStructure (lookup_prop (VObj hs) sym) = Ok h ->
  settle o type sym q p id ts = Ok (Settled user' entry) ->
  exists b' h' pnl items,
    accounting (lookup_prop (VObj o) "balance") h type q p = Ok (inr (b', h', pnl)) /\
    history_items (lookup_prop (VObj o) "history") = Ok items /\
    entry = make_entry id ts type sym q p b' (position h') pnl /\
    user' = <["history" := VArr (entry :: items)]>
              (<["holdings" := VObj (holdings_after hs sym h')]>
              (<["balance" := b']> o)).
Proof.
  intros Hh Eh. rewrite (settle_unfold _ _ _ _ _ _ _ hs Hh), Eh. cbn [bind].
  destruct (accounting _ _ _ _ _) as [[r|[[b' h'] pnl]]| |]; cbn [bind]; try discriminate.
  destruct (history_items _) as [items| |]; cbn [bind]; try discriminate.
  intros H. inversion H; subst. exists b', h', pnl, items. auto.
Qed.

(** Where the accounting leaves position zero it leaves average price 0. *)
Lemma accounting_zero_avg b h type q p b' h' pnl :
  accounting b h type q p = Ok (inr (b', h', pnl)) ->
  (position h' =? 0) = true -> averagePrice h' = 0.
Proof.
  unfold accounting. destruct (is_string "buy" type).
  - destruct (Number b) as [f| |]; cbn [bind]; try discriminate.
    destruct (_ <? _); [discriminate|]. intros H. inversion H; subst. simpl.
    intros ->. reflexivity.
  - destruct (_ <? _); [discriminate|].
    destruct (add_num b _); cbn [bind]; try discriminate.
    intros H. inversion H; subst. simpl. intros ->. reflexivity.
Qed.


Lemma encode_nonempty c : encode c <> [].
Proof.
  unfold encode.
  repeat match goal with |- context [if ?x then _ else _] => destruct x end;
    discriminate.
Qed.

Lemma upper_nonempty c : upper c <> [].
Proof.
  unfold upper. destruct (c <? 128)%Z; [discriminate|].
  destruct (List.find _ special_upper) as [e|] eqn:E.
  - apply find_some in E as [Hin _].
    assert (Hall : forallb (fun e => negb (bool_decide (e.2 = []))) special_upper = true)
      by (vm_compute; reflexivity).
    rewrite forallb_forall in Hall. specialize (Hall e Hin).
    apply negb_true_iff, bool_decide_eq_false in Hall. exact Hall.
  - destruct (List.find _ simple_upper) as [[[[lo hi] step] delta]|]; discriminate.
Qed.






Lemma settle_absent o hs symbol hv type q p (i ts : string) :
  o !! "holdings" = Some (VObj hs) -> hs !! symbol = Some hv ->
  ensureHoldingStructure hv = Ok {| position := 0; averagePrice := 0 |} ->
  settle o type symbol q p i ts =
  settle (<["holdings" := VObj (delete symbol hs)]> o) type symbol q p i ts.
Proof.
  intros Hh Hk Eh.
  rewrite (settle_unfold o _ _ _ _ i ts hs Hh).
  rewrite (settle_unfold (<["holdings" := VObj (delete symbol hs)]> o) _ _ _ _ i ts
             (delete symbol hs) (lookup_insert_eq _ _ _)).
  cbn [lookup_prop]. rewrite Hk, lookup_delete_eq. cbn [default from_option].
  change (id hv) with hv. change (id VUndef) with VUndef.
  rewrite Eh, ensureHoldingStructure_absent. cbn [bind].
  rewrite !lookup_insert_ne by discriminate.
  destruct (accounting _ _ _ _ _) as [[r|[[b' h'] pnl]]| |]; cbn [bind]; try reflexivity.
  destruct (history_items _) as [items| |]; cbn [bind]; try reflexivity.
  do 2 f_equal. f_equal.
  rewrite (insert_insert_ne (<["holdings" := VObj (delete symbol hs)]> o)) by discriminate.
  rewrite insert_insert_eq.
  rewrite (insert_insert_ne o "holdings" "balance") by discriminate.
  do 2 f_equal. unfold holdings_after.
  destruct (position h' =? 0); f_equal; symmetry;
    [apply delete_delete_eq | apply insert_delete_eq].
Qed.

Lemma ann0_reachable : reachable ann0.
Proof. apply reach_register, reach_empty. Qed.

Lemma ann1_reachable : reachable ann1.
Proof. apply reach_trade, ann0_reachable. Qed.

Lemma flood2_reachable : reachable flood2.
Proof. apply reach_trade, reach_trade, ann0_reachable. Qed.

End TradeFacts.

(** ** The ledger's properties *)

Import JS Server Ledger Examples FloatFacts StoreFacts TradeFacts.
Local Open Scope Z_scope.
Local Open Scope float_scope.

(** *** The scenarios of the specification *)

(** A fresh account holds 1,000,000 and nothing else. *)
Example scenario_0 :
  lookup_prop (account ann0 "ann") "balance" = VNum 1000000 /\
  lookup_prop (account ann0 "ann") "holdings" = VObj ∅ /\
  lookup_prop (account ann0 "ann") "history" = VArr [].
Proof. vm_compute. repeat split; reflexivity. Qed.

(** Buying 10 HOG at 120 leaves 998,800 and 10 units at 120. *)
Example scenario_1 :
  lookup_prop (account ann1 "ann") "balance" = VNum 998800 /\
  lookup_prop (lookup_prop (account ann1 "ann") "holdings") "HOG"
  = holding_value {| position := 10; averagePrice := 120 |}.
Proof. vm_compute. split; reflexivity. Qed.

(** Buying 5 more at 130 leaves 998,150 and 15 units at 123.33. *)
Example scenario_2 :
  lookup_prop (account ann2 "ann") "balance" = VNum 998150 /\
  lookup_prop (lookup_prop (account ann2 "ann") "holdings") "HOG"
  = holding_value {| position := 15; averagePrice := 123.33 |}.
Proof. vm_compute. split; reflexivity. Qed.

(** Selling the 15 at 140 leaves 1,000,250, no HOG, and a profit of 250.05
    on the newest entry of the history. *)
Example scenario_3 :
  lookup_prop (account ann3 "ann") "balance" = VNum 1000250 /\
  lookup_prop (lookup_prop (account ann3 "ann") "holdings") "HOG" = VUndef /\
  exists entry rest,
    lookup_prop (account ann3 "ann") "history" = VArr (entry :: rest) /\
    lookup_prop entry "realizedPnl" = VNum 250.05 /\ length rest = 2%nat.
Proof.
  split; [vm_compute; reflexivity|]. split; [vm_compute; reflexivity|].
  eexists _, _. split; [vm_compute; reflexivity|]. split; vm_compute; reflexivity.
Qed.

(** *** Solvency *)

(** C1. In every file the server can come to hold, the balance of every
    account is [>= 0] as JavaScript compares it: it is a finite number that
    is not negative, or [null] (what is written for a balance that became
    infinite, and read as 0).  A buy that passed the checks and whose
    [tradePrice * qty] exceeds the balance is answered [InsufficientFunds]
    and leaves the file as it was. *)
Theorem solvency s name u :
  reachable s -> s !! name = Some u ->
  (0 <=? ToNumber (lookup_prop u "balance")) = true /\
  (lookup_prop u "balance" = VNull \/
   exists f, lookup_prop u "balance" = VNum f /\ is_finite f = true) /\
  forall body id timestamp,
    lookup_prop body "type" = VStr "buy" ->
    trimmedSymbol_of body <> "" ->
    (0 <? qty_of body) = true -> (0 <? tradePrice_of body) = true ->
    (ToNumber (lookup_prop u "balance") <? tradePrice_of body * qty_of body) = true ->
    handleTrade s name body id timestamp = (InsufficientFunds, s).
Proof.
  intros Hr Hu. pose proof (reachable_good s Hr) as Hs.
  pose proof (Hs name u Hu) as Hacc.
  pose proof Hacc as (o & b & hs & l & ai & -> & Hb & Hbok & Hh & Hhs & Hl & Hes & Ha).
  split.
  { simpl. rewrite Hb. simpl. apply (num_ok_ToNumber _ _ Hbok). }
  split.
  { simpl. rewrite Hb. simpl.
    destruct Hbok as [->|(f & -> & _ & Hf & _)]; [left; reflexivity|right].
    exists f. split; [reflexivity | apply Hf; reflexivity]. }
  intros body id ts Ht Hsym Hq Hp Hlt.
  rewrite handleTrade_checked; auto;
    [|exact (type_not_nullish body _ Ht) | rewrite Ht; reflexivity].
  unfold trade. rewrite (good_store_readUsers s Hs), Hu. simpl.
  destruct (account_ok_settle o (trimmedSymbol_of body) Hacc)
    as (hs' & h & Hh' & Eh & _).
  rewrite (settle_unfold _ _ _ _ _ _ _ hs' Hh'), Eh. simpl bind.
  unfold accounting. rewrite Ht. simpl is_string. cbv iota.
  cbn [lookup_prop] in Hlt |- *. rewrite Hb in Hlt |- *.
  cbn [default from_option] in Hlt |- *. unfold Datatypes.id in Hlt |- *.
  rewrite (num_ok_Number _ _ _ Hbok). cbn [bind]. rewrite Hlt. reflexivity.
Qed.

Lemma solvency_witness :
  (0 <=? ToNumber (lookup_prop (account ann1 "ann") "balance")) = true /\
  handleTrade ann1 "ann" (order "buy" "HOG" 1 2000000) "id" "t" = (InsufficientFunds, ann1).
Proof.
  assert (Hu : ann1 !! "ann" = Some (account ann1 "ann")) by (vm_compute; reflexivity).
  destruct (solvency ann1 "ann" _ ann1_reachable Hu) as (H1 & _ & H2).
  split; [exact H1|].
  apply H2; vm_compute; (reflexivity || discriminate).
Defined.

(** *** Positions *)

(** C2. In every file the server can come to hold, the position of every
    holding stored is [>= 0] as JavaScript compares it.  A sale that passed
    the checks and whose quantity exceeds the position held is answered
    [InsufficientPosition] and leaves the file as it was. *)
Theorem position_never_negative s name u :
  reachable s -> s !! name = Some u ->
  (exists hs, lookup_prop u "holdings" = VObj hs /\
     forall symbol h, hs !! symbol = Some h ->
       (0 <=? ToNumber (lookup_prop h "position")) = true) /\
  forall body id timestamp h,
    lookup_prop body "type" = VStr "sell" ->
    trimmedSymbol_of body <> "" ->
    (0 <? qty_of body) = true -> (0 <? tradePrice_of body) = true ->
    ensureHoldingStructure
      (lookup_prop (lookup_prop u "holdings") (trimmedSymbol_of body)) = Ok h ->
    (position h <? qty_of body) = true ->
    handleTrade s name body id timestamp = (InsufficientPosition, s).
Proof.
  intros Hr Hu. pose proof (reachable_good s Hr) as Hs.
  pose proof (Hs name u Hu) as (o & b & hs & l & ai & -> & Hb & Hbok & Hh & Hhs & Hl & Hes & Ha).
  split.
  { exists hs. simpl. rewrite Hh. split; [reflexivity|].
    intros sym h Hk. apply (holding_ok_position h (Hhs sym h Hk)). }
  intros body id ts h Ht Hsym Hq Hp Eh Hlt.
  rewrite handleTrade_checked; auto;
    [|exact (type_not_nullish body _ Ht) | rewrite Ht; reflexivity].
  rewrite Ht.
  apply (trade_sell_rejected s s s name o h); auto using good_store_readUsers.
  rewrite (good_holdings_of o hs Hh). simpl in Eh. rewrite Hh in Eh. exact Eh.
Qed.

Lemma position_never_negative_witness :
  (0 <=? ToNumber (lookup_prop
                     (lookup_prop (lookup_prop (account ann1 "ann") "holdings") "HOG")
                     "position")) = true /\
  handleTrade ann1 "ann" (order "sell" "HOG" 20 140) "id" "t" = (InsufficientPosition, ann1).
Proof.
  assert (Hu : ann1 !! "ann" = Some (account ann1 "ann")) by (vm_compute; reflexivity).
  destruct (position_never_negative ann1 "ann" _ ann1_reachable Hu)
    as [(hs & Hhs & Hpos) Hsell].
  split.
  - apply (Hpos "HOG"). vm_compute in Hhs. inversion Hhs. vm_compute. reflexivity.
  - apply (Hsell _ _ _ {| position := 10; averagePrice := 120 |});
      vm_compute; (reflexivity || discriminate).
Defined.

(** *** Failures *)

(** C3. A sale that passed the checks and asks for more than the position
    held is answered [InsufficientPosition], the file being the one
    [readUsers] left.  Whatever the request, an answer other than a settled
    trade leaves the file as it was, or as [readUsers] left it where it
    migrated records of an older shape; with no such record, as in every
    file the server can come to hold, the file is exactly as before. *)
Theorem failure_changes_nothing s name body id timestamp :
  (forall users store1 o h,
     readUsers s = Ok (users, store1) -> users !! name = Some (VObj o) ->
     lookup_prop body "type" = VStr "sell" ->
     trimmedSymbol_of body <> "" ->
     (0 <? qty_of body) = true -> (0 <? tradePrice_of body) = true ->
     ensureHoldingStructure (lookup_prop (holdings_of o) (trimmedSymbol_of body)) = Ok h ->
     (position h <? qty_of body) = true ->
     handleTrade s name body id timestamp = (InsufficientPosition, store1) /\
     store1 = loaded s) /\
  ((forall entry, (handleTrade s name body id timestamp).1 <> TradeOk entry) ->
   (handleTrade s name body id timestamp).2 = s \/
   (handleTrade s name body id timestamp).2 = loaded s) /\
  (loaded s = s ->
   (forall entry, (handleTrade s name body id timestamp).1 <> TradeOk entry) ->
   (handleTrade s name body id timestamp).2 = s) /\
  (reachable s -> loaded s = s).
Proof.
  split; [|split; [|split]].
  - intros users store1 o h Hr Hu Ht Hsym Hq Hp Eh Hlt. split.
    + rewrite handleTrade_checked; auto;
        [|exact (type_not_nullish body _ Ht) | rewrite Ht; reflexivity].
      rewrite Ht. eapply trade_sell_rejected; eauto.
    + unfold loaded. rewrite Hr. reflexivity.
  - apply handleTrade_rejected.
  - intros Hl Hf. destruct (handleTrade_rejected s name body id timestamp Hf) as [E|E];
      rewrite E; auto.
  - intros Hr. apply good_store_loaded, reachable_good, Hr.
Qed.

Lemma failure_changes_nothing_witness :
  handleTrade ann1 "ann" (order "sell" "HOG" 20 140) "id" "t" = (InsufficientPosition, ann1) /\
  (handleTrade ann1 "ann" (order "buy" "HOG" (-1) 120) "id" "t").2 = ann1.
Proof.
  split.
  - destruct (failure_changes_nothing ann1 "ann" (order "sell" "HOG" 20 140) "id" "t")
      as (H & _).
    apply (H ann1 ann1 (fields (account ann1 "ann")) {| position := 10; averagePrice := 120 |});
      vm_compute; (reflexivity || discriminate).
  - destruct (failure_changes_nothing ann1 "ann" (order "buy" "HOG" (-1) 120) "id" "t")
      as (_ & _ & H & _).
    apply H; [vm_compute; reflexivity|]. intros entry. vm_compute. discriminate.
Defined.

(** *** Accounting *)

(** C4. A buy of [q] at [p] that settles, on a holding read as position [n]
    and average price [c]: the entry shows position [n + q] and realized
    profit 0; the balance, in the record and in the entry, is the old one
    less [p * q], not rounded; the holding of the symbol becomes
    [n + q] at [Number(((c * n + p * q) / (n + q)).toFixed(2))], the other
    holdings stay.  The new position is not zero when [n >= 0] and [q > 0];
    were it zero the symbol would be removed. *)
Theorem buy_accounting o hs h symbol q p id timestamp user' entry :
  o !! "holdings" = Some (VObj hs) ->
  ensureHoldingStructure (lookup_prop (VObj hs) symbol) = Ok h ->
  settle o (VStr "buy") symbol q p id timestamp = Ok (Settled user' entry) ->
  let n := position h in
  let c := averagePrice h in
  let balance := ToNumber (lookup_prop (VObj o) "balance") in
  lookup_prop entry "positionAfter" = VNum (n + q) /\
  lookup_prop entry "realizedPnl" = VNum 0 /\
  lookup_prop entry "balanceAfter" = VNum (balance - p * q) /\
  user' !! "balance" = Some (VNum (balance - p * q)) /\
  ((0 <=? n) = true -> (0 <? q) = true -> (n + q =? 0) = false) /\
  exists hs', user' !! "holdings" = Some (VObj hs') /\
    (forall k, k <> symbol -> hs' !! k = hs !! k) /\
    ((n + q =? 0) = false ->
     hs' !! symbol =
       Some (holding_value {| position := n + q;
                              averagePrice := toFixed2 ((c * n + p * q) / (n + q)) |})) /\
    ((n + q =? 0) = true -> hs' !! symbol = None).
Proof.
  intros Hh Eh Hs n c balance.
  destruct (settle_Settled _ _ _ _ _ _ _ _ _ _ _ Hh Eh Hs)
    as (b' & h' & pnl & items & Ea & _ & -> & ->).
  unfold accounting in Ea. simpl is_string in Ea. cbv iota in Ea.
  destruct (Number _) as [funds| |] eqn:Ef; cbn [bind] in Ea; try discriminate.
  apply Number_Ok in Ef. subst funds.
  destruct (_ <? _); [discriminate|]. inversion Ea; subst b' h' pnl. clear Ea.
  fold n c balance.
  split; [reflexivity|]. split; [reflexivity|]. split; [reflexivity|].
  split; [rewrite !lookup_insert_ne by discriminate; apply lookup_insert_eq|].
  split; [intros Hn Hq; apply positive_not_zero, add_positive; assumption|].
  eexists. split; [rewrite lookup_insert_ne by discriminate; apply lookup_insert_eq|].
  unfold holdings_after. cbn [position averagePrice].
  destruct (n + q =? 0) eqn:Hz.
  - split; [intros k Hk; apply lookup_delete_ne; congruence|].
    split; [discriminate | intros _; apply lookup_delete_eq].
  - split; [intros k Hk; apply lookup_insert_ne; congruence|].
    split; [intros _; apply lookup_insert_eq | discriminate].
Qed.

Lemma buy_accounting_witness :
  lookup_prop (settled_entry second_buy) "positionAfter" = VNum 15 /\
  lookup_prop (settled_entry second_buy) "balanceAfter" = VNum 998150 /\
  lookup_prop (lookup_prop (VObj (settled_user second_buy)) "holdings") "HOG"
  = holding_value {| position := 15; averagePrice := 123.33 |}.
Proof.
  assert (Hh : ann1_record !! "holdings"
               = Some (VObj {[ "HOG" := holding_value {| position := 10;
                                                          averagePrice := 120 |} ]}))
    by (vm_compute; reflexivity).
  assert (Eh : ensureHoldingStructure
                 (lookup_prop (VObj {[ "HOG" := holding_value {| position := 10;
                                                                  averagePrice := 120 |} ]})
                    "HOG")
               = Ok {| position := 10; averagePrice := 120 |})
    by (vm_compute; reflexivity).
  assert (Hs : settle ann1_record (VStr "buy") "HOG" 5 130 "id2" "t2"
               = Ok (Settled (settled_user second_buy) (settled_entry second_buy)))
    by (vm_compute; reflexivity).
  destruct (buy_accounting ann1_record _ _ "HOG" 5 130 "id2" "t2" _ _ Hh Eh Hs)
    as (H1 & _ & H3 & _ & _ & hs' & H5 & _ & H6 & _).
  split; [exact H1|]. split; [exact H3|].
  cbn [lookup_prop]. rewrite H5. cbn [default from_option lookup_prop].
  change (id (VObj hs')) with (VObj hs'). cbn [lookup_prop].
  rewrite H6 by reflexivity. reflexivity.
Defined.

(** C5. A sale of [q] at [p] that settles, on a holding read as position
    [n] and average price [c]: [n < q] is false; the entry shows the
    realized profit [Number(((p - c) * q).toFixed(2))] and position
    [n - q]; the balance, in the record and in the entry, is the old one
    plus [p * q], not rounded; the holding of the symbol becomes [n - q] at
    [c], or is removed where [n - q] is zero; the other holdings stay. *)
Theorem sell_accounting o hs h symbol q p id timestamp user' entry :
  o !! "holdings" = Some (VObj hs) ->
  ensureHoldingStructure (lookup_prop (VObj hs) symbol) = Ok h ->
  settle o (VStr "sell") symbol q p id timestamp = Ok (Settled user' entry) ->
  let n := position h in
  let c := averagePrice h in
  let balance := ToNumber (lookup_prop (VObj o) "balance") in
  (n <? q) = false /\
  lookup_prop entry "realizedPnl" = VNum (toFixed2 ((p - c) * q)) /\
  lookup_prop entry "balanceAfter" = VNum (balance + p * q) /\
  user' !! "balance" = Some (VNum (balance + p * q)) /\
  lookup_prop entry "positionAfter" = VNum (n - q) /\
  exists hs', user' !! "holdings" = Some (VObj hs') /\
    (forall k, k <> symbol -> hs' !! k = hs !! k) /\
    ((n - q =? 0) = false ->
     hs' !! symbol =
       Some (holding_value {| position := n - q; averagePrice := c |})) /\
    ((n - q =? 0) = true -> hs' !! symbol = None).
Proof.
  intros Hh Eh Hs n c balance.
  destruct (settle_Settled _ _ _ _ _ _ _ _ _ _ _ Hh Eh Hs)
    as (b' & h' & pnl & items & Ea & _ & -> & ->).
  unfold accounting in Ea. simpl is_string in Ea. cbv iota in Ea.
  fold n c in Ea.
  destruct (n <? q) eqn:Hlt; [discriminate|].
  destruct (add_num _ _) as [b''| |] eqn:Eb; cbn [bind] in Ea; try discriminate.
  apply add_num_Ok in Eb. inversion Ea; subst b' h' pnl b''. clear Ea.
  fold balance.
  split; [reflexivity|]. split; [reflexivity|]. split; [reflexivity|].
  split; [rewrite !lookup_insert_ne by discriminate; apply lookup_insert_eq|].
  split; [reflexivity|].
  eexists. split; [rewrite lookup_insert_ne by discriminate; apply lookup_insert_eq|].
  unfold holdings_after. cbn [position averagePrice].
  destruct (n - q =? 0) eqn:Hz.
  - split; [intros k Hk; apply lookup_delete_ne; congruence|].
    split; [discriminate | intros _; apply lookup_delete_eq].
  - split; [intros k Hk; apply lookup_insert_ne; congruence|].
    split; [intros _; apply lookup_insert_eq | discriminate].
Qed.

Lemma sell_accounting_witness :
  lookup_prop (settled_entry final_sale) "realizedPnl" = VNum 250.05 /\
  lookup_prop (settled_entry final_sale) "balanceAfter" = VNum 1000250 /\
  lookup_prop (settled_entry final_sale) "positionAfter" = VNum 0 /\
  lookup_prop (lookup_prop (VObj (settled_user final_sale)) "holdings") "HOG" = VUndef.
Proof.
  assert (Hh : ann2_record !! "holdings"
               = Some (VObj {[ "HOG" := holding_value {| position := 15;
                                                          averagePrice := 123.33 |} ]}))
    by (vm_compute; reflexivity).
  assert (Eh : ensureHoldingStructure
                 (lookup_prop (VObj {[ "HOG" := holding_value {| position := 15;
                                                                  averagePrice := 123.33 |} ]})
                    "HOG")
               = Ok {| position := 15; averagePrice := 123.33 |})
    by (vm_compute; reflexivity).
  assert (Hs : settle ann2_record (VStr "sell") "HOG" 15 140 "id3" "t3"
               = Ok (Settled (settled_user final_sale) (settled_entry final_sale)))
    by (vm_compute; reflexivity).
  destruct (sell_accounting ann2_record _ _ "HOG" 15 140 "id3" "t3" _ _ Hh Eh Hs)
    as (_ & H1 & H2 & _ & H4 & hs' & H5 & _ & _ & H7).
  split; [exact H1|]. split; [exact H2|]. split; [exact H4|].
  cbn [lookup_prop]. rewrite H5. cbn [default from_option lookup_prop].
  change (id (VObj hs')) with (VObj hs'). cbn [lookup_prop].
  rewrite H7 by reflexivity. reflexivity.
Defined.

(** *** The checks of a request *)




(** *** Positions that return to zero *)

(** C7, as the code has it.  In every file the server can come to hold,
    no holding is stored with the number zero as its position: the
    position stored is a finite number greater than zero, or [null], which
    is what is written for a position that became infinite.  A sale of
    the whole position that passed the checks ([n < q] is false and
    [n - q] is zero) settles: its entry shows position zero, the symbol is
    absent from the holdings written, and is read again as position 0 at
    average price 0.  So it is after every trade whose entry shows
    position zero.  Whenever the accounting leaves position zero, the
    average price it leaves is 0. *)
Theorem zero_position_cleanup s name u :
  reachable s -> s !! name = Some u ->
  (exists hs, lookup_prop u "holdings" = VObj hs /\
     forall symbol h, hs !! symbol = Some h ->
       lookup_prop h "position" = VNull \/
       exists f, lookup_prop h "position" = VNum f /\
                 (0 <=? f) = true /\ (f =? 0) = false /\ is_finite f = true) /\
  (forall body id timestamp h,
     lookup_prop body "type" = VStr "sell" -> trimmedSymbol_of body <> "" ->
     (0 <? qty_of body) = true -> (0 <? tradePrice_of body) = true ->
     ensureHoldingStructure
       (lookup_prop (lookup_prop u "holdings") (trimmedSymbol_of body)) = Ok h ->
     (position h <? qty_of body) = false ->
     (position h - qty_of body =? 0) = true ->
     exists entry u' hs',
       (handleTrade s name body id timestamp).1 = TradeOk entry /\
       lookup_prop entry "positionAfter" = VNum (position h - qty_of body) /\
       (handleTrade s name body id timestamp).2 !! name = Some u' /\
       lookup_prop u' "holdings" = VObj hs' /\
       hs' !! trimmedSymbol_of body = None /\
       ensureHoldingStructure (lookup_prop (VObj hs') (trimmedSymbol_of body))
       = Ok {| position := 0; averagePrice := 0 |}) /\
  (forall body id timestamp entry s' f,
    handleTrade s name body id timestamp = (TradeOk entry, s') ->
    lookup_prop entry "positionAfter" = VNum f -> (f =? 0) = true ->
    exists u' hs',
      s' !! name = Some u' /\ lookup_prop u' "holdings" = VObj hs' /\
      hs' !! trimmedSymbol_of body = None /\
      ensureHoldingStructure (lookup_prop (VObj hs') (trimmedSymbol_of body))
      = Ok {| position := 0; averagePrice := 0 |}) /\
  (forall balance h type q p balance' h' realizedPnl,
    accounting balance h type q p = Ok (inr (balance', h', realizedPnl)) ->
    (position h' =? 0) = true -> averagePrice h' = 0).
Proof.
  intros Hr Hu. pose proof (reachable_good s Hr) as Hs.
  pose proof (Hs name u Hu) as Hacc.
  pose proof Hacc as (o & b & hs & l & ai & -> & Hb & Hbok & Hh & Hhs & Hl & Hes & Ha).
  split.
  { exists hs. simpl. rewrite Hh. split; [reflexivity|].
    intros sym h Hk. destruct (Hhs sym h Hk) as (ho & p & a & -> & Hp & Hok & _).
    simpl. rewrite Hp. simpl.
    destruct Hok as [->|(f & -> & H0 & Hf & Hnz)]; [left; reflexivity|right].
    exists f. auto. }
  split.
  { intros body id ts h Ht Hsym Hq Hp Eh Hlt Hz.
    rewrite handleTrade_checked; auto;
      [|exact (type_not_nullish body _ Ht) | rewrite Ht; reflexivity].
    unfold trade. rewrite (good_store_readUsers s Hs), Hu. cbn [default from_option].
    unfold Datatypes.id.
    cbn [lookup_prop] in Eh. rewrite Hh in Eh. cbn [default from_option] in Eh.
    unfold Datatypes.id in Eh.
    rewrite (settle_unfold _ _ _ _ _ _ _ hs Hh), Eh. cbn [bind].
    unfold accounting. rewrite Ht. simpl is_string. cbv iota. rewrite Hlt.
    cbn [lookup_prop]. rewrite Hb, Hl. cbn [default from_option]. unfold Datatypes.id.
    destruct (num_ok_ToNumber _ _ Hbok) as (_ & _ & Hadd). rewrite Hadd. cbn [bind].
    cbn [history_items truthy negb]. cbn [bind].
    eexists _, _, _. cbn [fst snd].
    split; [reflexivity|]. split; [reflexivity|].
    unfold writeUsers. rewrite lookup_omap, lookup_insert_eq. cbn [option_bind mbind json_field].
    split; [reflexivity|]. cbn [lookup_prop json].
    rewrite lookup_omap, lookup_insert_ne, lookup_insert_eq by discriminate.
    cbn [option_bind mbind json_field default from_option json]. unfold Datatypes.id.
    split; [reflexivity|].
    unfold holdings_after. cbn [position]. rewrite Hz.
    rewrite lookup_omap, lookup_delete_eq. simpl. split; reflexivity. }
  split.
  2:{ intros balance h type q p balance' h' pnl Ea Hz.
      apply (accounting_zero_avg _ _ _ _ _ _ _ _ Ea Hz). }
  intros body id ts entry s' f Ht Hf Hz.
  apply handleTrade_TradeOk in Ht
    as (users & store1 & o' & user' & Hru & Hu' & Hset & -> & _).
  rewrite (good_store_readUsers s Hs) in Hru. inversion Hru; subst users store1.
  rewrite Hu in Hu'. inversion Hu'; subst o'. clear Hu' Hru.
  destruct (account_ok_settle o (trimmedSymbol_of body) Hacc) as (hs0 & h & Hh0 & Eh & _).
  rewrite Hh in Hh0. inversion Hh0; subst hs0.
  destruct (settle_Settled _ _ _ _ _ _ _ _ _ _ _ Hh Eh Hset)
    as (b' & h' & pnl & items & Ea & _ & -> & ->).
  change (VNum (position h') = VNum f) in Hf. inversion Hf; subst f.
  unfold writeUsers. rewrite lookup_omap, lookup_insert_eq. simpl.
  eexists _, _. split; [reflexivity|]. simpl.
  rewrite lookup_omap, lookup_insert_ne, lookup_insert_eq by discriminate. simpl.
  split; [reflexivity|].
  unfold holdings_after. rewrite Hz.
  rewrite lookup_omap, lookup_delete_eq. simpl. split; reflexivity.
Qed.

Lemma zero_position_cleanup_witness :
  exists entry u' hs',
    (handleTrade ann2 "ann" whole_sale "id3" "t3").1 = TradeOk entry /\
    lookup_prop entry "positionAfter" = VNum (position held - qty_of whole_sale) /\
    (handleTrade ann2 "ann" whole_sale "id3" "t3").2 !! "ann" = Some u' /\
    lookup_prop u' "holdings" = VObj hs' /\
    hs' !! trimmedSymbol_of whole_sale = None /\
    ensureHoldingStructure (lookup_prop (VObj hs') (trimmedSymbol_of whole_sale))
    = Ok {| position := 0; averagePrice := 0 |}.
Proof.
  assert (Hu : ann2 !! "ann" = Some (account ann2 "ann")) by (vm_compute; reflexivity).
  assert (Hr : reachable ann2) by (apply reach_trade, ann1_reachable).
  destruct (zero_position_cleanup ann2 "ann" _ Hr Hu) as (_ & H & _).
  assert (H1 : lookup_prop whole_sale "type" = VStr "sell") by (vm_compute; reflexivity).
  assert (H2 : trimmedSymbol_of whole_sale <> "") by (vm_compute; discriminate).
  assert (H3 : (0 <? qty_of whole_sale) = true) by (vm_compute; reflexivity).
  assert (H4 : (0 <? tradePrice_of whole_sale) = true) by (vm_compute; reflexivity).
  assert (H5 : ensureHoldingStructure
                 (lookup_prop (lookup_prop (account ann2 "ann") "holdings")
                    (trimmedSymbol_of whole_sale)) = Ok held)
    by (vm_compute; reflexivity).
  assert (H6 : (position held <? qty_of whole_sale) = false) by (vm_compute; reflexivity).
  assert (H7 : (position held - qty_of whole_sale =? 0) = true) by (vm_compute; reflexivity).
  exact (H whole_sale "id3" "t3" held H1 H2 H3 H4 H5 H6 H7).
Defined.

(** C7 fails on a position that became infinite.  Ann buys 1e308 HOG at
    1e-320 twice: the position is written as [null], the holding stays in
    the file, and [ensureHoldingStructure] reads it as position 0 at
    average price 0, so that a sale of one is refused. *)
Lemma overflowed_position_stored :
  reachable flood2 /\
  lookup_prop (lookup_prop (account flood2 "ann") "holdings") "HOG"
  = VObj {[ "position" := VNull; "averagePrice" := VNum 0 ]} /\
  ensureHoldingStructure (lookup_prop (lookup_prop (account flood2 "ann") "holdings") "HOG")
  = Ok {| position := 0; averagePrice := 0 |} /\
  handleTrade flood2 "ann" (order "sell" "HOG" 1 120) "id3" "t3"
  = (InsufficientPosition, flood2).
Proof.
  split; [exact flood2_reachable|].
  split; [vm_compute; reflexivity|]. split; vm_compute; reflexivity.
Qed.

(** *** The history *)



(** *** Records of an older shape *)

(** C9, as the code has it.  On a record without holdings,
    [normalizeUsers] makes the holdings [{HOG: {position, averagePrice:
    Number(averagePrice || 0)}}] where [position] is a number other than
    zero, and [{}] otherwise, and removes [position] and [averagePrice].
    The history becomes the stored array, or [[]] where none is stored,
    each entry that is truthy and has no truthy symbol being copied with
    symbol [HOG], every other entry kept.  [readUsers] returns the records
    so normalized; if the table it returns differs from the file, the file
    is rewritten from it; a file whose records are all of the current shape
    is returned as it is and not written.  Where [Number(averagePrice)]
    throws, on an average price that converts to no number, [readUsers]
    throws. *)
Theorem migration_on_load :
  (forall o,
     let o' := (normalizeRecord o).1 in
     let position := lookup_prop (VObj o) "position" in
     let averagePrice := lookup_prop (VObj o) "averagePrice" in
     (truthy (lookup_prop (VObj o) "holdings") = false ->
      (forall f, position = VNum f -> (f =? 0) = false ->
         o' !! "holdings" =
         Some (VObj {[ "HOG" :=
                 VObj {[ "position" := VNum f;
                         "averagePrice" :=
                           VNum (ToNumber (if truthy averagePrice then averagePrice
                                           else VNum 0)) ]} ]})) /\
      (is_number position && negb (ToNumber position =? 0) = false ->
         o' !! "holdings" = Some (VObj ∅)) /\
      o' !! "position" = None /\ o' !! "averagePrice" = None) /\
     o' !! "history" =
       Some (VArr (List.map (fun e => (tag_entry e).1)
                     (match o !! "history" with Some (VArr l) => l | _ => [] end)))) /\
  (forall e,
     (truthy e = true -> truthy (lookup_prop e "symbol") = false ->
      lookup_prop (tag_entry e).1 "symbol" = VStr "HOG" /\
      forall k, k <> "symbol" ->
        lookup_prop (tag_entry e).1 k = default VUndef (spread e !! k)) /\
     (truthy e && negb (truthy (lookup_prop e "symbol")) = false -> (tag_entry e).1 = e)) /\
  (forall s users store1,
     readUsers s = Ok (users, store1) ->
     (forall k o, s !! k = Some (VObj o) ->
        users !! k = Some (VObj (normalizeRecord o).1)) /\
     (users <> s -> store1 = writeUsers users) /\
     ((forall k u, s !! k = Some u -> exists o, u = VObj o /\ current_shape o) ->
      users = s /\ store1 = s)) /\
  (forall s k o f,
     s !! k = Some (VObj o) ->
     truthy (lookup_prop (VObj o) "holdings") = false ->
     lookup_prop (VObj o) "position" = VNum f -> (f =? 0) = false ->
     unprintable (lookup_prop (VObj o) "averagePrice") = true ->
     readUsers s = Throw).
Proof.
  split; [|split; [|split]].
  4:{ intros s k o f Hk Hh Hf Hz Hu.
      assert (Hn : normalizeUser (VObj o) = Throw).
      { unfold normalizeUser, migration_throws. cbn [truthy negb].
        rewrite Hh, Hf. cbn [is_number ToNumber negb andb]. rewrite Hz. cbn [negb andb].
        assert (Ht : truthy (lookup_prop (VObj o) "averagePrice") = true).
        { destruct (lookup_prop (VObj o) "averagePrice"); try discriminate; reflexivity. }
        rewrite Ht. unfold Number. rewrite Hu. reflexivity. }
      unfold readUsers, normalizeUsers.
      destruct (decide (map_Exists _ _)) as [_|Hno]; [reflexivity|].
      destruct Hno. apply map_Exists_lookup. exists k, Throw.
      split; [|reflexivity]. rewrite lookup_fmap, Hk. simpl. rewrite Hn. reflexivity. }
  - intros o o' position averagePrice. split; [|apply normalizeRecord_tagged].
    intros Hh.
    assert (Em : (migrateHoldings o).1 =
                 delete "averagePrice" (delete "position"
                   (<["holdings" :=
                        VObj (if is_number position && negb (ToNumber position =? 0)
                              then {[ "HOG" :=
                                        VObj {[ "position" := position;
                                                "averagePrice" :=
                                                  VNum (ToNumber (if truthy averagePrice
                                                                  then averagePrice
                                                                  else VNum 0)) ]} ]}
                              else ∅)]> o))).
    { unfold migrateHoldings. rewrite Hh. reflexivity. }
    subst o'. rewrite !normalizeRecord_other by discriminate. rewrite Em.
    split; [|split; [|split]].
    + intros f Hf Hz. rewrite Hf. simpl is_number. simpl ToNumber. rewrite Hz. simpl.
      rewrite !lookup_delete_ne, lookup_insert_eq by discriminate. reflexivity.
    + intros ->. rewrite !lookup_delete_ne, lookup_insert_eq by discriminate. reflexivity.
    + rewrite lookup_delete_ne, lookup_delete_eq by discriminate. reflexivity.
    + apply lookup_delete_eq.
  - intros e. unfold tag_entry. split.
    + intros -> ->. simpl. rewrite lookup_insert_eq. split; [reflexivity|].
      intros k Hk. rewrite lookup_insert_ne by congruence. reflexivity.
    + intros ->. reflexivity.
  - intros s users store1 Hr.
    pose proof Hr as Hr'. apply normalizeUsers_Ok in Hr' as (Hall & Hnone & Hw).
    split; [|split].
    + intros k o Hk. destruct (Hall k _ Hk) as (u' & b & Hn & Hu). rewrite Hu. f_equal.
      apply normalizeUser_object in Hn as (_ & -> & _). reflexivity.
    + intros Hne. destruct Hw as [[E _]|E]; [contradiction | exact E].
    + intros Hc. unfold readUsers in Hr. rewrite normalizeUsers_current in Hr.
      * inversion Hr. auto.
      * intros k u Hk. destruct (Hc k u Hk) as (o & -> & Ho).
        apply current_shape_normalizeUser, Ho.
Qed.

Lemma migration_on_load_witness :
  lookup_prop (lookup_prop (account (read_table (legacy_read 10 120)) "ann") "holdings")
    "HOG"
  = holding_value {| position := 10; averagePrice := 120 |} /\
  lookup_prop (account (read_table (legacy_read 10 120)) "ann") "position" = VUndef /\
  read_file (legacy_read 10 120) = writeUsers (read_table (legacy_read 10 120)).
Proof.
  assert (Hr : readUsers {[ "ann" := legacy 10 120 ]}
               = Ok (read_table (legacy_read 10 120), read_file (legacy_read 10 120)))
    by (vm_compute; reflexivity).
  destruct migration_on_load as (Hrec & _ & Hload & _).
  destruct (Hload _ _ _ Hr) as (Hnorm & Hwrite & _).
  destruct (Hrec (fields (legacy 10 120))) as ((Hhog & _ & Hpos & _) & _);
    [reflexivity|].
  assert (Hu : account (read_table (legacy_read 10 120)) "ann"
               = VObj (normalizeRecord (fields (legacy 10 120))).1).
  { unfold account. rewrite (Hnorm "ann" (fields (legacy 10 120))) by reflexivity.
    reflexivity. }
  rewrite Hu. cbn [lookup_prop].
  rewrite (Hhog 10 eq_refl eq_refl), Hpos.
  split; [reflexivity|]. split; [reflexivity|].
  apply Hwrite. vm_compute. discriminate.
Defined.

(** C9 fails on a legacy position of zero: no entry is made under HOG. *)
Lemma legacy_zero_position :
  lookup_prop (legacy 0 0) "position" = VNum 0 /\
  lookup_prop (legacy 0 0) "holdings" = VUndef /\
  legacy_read 0 0 = Ok (read_table (legacy_read 0 0), read_file (legacy_read 0 0)) /\
  lookup_prop (account (read_table (legacy_read 0 0)) "ann") "holdings" = VObj ∅ /\
  lookup_prop (lookup_prop (account (read_table (legacy_read 0 0)) "ann") "holdings") "HOG"
  = VUndef.
Proof. vm_compute. repeat split; reflexivity. Qed.

(** *** Holdings that lack a field *)

(** C10, as the code has it.  [ensureHoldingStructure] throws a TypeError
    on a stored holding that is [null], and on one whose position or
    average price converts to no number (an object that has a property
    [toString], an array that holds one): a trade in its symbol that
    passed the checks is then answered 400, the file being the one
    [readUsers] left.  On every other holding it returns; each field is
    [Number(field) || 0] on its own, so it is never NaN, and is 0 where
    the field is missing or converts to NaN; a holding read as position 0
    at average price 0 is settled exactly as if its symbol were absent. *)
Theorem malformed_holding (hv : value) :
  (hv = VNull \/ unprintable (lookup_prop hv "position") = true
   \/ unprintable (lookup_prop hv "averagePrice") = true ->
   ensureHoldingStructure hv = Throw /\
   forall s users store1 name o hs symbol type q p id timestamp,
     readUsers s = Ok (users, store1) -> users !! name = Some (VObj o) ->
     o !! "holdings" = Some (VObj hs) -> hs !! symbol = Some hv ->
     settle o type symbol q p id timestamp = Throw /\
     trade s name type symbol q p id timestamp = (BadRequest, store1)) /\
  (hv <> VNull -> unprintable (lookup_prop hv "position") = false ->
   unprintable (lookup_prop hv "averagePrice") = false ->
   exists h,
     ensureHoldingStructure hv = Ok h /\
     position h = or_zero (ToNumber (lookup_prop hv "position")) /\
     averagePrice h = or_zero (ToNumber (lookup_prop hv "averagePrice")) /\
     is_nan (position h) = false /\ is_nan (averagePrice h) = false /\
     (is_nan (ToNumber (lookup_prop hv "position")) = true -> position h = 0) /\
     (is_nan (ToNumber (lookup_prop hv "averagePrice")) = true -> averagePrice h = 0) /\
     (lookup_prop hv "position" = VUndef -> position h = 0) /\
     (lookup_prop hv "averagePrice" = VUndef -> averagePrice h = 0) /\
     (position h = 0 -> averagePrice h = 0 ->
      forall o hs symbol type q p id timestamp,
        o !! "holdings" = Some (VObj hs) -> hs !! symbol = Some hv ->
        settle o type symbol q p id timestamp =
        settle (<["holdings" := VObj (delete symbol hs)]> o) type symbol q p id timestamp)).
Proof.
  split.
  - intros H.
    assert (Eh : ensureHoldingStructure hv = Throw).
    { destruct H as [->|[H|H]]; [reflexivity| |].
      - destruct hv; try discriminate; unfold ensureHoldingStructure; cbn [get_prop bind];
          rewrite (Number_throws _ H); reflexivity.
      - destruct hv; try discriminate; unfold ensureHoldingStructure; cbn [get_prop bind];
          rewrite (Number_throws _ H);
          match goal with
          | |- context [Number ?v] => destruct (Number_cases v) as [[_ ->]|[_ ->]]
          end; reflexivity. }
    split; [exact Eh|].
    intros s users store1 name o hs symbol type q p id ts Hr Hu Hh Hk.
    assert (Es : settle o type symbol q p id ts = Throw).
    { rewrite (settle_unfold _ _ _ _ _ _ _ hs Hh). cbn [lookup_prop]. rewrite Hk.
      cbn [default from_option]. unfold Datatypes.id. rewrite Eh. reflexivity. }
    split; [exact Es|]. unfold trade. rewrite Hr, Hu. cbn [default from_option].
    unfold Datatypes.id. rewrite Es. reflexivity.
  - intros Hnull Hp Ha.
    assert (Eh : ensureHoldingStructure hv =
                 Ok {| position := or_zero (ToNumber (lookup_prop hv "position"));
                       averagePrice := or_zero (ToNumber (lookup_prop hv "averagePrice")) |}).
    { destruct hv; try congruence; unfold ensureHoldingStructure; cbn [get_prop bind];
        rewrite ?(Number_printable _ Hp); cbn [bind];
        rewrite ?(Number_printable _ Ha); reflexivity. }
    eexists. split; [exact Eh|]. cbn [position averagePrice].
    split; [reflexivity|]. split; [reflexivity|].
    split; [apply or_zero_not_nan|]. split; [apply or_zero_not_nan|].
    assert (Hnan : forall f, is_nan f = true -> or_zero f = 0).
    { intros f Hf. unfold or_zero, falsy_num. rewrite Hf, orb_true_r. reflexivity. }
    split; [apply Hnan|]. split; [apply Hnan|].
    split; [intros ->; reflexivity|]. split; [intros ->; reflexivity|].
    intros Hp0 Ha0 o hs symbol type q p id ts Hh Hk.
    apply (settle_absent o hs symbol hv); auto.
    rewrite Eh, Hp0, Ha0. reflexivity.
Qed.

Lemma malformed_holding_witness :
  ensureHoldingStructure countless = Ok {| position := 0; averagePrice := 0 |} /\
  settle (fields (record {[ "HOG" := countless ]})) (VStr "buy") "HOG" 10 120 "id" "t"
  = settle (fields (record ∅)) (VStr "buy") "HOG" 10 120 "id" "t" /\
  trade {[ "ann" := record {[ "HOG" := wordless ]} ]} "ann" (VStr "buy") "HOG" 10 120 "id" "t"
  = (BadRequest, {[ "ann" := record {[ "HOG" := wordless ]} ]}).
Proof.
  split; [|split].
  - destruct (malformed_holding countless) as (_ & H).
    destruct H as (h & Eh & Hp & Ha & _); [discriminate | reflexivity | reflexivity |].
    assert (E : h = {| position := 0; averagePrice := 0 |}).
    { destruct h as [n c]. cbn [position averagePrice] in Hp, Ha. rewrite Hp, Ha.
      vm_compute. reflexivity. }
    subst h. exact Eh.
  - destruct (malformed_holding countless) as (_ & H).
    destruct H as (h & Eh & Hp & Ha & _ & _ & _ & _ & _ & _ & Hsettle);
      [discriminate | reflexivity | reflexivity |].
    assert (E : h = {| position := 0; averagePrice := 0 |}).
    { destruct h as [n c]. cbn [position averagePrice] in Hp, Ha. rewrite Hp, Ha.
      vm_compute. reflexivity. }
    subst h.
    rewrite (Hsettle eq_refl eq_refl
               (fields (record {[ "HOG" := countless ]})) {[ "HOG" := countless ]}
               "HOG" (VStr "buy") 10 120 "id" "t")
      by (vm_compute; reflexivity).
    f_equal.
  - destruct (malformed_holding wordless) as (H & _).
    destruct H as (_ & H); [right; left; reflexivity|].
    apply (H {[ "ann" := record {[ "HOG" := wordless ]} ]}
             {[ "ann" := record {[ "HOG" := wordless ]} ]} _ "ann"
             (fields (record {[ "HOG" := wordless ]})) {[ "HOG" := wordless ]});
      vm_compute; reflexivity.
Defined.

(** C10 fails on a holding that lacks [averagePrice] only: it is read as
    position 5 at average price 0, not as an empty holding, and a sale of 3
    settles where it is rejected when the symbol is absent. *)
Lemma missing_price_keeps_position :
  lookup_prop priceless "averagePrice" = VUndef /\
  ensureHoldingStructure priceless = Ok {| position := 5; averagePrice := 0 |} /\
  (exists entry,
     (handleTrade {[ "ann" := record {[ "HOG" := priceless ]} ]} "ann"
        (order "sell" "HOG" 3 100) "id" "t").1 = TradeOk entry) /\
  (handleTrade {[ "ann" := record ∅ ]} "ann"
     (order "sell" "HOG" 3 100) "id" "t").1 = InsufficientPosition.
Proof.
  split; [reflexivity|]. split; [reflexivity|].
  split; [eexists; vm_compute; reflexivity | vm_compute; reflexivity].
Qed.

(** * The whole server *)

Import Api Running Samples Text.
Local Open Scope Z_scope.

(** ** Facts on JSON *)

Module JsonFacts.
Import JS Server Ledger Api Running.

Lemma vsize_lookup (o : gmap string value) k x :
  o !! k = Some x -> (vsize x < vsize (VObj o))%nat.
Proof.
  intros Hk. simpl. apply Nat.lt_succ_r.
  rewrite <- (insert_delete_id o k x Hk).
  rewrite map_fold_insert_L.
  - lia.
  - intros. lia.
  - apply lookup_delete_eq.
Qed.

Lemma vsize_In (l : list value) x : In x l -> (vsize x < vsize (VArr l))%nat.
Proof.
  simpl. induction l as [|y l IH]; simpl; [tauto|].
  intros [->|H]; [lia|]. specialize (IH H). lia.
Qed.

Lemma value_ind_size (P : value -> Prop) :
  (forall v, (forall x, (vsize x < vsize v)%nat -> P x) -> P v) -> forall v, P v.
Proof.
  intros H v. remember (vsize v) as n eqn:E. revert v E.
  induction n as [n IH] using lt_wf_ind. intros v ->.
  apply H. intros x Hx. eapply IH; eauto.
Qed.

Lemma undef_or_not (x : value) : x = VUndef \/ x <> VUndef.
Proof. destruct x; auto; right; discriminate. Qed.

Lemma json_defined v : json v <> VUndef.
Proof. destruct v; simpl; try discriminate. destruct (is_finite f); discriminate. Qed.

Lemma json_num f : json (json (VNum f)) = json (VNum f).
Proof.
  simpl. destruct (is_finite f) eqn:Ef; [|reflexivity].
  destruct (is_zero f) eqn:Ez; simpl; [reflexivity|]. rewrite Ef, Ez. reflexivity.
Qed.

Lemma json_idempotent v : json (json v) = json v.
Proof.
  induction v as [v IH] using value_ind_size.
  destruct v as [| |b|f|s|l|o]; try reflexivity.
  - apply json_num.
  - simpl. f_equal. rewrite List.map_map. apply List.map_ext_in.
    intros x Hx. apply IH, vsize_In, Hx.
  - change (VObj (omap json_field (omap json_field o)) = VObj (omap json_field o)).
    f_equal. apply map_eq. intros k. rewrite !lookup_omap.
    destruct (o !! k) as [x|] eqn:Hk; simpl; [|reflexivity].
    destruct (undef_or_not x) as [->|Hx]; [reflexivity|].
    rewrite (json_field_defined x Hx). simpl.
    rewrite (json_field_defined (json x)) by apply json_defined.
    f_equal. apply IH, (vsize_lookup o k), Hk.
Qed.

Lemma json_field_json x y : json_field x = Some y -> json_field y = Some y.
Proof.
  destruct (undef_or_not x) as [->|Hx]; [discriminate|].
  rewrite (json_field_defined x Hx). intros H. inversion H.
  rewrite (json_field_defined (json x)) by apply json_defined.
  rewrite json_idempotent. reflexivity.
Qed.

Lemma writeUsers_twice users : writeUsers (writeUsers users) = writeUsers users.
Proof.
  unfold writeUsers. apply map_eq. intros k. rewrite !lookup_omap.
  destruct (users !! k) as [x|]; simpl; [|reflexivity].
  destruct (json_field x) as [y|] eqn:E; simpl; [|reflexivity].
  eapply json_field_json, E.
Qed.

(** A file that was written holds its records as they are written. *)
Lemma written_lookup s k u : writeUsers s = s -> s !! k = Some u -> json_field u = Some u.
Proof.
  intros Hs Hk. rewrite <- Hs in Hk. unfold writeUsers in Hk. rewrite lookup_omap in Hk.
  destruct (s !! k) as [x|]; simpl in Hk; [|discriminate].
  eapply json_field_json, Hk.
Qed.

Lemma written_record o k x :
  json_field (VObj o) = Some (VObj o) -> o !! k = Some x -> json_field x = Some x.
Proof.
  intros Ho Hk.
  assert (E : omap json_field o = o).
  { change (Some (VObj (omap json_field o)) = Some (VObj o)) in Ho. congruence. }
  rewrite <- E in Hk.
  rewrite lookup_omap in Hk. destruct (o !! k) as [y|]; simpl in Hk; [|discriminate].
  eapply json_field_json, Hk.
Qed.

(** Writing a table in which one record of a written file was replaced. *)
Lemma writeUsers_insert s name u k :
  writeUsers s = s ->
  writeUsers (<[name := u]> s) !! k =
  if bool_decide (k = name) then json_field u else s !! k.
Proof.
  intros Hs. unfold writeUsers. rewrite lookup_omap.
  case_bool_decide as E.
  - subst. rewrite lookup_insert_eq. reflexivity.
  - rewrite lookup_insert_ne by congruence.
    destruct (s !! k) as [x|] eqn:Hk; simpl; [|reflexivity].
    eapply written_lookup; eauto.
Qed.

End JsonFacts.

(** ** Facts on the insights *)

Module InsightFacts.
Import JS Server Ledger Api Running JsonFacts.
Local Open Scope Z_scope.

Lemma bindM_Ok {A B} (m : M A) (k : A -> M B) c r :
  bindM m k c = Ok r -> exists a c', m c = Ok (a, c') /\ k a c' = Ok r.
Proof.
  unfold bindM. destruct (m c) as [[a c']| |]; try discriminate. eauto.
Qed.

Lemma liftM_Ok {A} (r : result A) c a c' : liftM r c = Ok (a, c') -> r = Ok a /\ c' = c.
Proof. unfold liftM. destruct r; try discriminate. intros H. inversion H. auto. Qed.

Lemma retM_Ok {A} (a : A) c a' c' : retM a c = Ok (a', c') -> a' = a /\ c' = c.
Proof. unfold retM. intros H. inversion H. auto. Qed.

Lemma Date_now_Ok rt c t c' :
  Date_now rt c = Ok (t, c') -> insight_calls c' = insight_calls c.
Proof. unfold Date_now. intros H. inversion H. reflexivity. Qed.

Lemma randomAiInterval_Ok rt b c t c' :
  randomAiInterval rt b c = Ok (t, c') -> insight_calls c' = insight_calls c.
Proof. unfold randomAiInterval, bindM, Math_random, retM. intros H. inversion H. reflexivity. Qed.

Lemma nextRefresh_Ok rt b c v c' :
  nextRefresh rt b c = Ok (v, c') ->
  (exists iso, v = VStr iso) /\ insight_calls c' = insight_calls c.
Proof.
  unfold nextRefresh. intros H.
  apply bindM_Ok in H as (t & c1 & H1 & H).
  apply bindM_Ok in H as (iso & c2 & H2 & H).
  apply liftM_Ok in H2 as [_ ->]. apply retM_Ok in H as [-> ->].
  split; [eauto|]. eapply randomAiInterval_Ok, H1.
Qed.

Lemma createAiInsight_Ok rt symbol t c v c' :
  createAiInsight rt symbol t c = Ok (v, c') ->
  insight_calls c' = S (insight_calls c).
Proof.
  unfold createAiInsight. destruct (insight _ _ _ _); try discriminate.
  intros H. inversion H. reflexivity.
Qed.

Lemma lastIssuedBase_Ok rt state c t c' :
  lastIssuedBase rt state c = Ok (t, c') -> insight_calls c' = insight_calls c.
Proof.
  unfold lastIssuedBase. intros H.
  apply bindM_Ok in H as (e & c1 & H1 & H). apply liftM_Ok in H1 as [_ ->].
  apply bindM_Ok in H as (f & c1 & H1 & H). apply liftM_Ok in H1 as [_ ->].
  apply bindM_Ok in H as (arg & c1 & H1 & H).
  assert (E1 : insight_calls c1 = insight_calls c).
  { destruct (truthy _).
    - apply retM_Ok in H1 as [_ ->]. reflexivity.
    - apply bindM_Ok in H1 as (t0 & c2 & H2 & H1). apply retM_Ok in H1 as [_ ->].
      eapply Date_now_Ok, H2. }
  apply bindM_Ok in H as (lastIssued & c2 & H2 & H). apply liftM_Ok in H2 as [_ ->].
  destruct (is_nan _).
  - apply Date_now_Ok in H. congruence.
  - apply retM_Ok in H as [_ ->]. exact E1.
Qed.

Lemma defaultAiInsights_object o ai :
  o !! "aiInsights" = Some (VObj ai) -> defaultAiInsights o = o.
Proof. intros H. unfold defaultAiInsights. simpl. rewrite H. reflexivity. Qed.

Tactic Notation "minv" hyp(H) "as" ident(a) ident(c) ident(H1) :=
  apply bindM_Ok in H as (a & c & H1 & H).

Lemma ensureSymbol_Ok rt ai symbol c a c' :
  ensureSymbol rt (VObj ai) symbol c = Ok (a, c') ->
  (exists st, ai !! symbol = Some st /\ truthy st = true /\ a = VObj ai /\
              insight_calls c' = insight_calls c) \/
  (exists ins iso,
     a = VObj (<[symbol := VObj (<["entries" := VArr [ins]]>
                                   {[ "nextRefreshAt" := VStr iso ]})]> ai) /\
     insight_calls c' = S (insight_calls c)).
Proof.
  unfold ensureSymbol. intros H. minv H as stored c0 H0. apply liftM_Ok in H0 as [E ->].
  simpl in E. inversion E as [Es]. clear E. subst stored.
  destruct (truthy (default VUndef (ai !! symbol))) eqn:T.
  - left. apply retM_Ok in H as [-> ->].
    destruct (ai !! symbol) as [st|]; [|discriminate]. eauto.
  - right. minv H as t c1 H1. minv H as ins c2 H2. minv H as t' c3 H3.
    minv H as next c4 H4.
    apply liftM_Ok in H as [E ->]. simpl in E. inversion E. subst a.
    apply nextRefresh_Ok in H4 as [[iso ->] E4].
    apply Date_now_Ok in H1, H3. apply createAiInsight_Ok in H2.
    exists ins, iso. split; [reflexivity | congruence].
Qed.

Lemma ensureEntries_Ok so c s' c' :
  ensureEntries (VObj so) c = Ok (s', c') ->
  c' = c /\
  exists so' l, s' = VObj so' /\ so' !! "entries" = Some (VArr l) /\
                (so !! "entries" = Some (VArr l) \/
                 (l = [] /\ forall l0, so !! "entries" <> Some (VArr l0))).
Proof.
  unfold ensureEntries. intros H. minv H as entries c0 H0. apply liftM_Ok in H0 as [E ->].
  simpl in E. inversion E as [Es]. clear E. subst entries.
  destruct (so !! "entries") as [e|] eqn:He; simpl in H.
  - destruct e as [| |b|f|s|l|o']; simpl in H;
      try (inversion H; subst; split; [reflexivity|];
           eexists _, []; split; [reflexivity|]; rewrite lookup_insert_eq;
           split; [reflexivity|]; right; split; [reflexivity | discriminate]).
    apply retM_Ok in H as [-> ->]. split; [reflexivity|]. exists so, l. auto.
  - inversion H; subst. split; [reflexivity|].
    eexists _, []. split; [reflexivity|]. rewrite lookup_insert_eq.
    split; [reflexivity|]. right. split; [reflexivity | discriminate].
Qed.

Lemma ensureFirst_Ok rt symbol so l c s' c' :
  so !! "entries" = Some (VArr l) ->
  ensureFirst rt symbol (VObj so) c = Ok (s', c') ->
  exists so' l', s' = VObj so' /\ so' !! "entries" = Some (VArr l') /\ l' <> [] /\
    ((l' = l /\ insight_calls c' = insight_calls c) \/
     (l = [] /\ length l' = 1%nat /\ insight_calls c' = S (insight_calls c))).
Proof.
  intros Hl. unfold ensureFirst. intros H.
  minv H as entries c0 H0. apply liftM_Ok in H0 as [E ->].
  simpl in E. rewrite Hl in E. simpl in E. inversion E. subst entries. clear E.
  minv H as nonempty c0 H0. apply liftM_Ok in H0 as [E ->].
  simpl in E. inversion E. subst nonempty. clear E.
  case_bool_decide as El; simpl in H.
  - subst l. minv H as t c1 H1. minv H as ins c2 H2. minv H as st c3 H3.
    minv H as t' c4 H4. minv H as next c5 H5.
    apply liftM_Ok in H3 as [E ->]. simpl in E. inversion E. subst st. clear E.
    apply liftM_Ok in H as [E ->]. simpl in E. inversion E. subst s'. clear E.
    apply nextRefresh_Ok in H5 as [_ E5].
    apply Date_now_Ok in H1, H4. apply createAiInsight_Ok in H2.
    eexists _, [ins]. split; [reflexivity|].
    rewrite lookup_insert_ne, lookup_insert_eq by discriminate.
    split; [reflexivity|]. split; [discriminate|]. right.
    split; [reflexivity|]. split; [reflexivity | congruence].
  - apply retM_Ok in H as [-> ->]. exists so, l.
    split; [reflexivity|]. split; [exact Hl|]. split; [exact El|]. left. auto.
Qed.

Lemma ensureNextRefresh_Ok rt so c s' c' :
  ensureNextRefresh rt (VObj so) c = Ok (s', c') ->
  exists so', s' = VObj so' /\ so' !! "entries" = so !! "entries" /\
              insight_calls c' = insight_calls c.
Proof.
  unfold ensureNextRefresh. intros H. minv H as stored c0 H0.
  apply liftM_Ok in H0 as [E ->].
  destruct (truthy stored).
  - apply retM_Ok in H as [-> ->]. eauto.
  - minv H as base c1 H1. minv H as next c2 H2.
    apply liftM_Ok in H as [E' ->]. simpl in E'. inversion E'.
    apply lastIssuedBase_Ok in H1. apply nextRefresh_Ok in H2 as [_ E2].
    eexists. split; [reflexivity|]. rewrite lookup_insert_ne by discriminate.
    split; [reflexivity | congruence].
Qed.

Lemma roll_Ok rt symbol now budget : forall so l nextMillis c s' n' c',
  so !! "entries" = Some (VArr l) ->
  roll rt symbol now budget (VObj so) nextMillis c = Ok (s', n', c') ->
  exists so' l', s' = VObj so' /\ so' !! "entries" = Some (VArr l') /\
    (l' = l \/ (l' <> [] /\ (length l' <= 3)%nat)) /\
    (insight_calls c' <= insight_calls c + budget)%nat.
Proof.
  induction budget as [|budget IH]; intros so l nextMillis c s' n' c' Hl H; simpl in H.
  - apply retM_Ok in H as [E ->]. inversion E; subst. exists so, l.
    split; [reflexivity|]. split; [exact Hl|]. split; [auto | lia].
  - destruct (nextMillis <=? now)%float.
    + minv H as ins c1 H1. minv H as entries c2 H2.
      apply liftM_Ok in H2 as [E ->]. simpl in E. rewrite Hl in E.
      simpl in E. inversion E. subst entries. clear E.
      minv H as st c2 H2. apply liftM_Ok in H2 as [E ->]. simpl in E. inversion E.
      subst st. clear E.
      minv H as next c2 H2. apply randomAiInterval_Ok in H2. apply createAiInsight_Ok in H1.
      apply (IH _ (firstn 3 (ins :: l))) in H; [|apply lookup_insert_eq].
      destruct H as (so' & l' & -> & Hl' & Hor & Hc).
      exists so', l'. split; [reflexivity|]. split; [exact Hl'|]. split; [|lia].
      right. destruct Hor as [-> | Hor]; [|exact Hor].
      split; [discriminate|]. rewrite length_firstn. lia.
    + apply retM_Ok in H as [E ->]. inversion E; subst. exists so, l.
      split; [reflexivity|]. split; [exact Hl|]. split; [auto | lia].
Qed.

Lemma rollAiState_Ok rt so l symbol c s' c' :
  so !! "entries" = Some (VArr l) ->
  rollAiState rt (VObj so) symbol c = Ok (s', c') ->
  exists so' l' iso, s' = VObj so' /\ so' !! "entries" = Some (VArr l') /\
    (l' = l \/ (l' <> [] /\ (length l' <= 3)%nat)) /\
    so' !! "nextRefreshAt" = Some (VStr iso) /\
    (insight_calls c' <= insight_calls c + 10)%nat.
Proof.
  intros Hl. unfold rollAiState. intros H.
  minv H as now c0 H0. apply Date_now_Ok in H0.
  minv H as stored c1 H1. apply liftM_Ok in H1 as [_ ->].
  minv H as parsed c1 H1. apply liftM_Ok in H1 as [_ ->].
  minv H as nextMillis c2 H2.
  assert (E2 : insight_calls c2 = insight_calls c0).
  { destruct (is_nan _).
    - minv H2 as base c3 H3. apply lastIssuedBase_Ok in H3.
      apply randomAiInterval_Ok in H2. congruence.
    - apply retM_Ok in H2 as [_ ->]. reflexivity. }
  minv H as rolled c3 H3. destruct rolled as [state nextMillis'].
  apply (roll_Ok _ _ _ _ so l) in H3 as (so' & l' & -> & Hl' & Hor & Hc); [|exact Hl].
  minv H as iso c4 H4. apply liftM_Ok in H4 as [_ ->]. apply liftM_Ok in H as [E ->].
  simpl in E. inversion E. subst s'.
  eexists _, l', iso. split; [reflexivity|].
  rewrite lookup_insert_eq, lookup_insert_ne by discriminate.
  split; [exact Hl'|]. split; [exact Hor|]. split; [reflexivity | lia].
Qed.

Lemma ensureAiState_Ok rt o ai symbol c user1 state c1 :
  o !! "aiInsights" = Some (VObj ai) ->
  (forall st, ai !! symbol = Some st -> exists so, st = VObj so) ->
  ensureAiState rt o symbol c = Ok (user1, state, c1) ->
  exists so l,
    state = VObj so /\ so !! "entries" = Some (VArr l) /\ l <> [] /\
    user1 = <["aiInsights" := VObj (<[symbol := state]> ai)]> o /\
    (insight_calls c1 <= S (insight_calls c))%nat /\
    (length l = 1%nat \/
     exists so0, ai !! symbol = Some (VObj so0) /\ so0 !! "entries" = Some (VArr l)).
Proof.
  intros Hai Hobj H. unfold ensureAiState in H.
  rewrite (defaultAiInsights_object o ai Hai) in H.
  assert (Ea : lookup_prop (VObj o) "aiInsights" = VObj ai) by (simpl; rewrite Hai; reflexivity).
  rewrite Ea in H.
  minv H as ai1 c2 H2. minv H as st0 c3 H3. apply liftM_Ok in H3 as [E3 ->].
  minv H as st1 c3 H3. minv H as st2 c4 H4. minv H as st3 c5 H5.
  minv H as ai2 c6 H6. apply liftM_Ok in H6 as [E6 ->]. apply retM_Ok in H as [E ->].
  inversion E. subst user1 state. clear E.
  assert (Hst0 : exists ai' so0, ai1 = VObj ai' /\ st0 = VObj so0 /\
                   <[symbol := VObj so0]> ai' = <[symbol := VObj so0]> ai /\
                   ((ai !! symbol = Some (VObj so0) /\ insight_calls c2 = insight_calls c) \/
                    ((exists ins, so0 !! "entries" = Some (VArr [ins])) /\
                     insight_calls c2 = S (insight_calls c)))).
  { apply ensureSymbol_Ok in H2 as [(st & Hs & T & -> & Ec)|(ins & iso & -> & Ec)].
    - destruct (Hobj st Hs) as [so0 ->]. simpl in E3. rewrite Hs in E3. inversion E3.
      exists ai, so0. split; [reflexivity|]. split; [reflexivity|].
      split; [reflexivity|]. left. auto.
    - simpl in E3. rewrite lookup_insert_eq in E3. inversion E3.
      eexists _, _. split; [reflexivity|]. split; [reflexivity|].
      split; [apply insert_insert_eq|]. right. split; [|exact Ec].
      exists ins. apply lookup_insert_eq. }
  destruct Hst0 as (ai' & so0 & -> & -> & Eai & Hfrom).
  apply ensureEntries_Ok in H3 as (-> & so1 & l1 & -> & Hl1 & Hor1).
  apply (ensureFirst_Ok _ _ _ l1) in H4 as (so2 & l2 & -> & Hl2 & Hne2 & Hor2); [|exact Hl1].
  apply ensureNextRefresh_Ok in H5 as (so3 & -> & Hl3 & Ec5).
  simpl in E6. inversion E6. subst ai2. clear E6.
  exists so3, l2. split; [reflexivity|]. split; [congruence|]. split; [exact Hne2|].
  split.
  { f_equal. f_equal. rewrite <- (insert_insert_eq ai' symbol (VObj so3) (VObj so0)).
    rewrite Eai. apply insert_insert_eq. }
  destruct Hfrom as [[Hs Ec2]|[[ins Hins] Ec2]].
  - destruct Hor2 as [[-> Ec4]|(_ & Hlen & Ec4)].
    + split; [lia|]. destruct Hor1 as [Hl0|[-> _]]; [|congruence].
      right. exists so0. auto.
    + split; [lia|]. left. exact Hlen.
  - destruct Hor1 as [Hl0|[_ Hno]]; [|destruct (Hno _ Hins)].
    rewrite Hins in Hl0. inversion Hl0. subst l1.
    destruct Hor2 as [[-> Ec4]|(Hnil & _)]; [|discriminate].
    split; [lia|]. left. reflexivity.
Qed.

Lemma refresh_Ok rt o ai symbol c user' state c' :
  o !! "aiInsights" = Some (VObj ai) ->
  (forall st, ai !! symbol = Some st -> state_ok st) ->
  refresh rt (defaultAiInsights o) symbol c = Ok (user', state, c') ->
  state_ok state /\
  user' = <["aiInsights" := VObj (<[symbol := state]> ai)]> o /\
  (insight_calls c' <= insight_calls c + 11)%nat.
Proof.
  intros Hai Hok H. unfold refresh in H.
  rewrite (defaultAiInsights_object o ai Hai) in H.
  minv H as ensured c1 H1. destruct ensured as [user1 state1].
  apply (ensureAiState_Ok _ _ ai) in H1
    as (so & l & -> & Hl & Hne & -> & Hc1 & Hfrom); [|exact Hai|].
  2:{ intros st Hs. destruct (Hok st Hs) as (so & _ & _ & -> & _). eauto. }
  minv H as state2 c2 H2.
  apply (rollAiState_Ok _ _ l) in H2 as (so' & l' & iso & -> & Hl' & Hor & Hiso & Hc2);
    [|exact Hl].
  minv H as ai2 c3 H3. apply liftM_Ok in H3 as [E ->]. apply retM_Ok in H as [E' ->].
  inversion E'. subst user' state. clear E'.
  simpl in E. rewrite lookup_insert_eq in E. simpl in E. inversion E. subst ai2. clear E.
  split; [|split].
  - exists so', l', iso. split; [reflexivity|]. split; [exact Hl'|].
    destruct Hor as [->|[Hne' Hlen]]; [|auto].
    split; [exact Hne|]. split; [|exact Hiso].
    destruct Hfrom as [Hlen|(so0 & Hs & Hl0)]; [lia|].
    destruct (Hok _ Hs) as (so0' & l0 & iso0 & E0 & Hl0' & _ & Hlen & _).
    inversion E0. subst so0'. rewrite Hl0 in Hl0'. inversion Hl0'. subst. exact Hlen.
  - rewrite insert_insert_eq, insert_insert_eq. reflexivity.
  - lia.
Qed.

End InsightFacts.

(** ** Facts on the handlers *)

Module ApiFacts.
Import JS Server Ledger FloatFacts StoreFacts TradeFacts.
Import Api Running JsonFacts InsightFacts.
Local Open Scope Z_scope.

Lemma lookup_json_obj o k :
  lookup_prop (json (VObj o)) k = default VUndef (o !! k ≫= json_field).
Proof. rewrite json_obj. simpl. rewrite lookup_omap. reflexivity. Qed.

(** A field of a record that was written is read as it is. *)
Lemma lookup_written o k :
  json_field (VObj o) = Some (VObj o) ->
  default VUndef (o !! k ≫= json_field) = default VUndef (o !! k).
Proof.
  intros Ho. destruct (o !! k) as [x|] eqn:Hk; simpl; [|reflexivity].
  rewrite (written_record o k x Ho Hk). reflexivity.
Qed.

Lemma accounting_balance b h type q p b' h' pnl :
  accounting b h type q p = Ok (inr (b', h', pnl)) -> exists f, b' = VNum f.
Proof.
  unfold accounting. destruct (is_string "buy" type).
  - destruct (Number b) as [funds| |]; cbn [bind]; try discriminate.
    destruct (_ <? _)%float; [discriminate|]. intros H. inversion H. eauto.
  - destruct (_ <? _)%float; [discriminate|].
    destruct (add_num b _) as [v| |] eqn:E; simpl; try discriminate.
    intros H. inversion H. subst. apply add_num_Ok in E. eauto.
Qed.

Lemma json_num_field f : json_field (VNum f) = Some (json (VNum f)).
Proof. reflexivity. Qed.

Lemma state_ok_json state : state_ok state -> state_ok (json state).
Proof.
  intros (so & l & iso & -> & Hl & Hne & Hlen & Hiso).
  exists (omap json_field so), (List.map json l), iso.
  split; [apply json_obj|]. rewrite !lookup_omap, Hl, Hiso. simpl.
  split; [reflexivity|]. split; [destruct l; [congruence | discriminate]|].
  split; [rewrite length_map; exact Hlen | reflexivity].
Qed.

Lemma state_ok_defined state : state_ok state -> json_field state = Some (json state).
Proof. intros (so & l & iso & -> & _). reflexivity. Qed.

(** *** How a request changes the file *)

Lemma file_ok_record s k u :
  file_ok s -> s !! k = Some u ->
  account_ok true u /\ json_field u = Some u /\ audited u /\ insights_ok u.
Proof.
  intros (Hg & Hj & Ha & Hi & _) Hk.
  split; [exact (Hg k u Hk)|]. split; [exact (written_lookup s k u Hj Hk)|].
  split; [exact (Ha k u Hk) | exact (Hi k u Hk)].
Qed.

Lemma file_ok_positions s k u : file_ok s -> s !! k = Some u -> positions_audited u.
Proof. intros (_ & _ & _ & _ & Hp) Hk. exact (Hp k u Hk). Qed.

(** The file after one record of a file that was written is replaced by a
    record that is in order. *)
Lemma file_ok_insert s name u :
  file_ok s -> account_ok false u -> audited (json u) -> insights_ok (json u) ->
  positions_audited (json u) ->
  file_ok (writeUsers (<[name := u]> s)).
Proof.
  intros Hs Hu Ha Hi Hp. pose proof Hs as (Hg & Hj & Has & His & Hps).
  destruct (json_account_ok false u Hu) as [Hf Hok].
  assert (Hall : forall (P : value -> Prop),
            P (json u) -> map_Forall (fun _ v => P v) s ->
            map_Forall (fun _ v => P v) (writeUsers (<[name := u]> s))).
  { intros P Hnew Hold k v Hk. rewrite (writeUsers_insert s name u k Hj) in Hk.
    case_bool_decide.
    - rewrite Hf in Hk. inversion Hk. subst v. exact Hnew.
    - exact (Hold k v Hk). }
  split; [|split; [|split; [|split]]].
  - apply writeUsers_good. apply map_Forall_insert_2; [exact Hu|].
    apply good_store_weaken, Hg.
  - apply writeUsers_twice.
  - apply Hall; assumption.
  - apply Hall; assumption.
  - apply Hall; assumption.
Qed.

Lemma newAccount_audited password : audited (json (newAccount password)).
Proof.
  unfold audited, newAccount. rewrite !lookup_json_obj.
  rewrite lookup_insert_ne, lookup_insert_ne, lookup_insert_ne, lookup_insert_eq
    by discriminate.
  simpl. rewrite lookup_insert_ne, lookup_insert_eq by discriminate. reflexivity.
Qed.

Lemma newAccount_positions password : positions_audited (json (newAccount password)).
Proof.
  unfold positions_audited, newAccount. intros symbol. rewrite !lookup_json_obj.
  rewrite lookup_insert_ne, lookup_insert_ne, lookup_insert_eq by discriminate.
  rewrite lookup_insert_ne, lookup_insert_ne, lookup_insert_ne, lookup_insert_eq
    by discriminate.
  reflexivity.
Qed.

Lemma newAccount_insights password : insights_ok (json (newAccount password)).
Proof.
  unfold insights_ok, newAccount. intros ai symbol state. rewrite lookup_json_obj.
  rewrite !lookup_insert_ne, lookup_singleton_eq by discriminate. simpl.
  intros H. inversion H. subst ai. rewrite omap_empty, lookup_empty. discriminate.
Qed.

(** What a settled trade leaves of the record. *)
Lemma settle_shape o type sym q p id ts user' entry :
  account_ok true (VObj o) ->
  settle o type sym q p id ts = Ok (Settled user' entry) ->
  exists f h' pnl items hs',
    entry = make_entry id ts type sym q p (VNum f) (position h') pnl /\
    o !! "history" = Some (VArr items) /\
    user' = <["history" := VArr (entry :: items)]>
              (<["holdings" := VObj hs']> (<["balance" := VNum f]> o)).
Proof.
  intros Hacc H.
  destruct (account_ok_settle o sym Hacc) as (hs & h & Hh & Eh & _).
  destruct (settle_Settled o type sym q p id ts hs h user' entry Hh Eh H)
    as (b' & h' & pnl & items & Ea & Ei & -> & ->).
  destruct (accounting_balance _ _ _ _ _ _ _ _ Ea) as [f ->].
  destruct Hacc as (o0 & b & hs0 & l & ai & E & _ & _ & _ & _ & Hl & _).
  inversion E. subst o0. simpl in Ei. rewrite Hl in Ei. simpl in Ei. inversion Ei. subst items.
  exists f, h', pnl, l, (holdings_after hs sym h'). auto.
Qed.

Lemma position_shown_json p :
  position_shown (json (VNum p))
  = if (p =? 0)%float then VUndef else json (VNum p).
Proof.
  simpl. destruct (is_finite p) eqn:Ef.
  - change (is_zero p) with (p =? 0)%float. destruct (p =? 0)%float eqn:Ez; simpl.
    + reflexivity.
    + rewrite Ez. reflexivity.
  - destruct (p =? 0)%float eqn:Ez; [|reflexivity].
    exfalso. rewrite eqb_zero_spec in Ez. rewrite is_finite_spec in Ef.
    destruct (Prim2SF p); discriminate.
Qed.

Lemma file_ok_trade s name o type sym q p i ts user' entry :
  file_ok s -> s !! name = Some (VObj o) ->
  sym <> "" -> (0 <? q)%float = true -> (0 <? p)%float = true ->
  settle o type sym q p i ts = Ok (Settled user' entry) ->
  file_ok (writeUsers (<[name := VObj user']> s)).
Proof.
  intros Hs Hk Hsym Hq Hp H.
  destruct (file_ok_record s name _ Hs Hk) as (Hacc & Hj & Ha & Hi).
  pose proof (file_ok_positions s name _ Hs Hk) as Hpos.
  apply file_ok_insert; [exact Hs| | | |].
  - destruct (settle_ok o type sym q p i ts Hacc Hsym Hq Hp) as [E|[E|(u & e & E & Hok)]];
      rewrite E in H; inversion H. subst. exact Hok.
  - destruct (settle_shape o type sym q p i ts user' entry Hacc H)
      as (f & h' & pnl & items & hs' & He & Hl & ->).
    unfold audited. rewrite !lookup_json_obj.
    rewrite lookup_insert_eq. simpl.
    rewrite lookup_insert_ne, lookup_insert_ne, lookup_insert_eq by discriminate.
    rewrite He. unfold make_entry. rewrite lookup_json_obj.
    rewrite !lookup_insert_ne, lookup_insert_eq by discriminate. reflexivity.
  - destruct (settle_shape o type sym q p i ts user' entry Hacc H)
      as (f & h' & pnl & items & hs' & He & Hl & ->).
    intros ai symbol state. rewrite lookup_json_obj.
    rewrite !lookup_insert_ne by discriminate. rewrite (lookup_written o _ Hj).
    apply (Hi ai symbol state).
  - destruct (account_ok_settle o sym Hacc) as (hs & h & Hh & Eh & _).
    destruct (settle_Settled o type sym q p i ts hs h user' entry Hh Eh H)
      as (b' & h' & pnl & items & Ea & Ei & -> & ->).
    destruct Hacc as (o0 & b & hs0 & l & ai & E & _ & _ & _ & _ & Hl & _).
    inversion E. subst o0. simpl in Ei. rewrite Hl in Ei. simpl in Ei.
    inversion Ei. subst items. clear Ei E.
    pose proof (written_record o "holdings" _ Hj Hh) as Hjh.
    pose proof (written_record o "history" _ Hj Hl) as Hjl.
    assert (El : List.map json l = l).
    { simpl in Hjl. inversion Hjl as [E']. rewrite E'. exact E'. }
    set (entry := make_entry i ts type sym q p b' (position h') pnl).
    assert (Esym : lookup_prop (json entry) "symbol" = VStr sym).
    { unfold entry, make_entry. rewrite lookup_json_obj.
      rewrite !lookup_insert_ne, lookup_insert_eq by discriminate. reflexivity. }
    assert (Epos : lookup_prop (json entry) "positionAfter" = json (VNum (position h'))).
    { unfold entry, make_entry. rewrite lookup_json_obj.
      rewrite !lookup_insert_ne, lookup_insert_eq by discriminate. reflexivity. }
    assert (Ehis : lookup_prop (json (VObj (<["history" := VArr (entry :: l)]>
                      (<["holdings" := VObj (holdings_after hs sym h')]>
                         (<["balance" := b']> o))))) "history"
                   = VArr (json entry :: l)).
    { rewrite lookup_json_obj, lookup_insert_eq. simpl. rewrite El. reflexivity. }
    assert (Ehol : lookup_prop (json (VObj (<["history" := VArr (entry :: l)]>
                      (<["holdings" := VObj (holdings_after hs sym h')]>
                         (<["balance" := b']> o))))) "holdings"
                   = json (VObj (holdings_after hs sym h'))).
    { rewrite lookup_json_obj, lookup_insert_ne, lookup_insert_eq by discriminate.
      reflexivity. }
    intros symbol. rewrite Ehis, Ehol. cbn [newest List.find]. rewrite Esym.
    cbn [is_string]. rewrite lookup_json_obj. case_bool_decide as Es.
    + subst symbol. rewrite Epos, position_shown_json. unfold holdings_after.
      destruct (position h' =? 0)%float.
      * rewrite lookup_delete_eq. reflexivity.
      * rewrite lookup_insert_eq. simpl. rewrite lookup_omap, lookup_insert_eq. reflexivity.
    + assert (Eh' : holdings_after hs sym h' !! symbol ≫= json_field = hs !! symbol).
      { unfold holdings_after. destruct (position h' =? 0)%float.
        - rewrite lookup_delete_ne by exact Es.
          destruct (hs !! symbol) as [x|] eqn:Hx; [|reflexivity]. simpl.
          exact (written_record hs symbol x Hjh Hx).
        - rewrite lookup_insert_ne by exact Es.
          destruct (hs !! symbol) as [x|] eqn:Hx; [|reflexivity]. simpl.
          exact (written_record hs symbol x Hjh Hx). }
      rewrite Eh'. specialize (Hpos symbol). simpl in Hpos. rewrite Hh, Hl in Hpos.
      exact Hpos.
Qed.

Lemma file_ok_insights s name o rt symbol user' state c :
  file_ok s -> s !! name = Some (VObj o) ->
  refresh rt (defaultAiInsights o) symbol no_calls = Ok (user', state, c) ->
  file_ok (writeUsers (<[name := VObj user']> s)).
Proof.
  intros Hs Hk H.
  destruct (file_ok_record s name _ Hs Hk) as (Hacc & Hj & Ha & Hi).
  pose proof Hacc as (o0 & b & hs & l & ai & E & Hb & Hbok & Hh & Hhs & Hl & Hes & Hai).
  inversion E. subst o0. clear E.
  pose proof (file_ok_positions s name _ Hs Hk) as Hpos.
  apply (refresh_Ok _ _ ai) in H as (Hst & -> & _); [|exact Hai|].
  2:{ intros st Hst. apply (Hi ai symbol st); [|exact Hst]. simpl. rewrite Hai. reflexivity. }
  apply file_ok_insert; [exact Hs| | | |].
  - exists (<["aiInsights" := VObj (<[symbol := state]> ai)]> o), b, hs, l,
      (<[symbol := state]> ai).
    split; [reflexivity|]. rewrite !lookup_insert_ne by discriminate.
    rewrite lookup_insert_eq.
    split; [exact Hb|]. split; [apply num_ok_weaken, Hbok|]. split; [exact Hh|].
    split; [|auto].
    eapply map_Forall_impl; [exact Hhs|]. intros sym h. apply holding_ok_weaken.
  - unfold audited in *. rewrite !lookup_json_obj.
    rewrite !lookup_insert_ne by discriminate. rewrite !(lookup_written o _ Hj).
    simpl in Ha. destruct (o !! "history") as [[| | | | |[|e l']|]|]; simpl in *; auto.
  - intros ai' symbol' state'. rewrite lookup_json_obj, lookup_insert_eq. simpl.
    intros E. inversion E. subst ai'. clear E. rewrite lookup_omap.
    change (<[symbol := state]> ai !! symbol' ≫= json_field = Some state' -> state_ok state').
    destruct (decide (symbol' = symbol)) as [->|Hne].
    + rewrite lookup_insert_eq. simpl. rewrite (state_ok_defined _ Hst).
      intros E. inversion E. apply state_ok_json, Hst.
    + rewrite lookup_insert_ne by congruence.
      assert (Hja : json_field (VObj ai) = Some (VObj ai)) by exact (written_record o _ _ Hj Hai).
      intros E. destruct (ai !! symbol') as [x|] eqn:Hx; [|discriminate]. simpl in E.
      rewrite (written_record ai symbol' x Hja Hx) in E. inversion E. subst state'.
      apply (Hi ai symbol' x); [|exact Hx]. simpl. rewrite Hai. reflexivity.
  - intros symbol'. rewrite !lookup_json_obj.
    rewrite !lookup_insert_ne by discriminate. rewrite !(lookup_written o _ Hj).
    exact (Hpos symbol').
Qed.

Lemma file_change_ok s s' : file_ok s -> file_change s s' -> file_ok s'.
Proof.
  intros Hs [| name password Hn | name o type sym q p id ts user' entry Hk Hsym Hq Hp H
             | name o rt symbol user' state c Hk H].
  - exact Hs.
  - apply file_ok_insert; [exact Hs | apply account_ok_weaken, newAccount_ok
                          | apply newAccount_audited | apply newAccount_insights
                          | apply newAccount_positions].
  - exact (file_ok_trade s name o type sym q p id ts user' entry Hs Hk Hsym Hq Hp H).
  - exact (file_ok_insights s name o rt symbol user' state c Hs Hk H).
Qed.

(** *** The handlers *)

Lemma with_file_same w : with_file w (file w) = w.
Proof. destruct w. reflexivity. Qed.

Lemma file_ok_readUsers s : file_ok s -> readUsers s = Ok (s, s).
Proof. intros (Hg & _). apply good_store_readUsers, Hg. Qed.

Lemma file_ok_truthy s k u : file_ok s -> s !! k = Some u -> exists o, u = VObj o.
Proof.
  intros (Hg & _) Hk. destruct (Hg k u Hk) as (o & _ & _ & _ & _ & -> & _). eauto.
Qed.

Lemma handleRegister_change s name password :
  file_ok s -> file_change s (handleRegister s name password).2.
Proof.
  intros Hs. unfold handleRegister.
  destruct (_ || _); [constructor|]. rewrite (file_ok_readUsers s Hs).
  destruct (ToString name) as [key| |]; try constructor.
  destruct (finds_inherited s key); [constructor|]. cbn [orb].
  destruct (s !! key) as [u|] eqn:Hk; simpl.
  - destruct (file_ok_truthy s key u Hs Hk) as [o ->]. simpl. constructor.
  - apply change_register, Hk.
Qed.

Lemma handleTrade_change s name body id ts :
  file_ok s -> file_change s (handleTrade s name body id ts).2.
Proof.
  intros Hs.
  assert (Hrej : (forall entry, (handleTrade s name body id ts).1 <> TradeOk entry) ->
                 file_change s (handleTrade s name body id ts).2).
  { intros Hno. destruct (handleTrade_rejected s name body id ts Hno) as [E|E]; rewrite E.
    - constructor.
    - rewrite (good_store_loaded s (proj1 Hs)). constructor. }
  destruct (handleTrade s name body id ts) as [r s'] eqn:E.
  destruct r; try (apply Hrej; intros e; discriminate).
  simpl. apply handleTrade_TradeOk in E
    as (users & store1 & o & user' & Hr & Hk & Hset & -> & _ & Hsym & Hq & Hp).
  rewrite (file_ok_readUsers s Hs) in Hr. inversion Hr. subst users store1.
  exact (change_trade s name o _ _ _ _ _ _ user' entry Hk Hsym Hq Hp Hset).
Qed.

Lemma withAuth_cases w authorization handler :
  ((authenticate w authorization = None \/
    exists user, authenticate w authorization = Some user /\ truthy user = false) /\
   withAuth w authorization handler = (Unauthorized, w)) \/
  exists user, authenticate w authorization = Some user /\ truthy user = true /\
               withAuth w authorization handler = handler user.
Proof.
  unfold withAuth. destruct (authenticate w authorization) as [user|]; [|auto].
  destruct (truthy user) eqn:E; [right | left]; eauto.
Qed.

Lemma api_register_world w payload :
  file_ok (file w) ->
  exists s', (api_register w payload).2 = with_file w s' /\ file_change (file w) s'.
Proof.
  intros Hs.
  assert (Hsame : exists s', w = with_file w s' /\ file_change (file w) s').
  { exists (file w). split; [symmetry; apply with_file_same | constructor]. }
  unfold api_register. destruct payload as [body|]; [|exact Hsame].
  destruct (nullish body); [exact Hsame|].
  destruct (handleRegister (file w) (lookup_prop body "username")
              (lookup_prop body "password")) as [r store] eqn:E.
  simpl. exists store. split; [reflexivity|].
  change store with (r, store).2. rewrite <- E. apply handleRegister_change, Hs.
Qed.

Lemma handleLogin_world w payload rt :
  file_ok (file w) ->
  (forall t, (handleLogin w payload rt).1 <> LoggedIn t) /\ (handleLogin w payload rt).2 = w \/
  exists body name u,
    payload = Some body /\ truthy (lookup_prop body "username") = true /\
    ToString (lookup_prop body "username") = Ok name /\
    file w !! name = Some u /\
    strict_eq (lookup_prop u "password") (lookup_prop body "password") = true /\
    handleLogin w payload rt =
    (LoggedIn (token rt),
     (createSession w (lookup_prop body "username") (token rt) (now rt 0)).2).
Proof.
  intros Hs. unfold handleLogin.
  destruct payload as [body|]; [|left; split; [discriminate|reflexivity]].
  destruct (nullish body); [left; split; [discriminate|reflexivity]|].
  destruct (negb (truthy (lookup_prop body "username")) || _) eqn:Hc;
    [left; split; [discriminate|reflexivity]|].
  apply orb_false_elim in Hc as [Hu Hp]. apply negb_false_iff in Hu.
  rewrite (file_ok_readUsers _ Hs), with_file_same.
  destruct (ToString (lookup_prop body "username")) as [name| |] eqn:En;
    try (left; split; [discriminate|reflexivity]).
  destruct (negb (truthy (default VUndef (file w !! name))) || _) eqn:Hc;
    [left; split; [discriminate|reflexivity]|].
  apply orb_false_elim in Hc as [Hr Hpw].
  apply negb_false_iff in Hr. apply negb_false_iff in Hpw.
  right. destruct (file w !! name) as [u|] eqn:Hk; [|discriminate].
  exists body, name, u. split; [reflexivity|]. split; [exact Hu|].
  split; [exact En|]. split; [exact Hk|]. split; [exact Hpw|].
  reflexivity.
Qed.

Lemma withAuth_elim (P : reply * world -> Prop) w authorization handler :
  P (Unauthorized, w) ->
  (forall user, authenticate w authorization = Some user -> truthy user = true ->
                P (handler user)) ->
  P (withAuth w authorization handler).
Proof.
  intros H0 H1. unfold withAuth. destruct (authenticate w authorization) as [user|]; [|exact H0].
  destruct (truthy user) eqn:E; [|exact H0]. apply H1; auto.
Qed.

Lemma handleSummary_world w authorization :
  file_ok (file w) -> (handleSummary w authorization).2 = w.
Proof.
  intros Hs. unfold handleSummary.
  apply (withAuth_elim (fun r => r.2 = w)); [reflexivity|]. intros user _ _.
  rewrite (file_ok_readUsers _ Hs), with_file_same.
  destruct (account_name _ _) as [name|]; [|reflexivity].
  destruct (negb _); reflexivity.
Qed.

Lemma api_history_world w authorization symbolParam :
  file_ok (file w) -> (api_history w authorization symbolParam).2 = w.
Proof.
  intros Hs. unfold api_history.
  apply (withAuth_elim (fun r => r.2 = w)); [reflexivity|]. intros user _ _.
  destruct (account_name _ _) as [name|]; [|reflexivity].
  destruct (handleHistory (file w) name symbolParam) as [r store] eqn:E. simpl.
  assert (Es : store = file w).
  { change store with (r, store).2. rewrite <- E, handleHistory_store.
    apply good_store_loaded, Hs. }
  rewrite Es. apply with_file_same.
Qed.

Lemma api_trade_world w authorization payload rt :
  file_ok (file w) ->
  exists s', (api_trade w authorization payload rt).2 = with_file w s' /\
             file_change (file w) s'.
Proof.
  intros Hs.
  assert (Hsame : exists s', w = with_file w s' /\ file_change (file w) s').
  { exists (file w). split; [symmetry; apply with_file_same | constructor]. }
  unfold api_trade.
  apply (withAuth_elim (fun r => exists s', r.2 = with_file w s' /\ file_change (file w) s'));
    [exact Hsame|]. intros user _ _.
  destruct payload as [body|]; [|exact Hsame].
  destruct (account_name _ _) as [name|]; [|exact Hsame].
  destruct (handleTrade (file w) name body (uuid rt) (isoNow rt)) as [r store] eqn:E.
  simpl. exists store. split; [reflexivity|].
  change store with (r, store).2. rewrite <- E. apply handleTrade_change, Hs.
Qed.

Lemma handleAiInsights_world w authorization symbolParam rt :
  file_ok (file w) ->
  exists s', (handleAiInsights w authorization symbolParam rt).2 = with_file w s' /\
             file_change (file w) s'.
Proof.
  intros Hs.
  assert (Hsame : exists s', w = with_file w s' /\ file_change (file w) s').
  { exists (file w). split; [symmetry; apply with_file_same | constructor]. }
  unfold handleAiInsights.
  apply (withAuth_elim (fun r => exists s', r.2 = with_file w s' /\ file_change (file w) s'));
    [exact Hsame|]. intros user _ _.
  rewrite (file_ok_readUsers _ Hs), with_file_same.
  destruct (account_name _ _) as [name|]; [|exact Hsame].
  destruct (file w !! name) as [u|] eqn:Hk; simpl; [|exact Hsame].
  destruct (file_ok_truthy _ _ _ Hs Hk) as [o ->].
  destruct (refresh rt (defaultAiInsights o) (insights_symbol symbolParam) no_calls)
    as [[[user' state] c]| |] eqn:E; try exact Hsame.
  simpl. eexists. split; [reflexivity|].
  exact (change_insights _ name o rt _ user' state c Hk E).
Qed.

Lemma handleLogout_world w authorization :
  (handleLogout w authorization).2 = w \/
  exists t, (handleLogout w authorization).2 = clearSession w t.
Proof.
  unfold handleLogout. simpl. destruct (bearer authorization) as [t|]; [|auto].
  case_bool_decide; eauto.
Qed.

(** *** Sessions *)

Lemma world_ok_with_file w s' :
  world_ok w -> file_change (file w) s' ->
  (forall k, is_Some (file w !! k) -> is_Some (s' !! k)) ->
  world_ok (with_file w s').
Proof.
  intros [Hf Hs Hu Ho] Hc Hdom. split; simpl.
  - eapply file_change_ok; eauto.
  - exact Hs.
  - intros t s Ht. destruct (Hu t s Ht) as (Hne & name & Hn & Hk). eauto.
  - exact Ho.
Qed.

Lemma file_change_dom s s' k :
  file_ok s -> file_change s s' -> is_Some (s !! k) -> is_Some (s' !! k).
Proof.
  intros Hs Hc [u Hk]. pose proof Hs as (Hg & Hj & _).
  destruct Hc as [| name password Hn | name o type sym q p id ts user' entry Hn Hsym Hq Hp H
                 | name o rt symbol user' state c Hn H];
    [eauto| | |]; rewrite (writeUsers_insert s name _ k Hj); case_bool_decide; eauto.
Qed.

Lemma key_of_object v m n : key_of v m = KObject n -> n = m.
Proof. destruct v; simpl; intros H; inversion H; reflexivity. Qed.

Lemma world_ok_createSession w username name t c :
  world_ok w -> truthy username = true -> ToString username = Ok name ->
  is_Some (file w !! name) ->
  world_ok (createSession w username t c).2.
Proof.
  intros [Hf Hs Hu Ho] Hne Hn Hk. split; simpl.
  - exact Hf.
  - set (k := key_of username (objects w)).
    intros t' s'. destruct (decide (t' = t)) as [->|Ht].
    + rewrite lookup_insert_eq. intros E. inversion E. apply lookup_insert_eq.
    + rewrite lookup_insert_ne by congruence. intros H.
      assert (H' : sessions w !! t' = Some s' /\ userSessions w !! k <> Some t').
      { destruct (userSessions w !! k) as [prev|] eqn:Ep.
        - destruct (decide (t' = prev)) as [->|Hp].
          + rewrite lookup_delete_eq in H. discriminate.
          + rewrite lookup_delete_ne in H by congruence. split; [exact H | congruence].
        - split; [exact H | discriminate]. }
      destruct H' as [H1 H2]. pose proof (Hs t' s' H1) as H3.
      destruct (decide (session_key s' = k)) as [E|E].
      * rewrite E in H3. contradiction.
      * rewrite lookup_insert_ne by congruence. exact H3.
  - intros t' s'. destruct (decide (t' = t)) as [->|Ht].
    + rewrite lookup_insert_eq. intros E. inversion E. simpl. eauto.
    + rewrite lookup_insert_ne by congruence. intros H. apply (Hu t' s').
      destruct (userSessions w !! _) as [prev|]; [|exact H].
      destruct (decide (t' = prev)) as [->|Hp].
      * rewrite lookup_delete_eq in H. discriminate.
      * rewrite lookup_delete_ne in H by congruence. exact H.
  - intros n t'. destruct (decide (key_of username (objects w) = KObject n)) as [E|E].
    + intros _. apply key_of_object in E. lia.
    + rewrite lookup_insert_ne by exact E. intros H. specialize (Ho n t' H). lia.
Qed.

Lemma world_ok_clearSession w t : world_ok w -> world_ok (clearSession w t).
Proof.
  intros Hw. pose proof Hw as [Hf Hs Hu Ho]. unfold clearSession.
  case_bool_decide as Et; [exact Hw|].
  destruct (sessions w !! t) as [s|] eqn:Hk; [|exact Hw].
  split; simpl.
  - exact Hf.
  - intros t' s'. destruct (decide (t' = t)) as [->|Hne].
    + rewrite lookup_delete_eq. discriminate.
    + rewrite lookup_delete_ne by congruence. intros H. pose proof (Hs t' s' H) as H'.
      case_bool_decide as E; [|exact H'].
      destruct (decide (session_key s' = session_key s)) as [Eu|Eu].
      * rewrite Eu in H'. congruence.
      * rewrite lookup_delete_ne by congruence. exact H'.
  - intros t' s'. destruct (decide (t' = t)) as [->|Hne].
    + rewrite lookup_delete_eq. discriminate.
    + rewrite lookup_delete_ne by congruence. apply Hu.
  - intros n t'. case_bool_decide as E; [|apply Ho].
    destruct (decide (session_key s = KObject n)) as [Eu|Eu].
    + rewrite Eu, lookup_delete_eq. discriminate.
    + rewrite lookup_delete_ne by exact Eu. apply Ho.
Qed.

Lemma world_ok_boot s : file_ok s -> world_ok (boot s).
Proof.
  intros Hs. split; simpl; [exact Hs| | |]; intros t s'; rewrite lookup_empty; discriminate.
Qed.

Lemma file_ok_empty : file_ok ∅.
Proof.
  split; [|split; [|split; [|split]]];
    try (intros k u H; rewrite lookup_empty in H; discriminate).
  reflexivity.
Qed.

Lemma world_ok_change w w' :
  world_ok w ->
  (exists s', w' = with_file w s' /\ file_change (file w) s') -> world_ok w'.
Proof.
  intros Hw (s' & -> & Hc). apply world_ok_with_file; [exact Hw | exact Hc|].
  intros k. apply file_change_dom; [apply Hw | exact Hc].
Qed.

Lemma server_ok w req rt : world_ok w -> world_ok (server w req rt).2.
Proof.
  intros Hw. pose proof (ok_file w Hw) as Hs. unfold server.
  destruct (String.prefix "/api/" (pathname req)).
  - destruct (routed req "POST" "/api/register").
    { apply (world_ok_change w); [exact Hw | apply api_register_world, Hs]. }
    destruct (routed req "POST" "/api/login").
    { destruct (handleLogin_world w (payload req) rt Hs)
        as [[_ E]|(body & name & u & _ & Hne & Hn & Hk & _ & E)]; rewrite E; [exact Hw|].
      apply (world_ok_createSession w _ name); [exact Hw | exact Hne | exact Hn | eauto]. }
    destruct (routed req "POST" "/api/logout").
    { destruct (handleLogout_world w (authorization req)) as [E|[t E]]; rewrite E;
        [exact Hw | apply world_ok_clearSession, Hw]. }
    destruct (routed req "GET" "/api/summary").
    { rewrite handleSummary_world by exact Hs. exact Hw. }
    destruct (routed req "GET" "/api/history").
    { rewrite api_history_world by exact Hs. exact Hw. }
    destruct (routed req "POST" "/api/trade").
    { apply (world_ok_change w); [exact Hw | apply api_trade_world, Hs]. }
    destruct (routed req "GET" "/api/ai-insights").
    { apply (world_ok_change w); [exact Hw | apply handleAiInsights_world, Hs]. }
    exact Hw.
  - destruct (bool_decide _); exact Hw.
Qed.

Lemma running_ok w : running w -> world_ok w.
Proof.
  induction 1 as [|w Hr IH|w req rt Hr IH].
  - apply world_ok_boot, file_ok_empty.
  - apply world_ok_boot, IH.
  - apply server_ok, IH.
Qed.

(** *** What a request does to a record *)

Lemma server_file_change w req rt :
  world_ok w -> file_change (file w) (file (server w req rt).2).
Proof.
  intros Hw. pose proof (ok_file w Hw) as Hs.
  assert (Hch : forall w', (exists s', w' = with_file w s' /\ file_change (file w) s') ->
                           file_change (file w) (file w')).
  { intros w' (s' & -> & Hc). exact Hc. }
  unfold server.
  destruct (String.prefix "/api/" (pathname req)).
  - destruct (routed req "POST" "/api/register").
    { apply Hch, api_register_world, Hs. }
    destruct (routed req "POST" "/api/login").
    { destruct (handleLogin_world w (payload req) rt Hs)
        as [[_ E]|(body & name & u & _ & _ & _ & Hk & _ & E)]; rewrite E; constructor. }
    destruct (routed req "POST" "/api/logout").
    { destruct (handleLogout_world w (authorization req)) as [E|[t E]]; rewrite E;
        [constructor|]. unfold clearSession. case_bool_decide; [constructor|].
      destruct (sessions w !! t); constructor. }
    destruct (routed req "GET" "/api/summary").
    { rewrite handleSummary_world by exact Hs. constructor. }
    destruct (routed req "GET" "/api/history").
    { rewrite api_history_world by exact Hs. constructor. }
    destruct (routed req "POST" "/api/trade").
    { apply Hch, api_trade_world, Hs. }
    destruct (routed req "GET" "/api/ai-insights").
    { apply Hch, handleAiInsights_world, Hs. }
    constructor.
  - destruct (bool_decide _); constructor.
Qed.

(** A record after a request: as it was, or with a new balance, new
    holdings and one more entry in front of the history, or with new
    insights. *)
Lemma file_change_record s s' k u :
  file_ok s -> file_change s s' -> s !! k = Some u ->
  s' !! k = Some u \/
  (exists o f hs' e l,
     u = VObj o /\ o !! "history" = Some (VArr l) /\
     s' !! k = Some (json (VObj (<["history" := VArr (e :: l)]>
                                  (<["holdings" := VObj hs']>
                                     (<["balance" := VNum f]> o)))))) \/
  (exists o ai', u = VObj o /\
     s' !! k = Some (json (VObj (<["aiInsights" := VObj ai']> o)))).
Proof.
  intros Hs Hc Hk. pose proof Hs as (Hg & Hj & _).
  destruct Hc as [| name password Hn | name o type sym q p id ts user' entry Hn Hsym Hq Hp H
                 | name o rt symbol user' state c Hn H].
  - auto.
  - left. rewrite (writeUsers_insert s name _ k Hj). case_bool_decide; [congruence | exact Hk].
  - rewrite (writeUsers_insert s name _ k Hj). case_bool_decide as E; [|auto].
    subst k. rewrite Hn in Hk. inversion Hk. subst u. right. left.
    destruct (file_ok_record s name _ Hs Hn) as (Hacc & _).
    destruct (settle_shape o type sym q p id ts user' entry Hacc H)
      as (f & h' & pnl & items & hs' & He & Hl & ->).
    exists o, f, hs', entry, items. auto.
  - rewrite (writeUsers_insert s name _ k Hj). case_bool_decide as E; [|auto].
    subst k. rewrite Hn in Hk. inversion Hk. subst u. right. right.
    destruct (file_ok_record s name _ Hs Hn) as (Hacc & _ & _ & Hi).
    pose proof Hacc as (o0 & b & hs & l & ai & E & _ & _ & _ & _ & _ & _ & Hai).
    inversion E. subst o0.
    apply (refresh_Ok _ _ ai) in H as (_ & -> & _); [|exact Hai|].
    2:{ intros st Hst. apply (Hi ai symbol st); [|exact Hst]. simpl. rewrite Hai. reflexivity. }
    eauto.
Qed.

(** A field of a record that the request does not assign is read as
    before. *)
Lemma record_field_kept s s' k u field :
  file_ok s -> file_change s s' -> s !! k = Some u ->
  field <> "history" -> field <> "holdings" -> field <> "balance" ->
  field <> "aiInsights" ->
  exists u', s' !! k = Some u' /\ lookup_prop u' field = lookup_prop u field.
Proof.
  intros Hs Hc Hk H1 H2 H3 H4.
  destruct (file_ok_record s k u Hs Hk) as (_ & Hj & _).
  destruct (file_change_record s s' k u Hs Hc Hk)
    as [E|[(o & f & hs' & e & l & -> & _ & E)|(o & ai' & -> & E)]];
    rewrite E; eexists; (split; [reflexivity|]); [reflexivity| |];
    rewrite lookup_json_obj, !lookup_insert_ne by congruence; apply (lookup_written o _ Hj).
Qed.

(** *** Whose record a request changes *)

Lemma account_name_Some users username name :
  account_name users username = Some name ->
  ToString username = Ok name /\ finds_inherited users name = false.
Proof.
  unfold account_name. destruct (ToString username) as [n| |]; try discriminate.
  destruct (finds_inherited users n) eqn:E; [discriminate|].
  intros H. inversion H. subst. auto.
Qed.

Lemma handleRegister_Registered s username password s' :
  file_ok s -> handleRegister s username password = (Registered, s') ->
  exists name,
    truthy username = true /\ ToString username = Ok name /\
    truthy password = true /\ s !! name = None /\ inherited name = false /\
    s' = writeUsers (<[name := newAccount password]> s).
Proof.
  intros Hs. unfold handleRegister.
  destruct (truthy username) eqn:Tu; simpl; [|discriminate].
  destruct (truthy password) eqn:Tp; simpl; [|discriminate].
  rewrite (file_ok_readUsers s Hs).
  destruct (ToString username) as [name| |]; try discriminate.
  destruct (finds_inherited s name) eqn:Ef; [discriminate|]. cbn [orb].
  destruct (s !! name) as [u|] eqn:Hk; cbn [default from_option].
  - destruct (file_ok_truthy s name u Hs Hk) as [o ->]. discriminate.
  - unfold finds_inherited in Ef. rewrite Hk in Ef.
    rewrite bool_decide_eq_true_2, andb_true_r in Ef by reflexivity.
    intros H. inversion H. exists name. auto 7.
Qed.

Lemma handleRegister_local s username password k u :
  file_ok s -> s !! k = Some u -> (handleRegister s username password).2 !! k = Some u.
Proof.
  intros Hs Hk. destruct (handleRegister s username password) as [r s'] eqn:E.
  pose proof (handleRegister_change s username password Hs) as Hc. rewrite E in Hc. simpl in *.
  destruct r; try (unfold handleRegister in E; revert E;
                   destruct (_ || _); [intros E; inversion E; subst; exact Hk|];
                   rewrite (file_ok_readUsers s Hs);
                   destruct (ToString username); try (intros E; inversion E; subst; exact Hk);
                   destruct (_ || _); intros E; inversion E; subst; exact Hk).
  apply (handleRegister_Registered s username password s' Hs) in E
    as (name & _ & _ & _ & Hn & _ & ->).
  rewrite (writeUsers_insert s name _ k (proj1 (proj2 Hs))).
  case_bool_decide; [congruence | exact Hk].
Qed.

Lemma handleTrade_local s user body id ts k :
  file_ok s -> k <> user -> (handleTrade s user body id ts).2 !! k = s !! k.
Proof.
  intros Hs Hne.
  assert (Hrej : (forall entry, (handleTrade s user body id ts).1 <> TradeOk entry) ->
                 (handleTrade s user body id ts).2 = s).
  { intros Hno. destruct (handleTrade_rejected s user body id ts Hno) as [E|E]; rewrite E;
      [reflexivity | apply good_store_loaded, Hs]. }
  destruct (handleTrade s user body id ts) as [r s'] eqn:E.
  destruct r; try (simpl in *; rewrite Hrej; [reflexivity | intros e; discriminate]).
  simpl. apply handleTrade_TradeOk in E
    as (users & store1 & o & user' & Hr & Hk & Hset & -> & _).
  rewrite (file_ok_readUsers s Hs) in Hr. inversion Hr. subst users store1.
  rewrite (writeUsers_insert s user _ k (proj1 (proj2 Hs))).
  rewrite bool_decide_eq_false_2 by exact Hne. reflexivity.
Qed.

Lemma nullish_lookup body k s : lookup_prop body k = VStr s -> nullish body = false.
Proof. destruct body; simpl; congruence. Qed.

Lemma server_local w req rt name u :
  world_ok w -> file w !! name = Some u ->
  (forall user, authenticate w (authorization req) = Some user -> ToString user <> Ok name) ->
  file (server w req rt).2 !! name = Some u.
Proof.
  intros Hw Hk Hno. pose proof (ok_file w Hw) as Hs. unfold server.
  destruct (String.prefix "/api/" (pathname req)).
  - destruct (routed req "POST" "/api/register").
    { unfold api_register. destruct (payload req) as [body|]; [|exact Hk].
      destruct (nullish body); [exact Hk|].
      destruct (handleRegister (file w) (lookup_prop body "username")
                  (lookup_prop body "password")) as [r store] eqn:E.
      simpl. change store with (r, store).2. rewrite <- E.
      apply handleRegister_local; auto. }
    destruct (routed req "POST" "/api/login").
    { destruct (handleLogin_world w (payload req) rt Hs)
        as [[_ E]|(body & nm & u' & _ & _ & _ & _ & _ & E)]; rewrite E; exact Hk. }
    destruct (routed req "POST" "/api/logout").
    { destruct (handleLogout_world w (authorization req)) as [E|[t E]]; rewrite E;
        [exact Hk|]. unfold clearSession. case_bool_decide; [exact Hk|].
      destruct (sessions w !! t); exact Hk. }
    destruct (routed req "GET" "/api/summary").
    { rewrite handleSummary_world by exact Hs. exact Hk. }
    destruct (routed req "GET" "/api/history").
    { rewrite api_history_world by exact Hs. exact Hk. }
    destruct (routed req "POST" "/api/trade").
    { unfold api_trade.
      apply (withAuth_elim (fun r => file r.2 !! name = Some u)); [exact Hk|].
      intros user Ha _. destruct (payload req) as [body|]; [|exact Hk].
      destruct (account_name _ _) as [nm|] eqn:En; [|exact Hk].
      apply account_name_Some in En as [En _].
      destruct (handleTrade (file w) nm body (uuid rt) (isoNow rt)) as [r store] eqn:E.
      simpl. change store with (r, store).2. rewrite <- E.
      rewrite handleTrade_local; [exact Hk | exact Hs |].
      intros ->. exact (Hno user Ha En). }
    destruct (routed req "GET" "/api/ai-insights").
    { unfold handleAiInsights.
      apply (withAuth_elim (fun r => file r.2 !! name = Some u)); [exact Hk|].
      intros user Ha _. rewrite (file_ok_readUsers _ Hs), with_file_same.
      destruct (account_name _ _) as [nm|] eqn:En; [|exact Hk].
      apply account_name_Some in En as [En _].
      destruct (file w !! nm) as [v|] eqn:Hv; simpl; [|exact Hk].
      destruct (file_ok_truthy _ _ _ Hs Hv) as [o ->].
      destruct (refresh rt (defaultAiInsights o) (insights_symbol (symbolParam req)) no_calls)
        as [[[user' state] c]| |] eqn:E; try exact Hk.
      simpl. rewrite (writeUsers_insert _ nm _ name (proj1 (proj2 Hs))).
      rewrite bool_decide_eq_false_2; [exact Hk|].
      intros ->. exact (Hno user Ha En). }
    exact Hk.
  - destruct (bool_decide _); exact Hk.
Qed.

(** *** A trade that settled, as the next request finds it *)

Lemma settle_written o type sym q p id ts user' entry :
  account_ok true (VObj o) -> json_field (VObj o) = Some (VObj o) ->
  settle o type sym q p id ts = Ok (Settled user' entry) ->
  exists hs h' l,
    o !! "holdings" = Some (VObj hs) /\ o !! "history" = Some (VArr l) /\
    lookup_prop entry "positionAfter" = VNum (position h') /\
    lookup_prop entry "symbol" = VStr sym /\
    lookup_prop (json (VObj user')) "balance" = lookup_prop (json entry) "balanceAfter" /\
    lookup_prop (json (VObj user')) "history" = VArr (json entry :: l) /\
    lookup_prop (json (VObj user')) "holdings"
    = json (VObj (holdings_after hs sym h')).
Proof.
  intros Hacc Hj H.
  destruct (account_ok_settle o sym Hacc) as (hs & h & Hh & Eh & _).
  destruct (settle_Settled o type sym q p id ts hs h user' entry Hh Eh H)
    as (b' & h' & pnl & items & Ea & Ei & -> & ->).
  destruct (accounting_balance _ _ _ _ _ _ _ _ Ea) as [f ->].
  destruct Hacc as (o0 & b & hs0 & l & ai & E & _ & _ & _ & _ & Hl & _).
  inversion E. subst o0. simpl in Ei. rewrite Hl in Ei. simpl in Ei. inversion Ei. subst items.
  exists hs, h', l. split; [exact Hh|]. split; [exact Hl|].
  unfold make_entry.
  split. { simpl. rewrite !lookup_insert_ne, lookup_insert_eq by discriminate. reflexivity. }
  split. { simpl. rewrite !lookup_insert_ne, lookup_insert_eq by discriminate. reflexivity. }
  rewrite !lookup_json_obj.
  split.
  { rewrite lookup_insert_ne, lookup_insert_ne, lookup_insert_eq by discriminate.
    rewrite !lookup_insert_ne, lookup_insert_eq by discriminate. reflexivity. }
  split.
  { rewrite lookup_insert_eq. simpl. f_equal. f_equal.
    pose proof (written_record o "history" _ Hj Hl) as Hjl. simpl in Hjl.
    inversion Hjl as [E']. rewrite E'. exact E'. }
  rewrite lookup_insert_ne, lookup_insert_eq by discriminate. reflexivity.
Qed.

Lemma api_trade_TradeOk w h payload rt entry w' :
  file_ok (file w) -> api_trade w h payload rt = (Ledger (TradeOk entry), w') ->
  exists user name body o user',
    authenticate w h = Some user /\ truthy user = true /\
    account_name (file w) user = Some name /\ payload = Some body /\
    file w !! name = Some (VObj o) /\
    settle o (lookup_prop body "type") (trimmedSymbol_of body) (qty_of body)
      (tradePrice_of body) (uuid rt) (isoNow rt) = Ok (Settled user' entry) /\
    w' = with_file w (writeUsers (<[name := VObj user']> (file w))) /\
    file_ok (file w') /\ trimmedSymbol_of body <> "".
Proof.
  intros Hs. unfold api_trade, withAuth.
  destruct (authenticate w h) as [user|]; [|discriminate].
  destruct (truthy user) eqn:Hne; [|discriminate].
  destruct payload as [body|]; [|discriminate].
  destruct (account_name _ _) as [name|] eqn:En; [|discriminate].
  destruct (handleTrade (file w) name body (uuid rt) (isoNow rt)) as [r store] eqn:E.
  intros H. inversion H. subst r w'. clear H.
  apply handleTrade_TradeOk in E
    as (users & store1 & o & user' & Hr & Hk & Hset & -> & _ & Hsym & Hq & Hp).
  rewrite (file_ok_readUsers _ Hs) in Hr. inversion Hr. subst users store1.
  exists user, name, body, o, user'.
  split; [reflexivity|]. split; [exact Hne|]. split; [exact En|].
  split; [reflexivity|]. split; [exact Hk|].
  split; [exact Hset|]. split; [reflexivity|]. split; [|exact Hsym].
  exact (file_ok_trade _ _ _ _ _ _ _ _ _ _ _ Hs Hk Hsym Hq Hp Hset).
Qed.

(** *** An insights request that succeeded *)

Lemma handleAiInsights_Ok w h symbolParam rt symbol insights next w' :
  file_ok (file w) ->
  handleAiInsights w h symbolParam rt = (InsightsOk symbol insights next, w') ->
  exists user name o ai state c,
    authenticate w h = Some user /\ account_name (file w) user = Some name /\
    file w !! name = Some (VObj o) /\
    o !! "aiInsights" = Some (VObj ai) /\
    symbol = insights_symbol symbolParam /\
    refresh rt (defaultAiInsights o) symbol no_calls
    = Ok (<["aiInsights" := VObj (<[symbol := state]> ai)]> o, state, c) /\
    state_ok state /\ (insight_calls c <= 11)%nat /\
    insights = lookup_prop state "entries" /\ next = lookup_prop state "nextRefreshAt" /\
    w' = with_file w (writeUsers
                        (<[name := VObj (<["aiInsights" := VObj (<[symbol := state]> ai)]> o)]>
                           (file w))).
Proof.
  intros Hs. unfold handleAiInsights, withAuth.
  destruct (authenticate w h) as [user|]; [|discriminate].
  destruct (truthy user) eqn:Hne; [|discriminate].
  rewrite (file_ok_readUsers _ Hs), with_file_same.
  destruct (account_name _ _) as [name|] eqn:En; [|discriminate].
  destruct (file w !! name) as [u|] eqn:Hk; simpl; [|discriminate].
  destruct (file_ok_record _ _ _ Hs Hk) as (Hacc & _ & _ & Hi).
  destruct Hacc as (o & b & hs & l & ai & -> & _ & _ & _ & _ & _ & _ & Hai).
  destruct (refresh rt (defaultAiInsights o) (insights_symbol symbolParam) no_calls)
    as [[[user' state] c]| |] eqn:E; try discriminate.
  intros H. inversion H. subst symbol insights next w'. clear H.
  pose proof E as E'.
  apply (refresh_Ok _ _ ai) in E' as (Hst & -> & Hc); [|exact Hai|].
  2:{ intros st Hst. apply (Hi ai (insights_symbol symbolParam) st); [|exact Hst].
      simpl. rewrite Hai. reflexivity. }
  exists user, name, o, ai, state, c. simpl in Hc.
  split; [reflexivity|]. split; [exact En|]. auto 12.
Qed.

Lemma handleAiInsights_other w h symbolParam rt :
  file_ok (file w) ->
  (forall symbol insights next,
     (handleAiInsights w h symbolParam rt).1 <> InsightsOk symbol insights next) ->
  (handleAiInsights w h symbolParam rt).2 = w.
Proof.
  intros Hs. unfold handleAiInsights.
  apply (withAuth_elim
           (fun r => (forall symbol insights next, r.1 <> InsightsOk symbol insights next) ->
                     r.2 = w)); [reflexivity|].
  intros user _ _. rewrite (file_ok_readUsers _ Hs), with_file_same.
  destruct (account_name _ _) as [name|]; [|reflexivity].
  destruct (default VUndef (file w !! name)); try (destruct (truthy _); reflexivity);
    try reflexivity.
  destruct (refresh _ _ _ _) as [[[user' state] c]| |]; try reflexivity.
  intros H. exfalso. eapply H. reflexivity.
Qed.

End ApiFacts.

(** ** Facts on sessions and samples *)

Import JsonFacts InsightFacts ApiFacts.

(** *** Tokens *)

Lemma bearer_prefix t : bearer (Some (String.append "Bearer " t)) = Some t.
Proof. destruct t; reflexivity. Qed.

Lemma authenticate_Some w h user :
  authenticate w h = Some user <->
  exists t s, bearer h = Some t /\ t <> "" /\ sessions w !! t = Some s /\ username s = user.
Proof.
  unfold authenticate. destruct (bearer h) as [t|].
  - case_bool_decide as E.
    + split; [discriminate|]. intros (t' & s & Ht & Hne & _). inversion Ht. congruence.
    + destruct (sessions w !! t) as [s|] eqn:Hs; simpl.
      * split.
        -- intros H. inversion H. exists t, s. auto.
        -- intros (t' & s' & Ht & _ & Hs' & Hu). inversion Ht. subst t'.
           rewrite Hs in Hs'. inversion Hs'. subst. reflexivity.
      * split; [discriminate|]. intros (t' & s' & Ht & _ & Hs' & _).
        inversion Ht. subst t'. congruence.
  - split; [discriminate|]. intros (t & s & Ht & _). discriminate.
Qed.

Lemma authenticate_with_file w s h : authenticate (with_file w s) h = authenticate w h.
Proof. reflexivity. Qed.

Lemma ann_registered_running : running ann_registered.
Proof. apply run_request, run_start. Qed.

Lemma ann_logged_in_running : running ann_logged_in.
Proof. apply run_request, ann_registered_running. Qed.

Lemma ann_bought_running : running ann_bought.
Proof. apply run_request, ann_logged_in_running. Qed.

Lemma ann_advised_running : running ann_advised.
Proof. apply run_request, ann_bought_running. Qed.

Lemma ann_elsewhere_running : running ann_elsewhere.
Proof. apply run_request, ann_advised_running. Qed.

Lemma nobody_logged_in_running : running nobody_logged_in.
Proof. apply run_request, run_request, run_start. Qed.

(** ** The server's properties *)

(** X1. What [writeUsers] writes is read back as it is: writing the table
    that was read back gives the same file again, and so does
    [JSON.stringify] on any value that was parsed from its output. *)
Theorem written_file_is_stable :
  (forall users, writeUsers (writeUsers users) = writeUsers users) /\
  (forall v, json (json v) = json v).
Proof. split; [apply writeUsers_twice | apply json_idempotent]. Qed.

(** X2. In every state the server comes to be in, a user name that is a
    string, or any other primitive, has at most one session: two
    [Authorization] headers that [authenticate] resolves to that user name
    carry the same token.  (A user name that is an array or an object is
    another key of [userSessions] at every login: see X4.) *)
Theorem one_session_per_user w h1 h2 user :
  running w -> is_object user = false ->
  authenticate w h1 = Some user -> authenticate w h2 = Some user ->
  bearer h1 = bearer h2.
Proof.
  intros Hr Hp H1 H2. apply running_ok in Hr. destruct Hr as [_ Hs _ _].
  apply authenticate_Some in H1 as (t1 & s1 & B1 & _ & S1 & U1).
  apply authenticate_Some in H2 as (t2 & s2 & B2 & _ & S2 & U2).
  pose proof (Hs t1 s1 S1) as E1. pose proof (Hs t2 s2 S2) as E2.
  assert (K : session_key s1 = session_key s2).
  { unfold session_key. rewrite U1, U2. destruct user; try reflexivity; discriminate. }
  rewrite K in E1. congruence.
Qed.

Lemma one_session_per_user_witness :
  authenticate ann_elsewhere (Some "Bearer token-2") = Some (VStr "ann") /\
  bearer (Some "Bearer token-2") = bearer (Some "Bearer token-2").
Proof.
  assert (H : authenticate ann_elsewhere (Some "Bearer token-2") = Some (VStr "ann"))
    by (vm_compute; reflexivity).
  split; [exact H|].
  exact (one_session_per_user ann_elsewhere _ _ (VStr "ann") ann_elsewhere_running
           eq_refl H H).
Defined.

(** X3. In every state the server comes to be in, a session belongs to an
    account: the user name [authenticate] resolves a token to is truthy
    and converts to a string under which the users file has a record (the
    empty string for the empty array), and [handleSummary] answers that
    token with the balance, the holdings and the history of the record,
    leaving the state as it is. *)
Theorem session_has_account w h user :
  running w -> authenticate w h = Some user ->
  truthy user = true /\
  exists name o hs l,
    ToString user = Ok name /\
    file w !! name = Some (VObj o) /\
    o !! "holdings" = Some (VObj hs) /\ o !! "history" = Some (VArr l) /\
    handleSummary w h = (SummaryOk (lookup_prop (VObj o) "balance") (VObj hs) (VArr l), w).
Proof.
  intros Hr Ha. apply running_ok in Hr. pose proof Hr as [Hf Hs Hu _].
  pose proof Ha as Ha'. apply authenticate_Some in Ha' as (t & s & _ & _ & Ht & <-).
  destruct (Hu t s Ht) as (Hne & name & Hn & u & Hk). split; [exact Hne|].
  destruct (file_ok_record _ _ _ Hf Hk) as (Hacc & _).
  destruct Hacc as (o & b & hs & l & ai & -> & Hb & _ & Hh & _ & Hl & _).
  exists name, o, hs, l. split; [exact Hn|].
  split; [exact Hk|]. split; [exact Hh|]. split; [exact Hl|].
  unfold handleSummary, withAuth. rewrite Ha, Hne.
  rewrite (file_ok_readUsers _ Hf), with_file_same.
  unfold account_name, finds_inherited. rewrite Hn, Hk.
  rewrite (bool_decide_eq_false_2 (Some (VObj o) = None)) by discriminate.
  rewrite andb_false_r. rewrite Hk. simpl. rewrite Hh, Hl. reflexivity.
Qed.

Lemma session_has_account_witness :
  authenticate nobody_logged_in (Some "Bearer token-0") = Some (VArr []) /\
  exists o, file nobody_logged_in !! "" = Some (VObj o) /\
            exists hs l, handleSummary nobody_logged_in (Some "Bearer token-0")
                         = (SummaryOk (lookup_prop (VObj o) "balance") (VObj hs) (VArr l),
                            nobody_logged_in).
Proof.
  assert (H : authenticate nobody_logged_in (Some "Bearer token-0") = Some (VArr []))
    by (vm_compute; reflexivity).
  split; [exact H|].
  destruct (session_has_account nobody_logged_in _ (VArr []) nobody_logged_in_running H)
    as (_ & name & o & hs & l & Hn & Hk & _ & _ & Hsum).
  inversion Hn. subst name.
  exists o. split; [exact Hk|]. exists hs, l. exact Hsum.
Defined.

(** X4. A login that succeeds answers the token drawn and opens a session
    for the user name sent, which converts to the name of an account: the
    token then authenticates as that user name, and the users file is as
    it was.  Where the user name is a string or another primitive,
    whatever other token authenticated as it before no longer does.
    Where it is an array or an object, the login ends no session: every
    other token authenticates as before, so an account takes any number
    of sessions through logins under [[name]]. *)
Theorem login_opens_session w payload rt t w' :
  running w -> handleLogin w payload rt = (LoggedIn t, w') -> t <> "" ->
  exists body name,
    let user := lookup_prop body "username" in
    payload = Some body /\ truthy user = true /\ ToString user = Ok name /\
    is_Some (file w !! name) /\
    t = token rt /\ file w' = file w /\
    authenticate w' (Some (String.append "Bearer " t)) = Some user /\
    (is_object user = false ->
     forall h, authenticate w h = Some user -> bearer h <> Some t ->
               authenticate w' h = None) /\
    (is_object user = true ->
     forall h, bearer h <> Some t -> authenticate w' h = authenticate w h).
Proof.
  intros Hr H Hne. apply running_ok in Hr. pose proof Hr as [Hf Hs _ Ho].
  destruct (handleLogin_world w payload rt Hf)
    as [[Hno _]|(body & name & u & -> & Hu & Hn & Hk & _ & E)].
  { exfalso. apply (Hno t). rewrite H. reflexivity. }
  rewrite E in H. inversion H. subst t w'. clear H E.
  exists body, name. cbv zeta.
  split; [reflexivity|]. split; [exact Hu|]. split; [exact Hn|]. split; [eauto|].
  split; [reflexivity|]. split; [reflexivity|]. split; [|split].
  - apply authenticate_Some. eexists (token rt), _. split; [apply bearer_prefix|].
    split; [exact Hne|]. simpl. rewrite lookup_insert_eq. split; reflexivity.
  - intros Hp h Ha Hb. apply authenticate_Some in Ha as (t' & s' & Hb' & _ & Ht' & Hus).
    unfold authenticate. rewrite Hb'. case_bool_decide; [reflexivity|].
    simpl. rewrite lookup_insert_ne by congruence.
    pose proof (Hs t' s' Ht') as Hk'.
    assert (K : session_key s' = key_of (lookup_prop body "username") (objects w)).
    { unfold session_key. rewrite Hus.
      destruct (lookup_prop body "username"); try reflexivity; discriminate. }
    rewrite K in Hk'. rewrite Hk'.
    rewrite lookup_delete_eq. reflexivity.
  - intros Hp h Hb.
    assert (K : key_of (lookup_prop body "username") (objects w) = KObject (objects w)).
    { destruct (lookup_prop body "username"); try discriminate; reflexivity. }
    assert (Hfresh : userSessions w !! KObject (objects w) = None).
    { destruct (userSessions w !! KObject (objects w)) as [t'|] eqn:E; [|reflexivity].
      specialize (Ho _ _ E). lia. }
    unfold authenticate. destruct (bearer h) as [t'|]; [|reflexivity].
    case_bool_decide; [reflexivity|]. simpl. rewrite K, Hfresh.
    rewrite lookup_insert_ne by congruence. reflexivity.
Qed.

Lemma login_opens_session_witness :
  authenticate ann_elsewhere (Some "Bearer token-2") = Some (VStr "ann") /\
  authenticate ann_elsewhere (Some "Bearer token-1") = None /\
  authenticate ann_listed (Some "Bearer token-2") = Some (VArr [VStr "ann"]) /\
  authenticate ann_listed (Some "Bearer token-1") = Some (VStr "ann").
Proof.
  assert (H : handleLogin ann_advised (Some (credentials "ann" (VStr "secret")))
                (clockwork "token-2" "") = (LoggedIn "token-2", ann_elsewhere))
    by (vm_compute; reflexivity).
  assert (H' : handleLogin ann_logged_in
                 (Some (credentials_of (VArr [VStr "ann"]) (VStr "secret")))
                 (clockwork "token-2" "") = (LoggedIn "token-2", ann_listed))
    by (vm_compute; reflexivity).
  destruct (login_opens_session _ _ _ _ _ ann_advised_running H)
    as (body & name & Hb & _ & _ & _ & _ & _ & Hnew & Hold & _); [discriminate|].
  inversion Hb. subst body.
  destruct (login_opens_session _ _ _ _ _ ann_logged_in_running H')
    as (body & name' & Hb' & _ & _ & _ & _ & _ & Hnew' & _ & Hkept); [discriminate|].
  inversion Hb'. subst body.
  split; [exact Hnew|].
  split; [apply Hold; [reflexivity | vm_compute; reflexivity | vm_compute; discriminate]|].
  split; [exact Hnew'|].
  rewrite (Hkept eq_refl (Some "Bearer token-1")) by (vm_compute; discriminate).
  vm_compute. reflexivity.
Defined.

(** X5. [handleLogout] always answers that the user is logged out and
    never touches the users file.  The token of the request authenticates
    no longer; every other token authenticates as before. *)
Theorem logout_closes_session w h :
  (handleLogout w h).1 = LoggedOut /\
  file (handleLogout w h).2 = file w /\
  authenticate (handleLogout w h).2 h = None /\
  forall h', bearer h' <> bearer h ->
             authenticate (handleLogout w h).2 h' = authenticate w h'.
Proof.
  split; [reflexivity|]. unfold handleLogout, authenticate. simpl.
  destruct (bearer h) as [t|] eqn:Eb; [|auto].
  case_bool_decide as Et.
  { split; [reflexivity|]. split; [reflexivity|]. auto. }
  unfold clearSession. rewrite bool_decide_eq_false_2 by exact Et.
  destruct (sessions w !! t) as [s|] eqn:Hs; simpl.
  - split; [reflexivity|]. split; [rewrite lookup_delete_eq; reflexivity|].
    intros h' Hne. destruct (bearer h') as [t'|]; [|reflexivity].
    rewrite lookup_delete_ne by congruence. reflexivity.
  - split; [reflexivity|]. split; [rewrite Hs; reflexivity | auto].
Qed.

Lemma logout_closes_session_witness :
  authenticate (handleLogout ann_elsewhere (Some "Bearer token-2")).2
    (Some "Bearer token-2") = None /\
  authenticate ann_elsewhere (Some "Bearer token-2") = Some (VStr "ann").
Proof.
  split; [|vm_compute; reflexivity].
  apply (logout_closes_session ann_elsewhere (Some "Bearer token-2")).
Defined.

(** X6. A request for the summary, the history, a trade or the insights
    whose [Authorization] header resolves to no session is answered 401
    and changes nothing, neither the sessions nor the users file, which is
    not even read; so is every request to another path under [/api/] but
    register, login and logout, whose answer may also be 404. *)
Theorem no_session_no_change w req rt :
  authenticate w (authorization req) = None ->
  pathname req <> "/api/register" -> pathname req <> "/api/login" ->
  pathname req <> "/api/logout" ->
  (server w req rt).2 = w /\
  (routed req "GET" "/api/summary" || routed req "GET" "/api/history"
   || routed req "POST" "/api/trade" || routed req "GET" "/api/ai-insights" = true ->
   (server w req rt).1 = Unauthorized).
Proof.
  intros Ha H1 H2 H3.
  assert (R : forall m p, pathname req <> p -> routed req m p = false).
  { intros m p Hp. unfold routed. rewrite (bool_decide_eq_false_2 _ Hp). apply andb_false_r. }
  assert (U : forall handler, withAuth w (authorization req) handler = (Unauthorized, w)).
  { intros handler. unfold withAuth. rewrite Ha. reflexivity. }
  assert (P : forall m p, routed req m p = true -> pathname req = p).
  { intros m p Hr. unfold routed in Hr. apply andb_true_iff in Hr as [_ Hr].
    apply bool_decide_eq_true in Hr. exact Hr. }
  unfold server. rewrite (R "POST" _ H1), (R "POST" _ H2), (R "POST" _ H3).
  unfold handleSummary, api_history, api_trade, handleAiInsights. rewrite !U.
  destruct (routed req "GET" "/api/summary") eqn:R1.
  { rewrite (P _ _ R1). simpl. auto. }
  destruct (routed req "GET" "/api/history") eqn:R2.
  { rewrite (P _ _ R2). simpl. auto. }
  destruct (routed req "POST" "/api/trade") eqn:R3.
  { rewrite (P _ _ R3). simpl. auto. }
  destruct (routed req "GET" "/api/ai-insights") eqn:R4.
  { rewrite (P _ _ R4). simpl. auto. }
  simpl. destruct (String.prefix "/api/" (pathname req)).
  - split; [reflexivity | discriminate].
  - destruct (bool_decide _); (split; [reflexivity | discriminate]).
Qed.

Lemma no_session_no_change_witness :
  server ann_logged_in
    (post "/api/trade" (Some "Bearer token-9") (order "buy" "HOG" 10 120))
    (clockwork "" "id") = (Unauthorized, ann_logged_in).
Proof.
  destruct (no_session_no_change ann_logged_in
              (post "/api/trade" (Some "Bearer token-9") (order "buy" "HOG" 10 120))
              (clockwork "" "id")) as [Hw Hr];
    [vm_compute; reflexivity | discriminate | discriminate | discriminate |].
  rewrite (surjective_pairing (server _ _ _)), Hw, Hr by reflexivity. reflexivity.
Defined.

(** X7. After a registration that succeeded, a login under the same name
    succeeds exactly when the password sent is strictly equal to the
    password as the file holds it.  A password that is a string opens a
    session when sent again; a password that is an array or an object is
    accepted by the registration, and no login under that name succeeds,
    the stored and the sent password being two different objects. *)
Theorem register_then_login w body name w1 :
  running w -> lookup_prop body "username" = VStr name ->
  api_register w (Some body) = (Ledger Registered, w1) ->
  (forall body' rt,
     lookup_prop body' "username" = VStr name ->
     truthy (lookup_prop body' "password") = true ->
     handleLogin w1 (Some body') rt =
     if strict_eq (json (lookup_prop body "password")) (lookup_prop body' "password")
     then (LoggedIn (token rt), (createSession w1 (VStr name) (token rt) (now rt 0)).2)
     else (LoginFailed, w1)) /\
  (forall p rt, lookup_prop body "password" = VStr p ->
     handleLogin w1 (Some body) rt =
     (LoggedIn (token rt), (createSession w1 (VStr name) (token rt) (now rt 0)).2)) /\
  ((exists l, lookup_prop body "password" = VArr l) \/
   (exists o, lookup_prop body "password" = VObj o) ->
   forall body' rt t, lookup_prop body' "username" = VStr name ->
     (handleLogin w1 (Some body') rt).1 <> LoggedIn t).
Proof.
  intros Hr Hn H. apply running_ok in Hr. pose proof (ok_file w Hr) as Hf.
  unfold api_register in H. rewrite (nullish_lookup body _ _ Hn), Hn in H.
  destruct (handleRegister (file w) (VStr name) (lookup_prop body "password"))
    as [r store] eqn:E.
  inversion H. subst r w1. clear H.
  apply (handleRegister_Registered _ _ _ _ Hf) in E
    as (name' & Tn & Hn' & Tp & Hnone & _ & ->).
  inversion Hn'. subst name'. clear Hn'.
  remember (lookup_prop body "password") as pw eqn:Epw.
  assert (Hf1 : file_ok (writeUsers (<[name := newAccount pw]> (file w)))).
  { apply (file_change_ok (file w)); [exact Hf | apply change_register, Hnone]. }
  assert (Hu : writeUsers (<[name := newAccount pw]> (file w)) !! name
               = Some (json (newAccount pw))).
  { rewrite (writeUsers_insert _ name _ name (proj1 (proj2 Hf))).
    rewrite bool_decide_eq_true_2 by reflexivity. reflexivity. }
  assert (Hpw : lookup_prop (json (newAccount pw)) "password" = json pw).
  { unfold newAccount. rewrite lookup_json_obj, lookup_insert_eq. simpl.
    rewrite json_field_defined; [reflexivity|]. intros ->. discriminate. }
  assert (Hlogin : forall body' rt,
     lookup_prop body' "username" = VStr name ->
     truthy (lookup_prop body' "password") = true ->
     handleLogin (with_file w (writeUsers (<[name := newAccount pw]> (file w))))
       (Some body') rt =
     if strict_eq (json pw) (lookup_prop body' "password")
     then (LoggedIn (token rt),
           (createSession (with_file w (writeUsers (<[name := newAccount pw]> (file w))))
              (VStr name) (token rt) (now rt 0)).2)
     else (LoginFailed, with_file w (writeUsers (<[name := newAccount pw]> (file w))))).
  { intros body' rt Hn' Tp'. unfold handleLogin.
    rewrite (nullish_lookup body' _ _ Hn'), Hn', Tp'.
    rewrite Tn. cbn [negb orb]. cbn [file with_file].
    rewrite (file_ok_readUsers _ Hf1). cbn [ToString unprintable text_of].
    rewrite Hu. cbn [default from_option].
    unfold Datatypes.id. rewrite Hpw.
    cbn [truthy json newAccount negb orb].
    destruct (strict_eq (json pw) (lookup_prop body' "password")); reflexivity. }
  split; [exact Hlogin|]. split.
  - intros p rt Hp. rewrite Hlogin; [|exact Hn | rewrite <- Epw; exact Tp].
    rewrite <- Epw, Hp. simpl. rewrite bool_decide_eq_true_2 by reflexivity. reflexivity.
  - intros Hobj body' rt t Hn'.
    assert (Hs : forall x, strict_eq (json pw) x = false).
    { intros x. destruct Hobj as [[l ->]|[o ->]]; reflexivity. }
    unfold handleLogin. rewrite (nullish_lookup body' _ _ Hn'), Hn'.
    cbn [file with_file]. rewrite (file_ok_readUsers _ Hf1).
    cbn [ToString unprintable text_of]. rewrite Hu.
    cbn [default from_option]. unfold Datatypes.id.
    rewrite Hpw, Hs, orb_true_r.
    destruct (_ || _); cbn [fst]; discriminate.
Qed.

Lemma register_then_login_witness :
  (handleLogin ann_registered (Some (credentials "ann" (VStr "secret")))
     (clockwork "token-1" "")).1 = LoggedIn "token-1" /\
  (handleLogin bob_registered (Some (credentials "bob" (VArr [VStr "secret"])))
     (clockwork "token-3" "")).1 <> LoggedIn "token-3".
Proof.
  split.
  - destruct (register_then_login (boot ∅) (credentials "ann" (VStr "secret")) "ann"
                ann_registered run_start) as (_ & H & _);
      [reflexivity | vm_compute; reflexivity|].
    rewrite (H "secret"); reflexivity.
  - destruct (register_then_login ann_logged_in (credentials "bob" (VArr [VStr "secret"]))
                "bob" bob_registered ann_logged_in_running) as (_ & _ & H);
      [reflexivity | vm_compute; reflexivity|].
    apply (H (or_introl (ex_intro _ [VStr "secret"] eq_refl))
             (credentials "bob" (VArr [VStr "secret"])) (clockwork "token-3" "") "token-3").
    reflexivity.
Defined.

(** X8. No request removes an account or changes its password, in
    whatever state the server comes to be in; and a registration under a
    user name that converts to the name of an account is answered that
    the user exists and changes nothing. *)
Theorem accounts_persist w name u :
  running w -> file w !! name = Some u ->
  (forall req rt,
     exists u', file (server w req rt).2 !! name = Some u' /\
                lookup_prop u' "password" = lookup_prop u "password") /\
  (forall body,
     truthy (lookup_prop body "username") = true ->
     ToString (lookup_prop body "username") = Ok name ->
     truthy (lookup_prop body "password") = true ->
     api_register w (Some body) = (Ledger UserExists, w)).
Proof.
  intros Hr Hk. apply running_ok in Hr. pose proof (ok_file w Hr) as Hf. split.
  - intros req rt.
    apply (record_field_kept (file w) _ name u "password" Hf); try discriminate;
      [apply server_file_change, Hr | exact Hk].
  - intros body Tn Hn Tp. unfold api_register.
    assert (Hb : nullish body = false) by (destruct body; try reflexivity; discriminate).
    rewrite Hb. unfold handleRegister. rewrite Tn, Tp. cbn [negb orb].
    rewrite (file_ok_readUsers _ Hf), Hn, Hk.
    destruct (file_ok_truthy _ _ _ Hf Hk) as [o ->]. cbn [default from_option].
    unfold Datatypes.id. cbn [truthy]. rewrite orb_true_r. rewrite with_file_same.
    reflexivity.
Qed.

Lemma accounts_persist_witness :
  api_register ann_bought (Some (credentials "ann" (VStr "other")))
  = (Ledger UserExists, ann_bought) /\
  exists u', file ann_advised !! "ann" = Some u' /\ lookup_prop u' "password" = VStr "secret".
Proof.
  assert (Hk : file ann_bought !! "ann" = Some (account (file ann_bought) "ann"))
    by (vm_compute; reflexivity).
  destruct (accounts_persist ann_bought "ann" _ ann_bought_running Hk) as [Hkeep Hreg].
  split.
  - apply Hreg; reflexivity.
  - destruct (Hkeep (get "/api/ai-insights" (Some "Bearer token-1") (Some "hog"))
                (clockwork "" "")) as (u' & Hu & Hp).
    exists u'. split; [exact Hu|]. rewrite Hp. vm_compute. reflexivity.
Defined.

(** X9. In whatever state the server comes to be in, a request leaves
    the record of a user exactly as it is unless it carries a session for
    that account, one whose user name converts to the name of the record:
    a registration, a login, a trade or an insights request of somebody
    else changes nothing of it. *)
Theorem record_changed_by_owner_only w req rt name u :
  running w -> file w !! name = Some u ->
  (forall user, authenticate w (authorization req) = Some user -> ToString user <> Ok name) ->
  file (server w req rt).2 !! name = Some u.
Proof. intros Hr. apply server_local, running_ok, Hr. Qed.

Lemma record_changed_by_owner_only_witness :
  file bob_registered !! "ann" = file ann_logged_in !! "ann" /\
  is_Some (file ann_logged_in !! "ann").
Proof.
  assert (Hk : file ann_logged_in !! "ann" = Some (account (file ann_logged_in) "ann"))
    by (vm_compute; reflexivity).
  split; [|rewrite Hk; eauto].
  rewrite Hk.
  apply (record_changed_by_owner_only ann_logged_in
           (post "/api/register" None (credentials "bob" (VArr [VStr "secret"])))
           (clockwork "" "") "ann" _ ann_logged_in_running Hk).
  intros user H. vm_compute in H. discriminate.
Defined.

Lemma entries_not_nullish l : Forall entry_ok l -> existsb nullish l = false.
Proof.
  induction 1 as [|e l (eo & s & -> & _) _ IH]; [reflexivity|]. simpl. exact IH.
Qed.

(** What [handleHistory] answers on the record of a user whose history
    holds entries in order. *)
Lemma handleHistory_answer s user o l symbolParam :
  file_ok s -> s !! user = Some (VObj o) -> o !! "history" = Some (VArr l) ->
  handleHistory s user symbolParam =
  (HistoryOk
     (VArr (if bool_decide (toUpperCase (default "" symbolParam) = "") then l
            else List.filter
                   (fun entry => is_string (toUpperCase (default "" symbolParam))
                                   (lookup_prop entry "symbol")) l)), s).
Proof.
  intros Hs Hk Hl. unfold handleHistory. rewrite (file_ok_readUsers s Hs), Hk.
  cbn [default from_option]. change (id (VObj o)) with (VObj o).
  assert (Hh : lookup_prop (VObj o) "history" = VArr l) by (simpl; rewrite Hl; reflexivity).
  rewrite Hh. cbn [truthy negb].
  case_bool_decide as E; cbn [negb]; [reflexivity|].
  destruct (file_ok_record s user _ Hs Hk) as (Hacc & _).
  destruct Hacc as (o0 & b & hs & l0 & ai & Eo & _ & _ & _ & _ & Hl0 & Hes & _).
  inversion Eo. subst o0. rewrite Hl in Hl0. inversion Hl0. subst l0.
  rewrite (entries_not_nullish l Hes). reflexivity.
Qed.

Lemma account_name_found users user name u :
  ToString user = Ok name -> users !! name = Some u ->
  account_name users user = Some name.
Proof.
  intros Hn Hk. unfold account_name, finds_inherited. rewrite Hn, Hk.
  rewrite (bool_decide_eq_false_2 (Some u = None)) by discriminate.
  rewrite andb_false_r. reflexivity.
Qed.

(** X10. A trade that settled is the first entry of the history asked
    for next: [handleHistory] answers the entry, as the file holds it, in
    front of the entries it answered before, and answers it first as well
    when asked for the symbol of the trade in any spelling that is the
    symbol once upper-cased. *)
Theorem trade_then_history w h body rt entry w' :
  running w -> api_trade w h (Some body) rt = (Ledger (TradeOk entry), w') ->
  exists l,
    api_history w h None = (Ledger (HistoryOk (VArr l)), w) /\
    api_history w' h None = (Ledger (HistoryOk (VArr (json entry :: l))), w') /\
    lookup_prop (json entry) "symbol" = VStr (trimmedSymbol_of body) /\
    forall p, toUpperCase p = trimmedSymbol_of body ->
      api_history w' h (Some p)
      = (Ledger (HistoryOk
                   (VArr (json entry ::
                          List.filter
                            (fun e => is_string (trimmedSymbol_of body)
                                        (lookup_prop e "symbol")) l))), w').
Proof.
  intros Hr H. apply running_ok in Hr. pose proof (ok_file w Hr) as Hf.
  apply (api_trade_TradeOk w h _ rt entry w' Hf) in H
    as (user & name & body0 & o & user' & Ha & Hne & En & Eb & Hk & Hset & -> & Hf' & Hsne).
  inversion Eb. subst body0. clear Eb.
  apply account_name_Some in En as [En _].
  destruct (file_ok_record _ _ _ Hf Hk) as (Hacc & Hj & _).
  destruct (settle_written _ _ _ _ _ _ _ _ _ Hacc Hj Hset)
    as (hs & h' & l & Hh & Hl & Hpos & Hsym & Hbal & Hhist & Hhold).
  simpl in Hf'.
  assert (Hk' : writeUsers (<[name := VObj user']> (file w)) !! name
                = Some (json (VObj user'))).
  { rewrite (writeUsers_insert _ name _ name (proj1 (proj2 Hf))).
    rewrite bool_decide_eq_true_2 by reflexivity. reflexivity. }
  assert (Hl' : omap json_field user' !! "history" = Some (VArr (json entry :: l))).
  { pose proof Hhist as Hh'. rewrite json_obj in Hh'. simpl in Hh'.
    destruct (omap json_field user' !! "history") as [x|]; simpl in Hh'; congruence. }
  assert (Hfi : forall s u, s !! name = Some u -> account_name s user = Some name).
  { intros s u Hu. exact (account_name_found s user name u En Hu). }
  assert (Hup : lookup_prop (json entry) "symbol" = VStr (trimmedSymbol_of body)).
  { pose proof (settle_shape _ _ _ _ _ _ _ _ _ Hacc Hset)
      as (f & h0 & pnl & items & hs' & -> & _).
    unfold make_entry. rewrite lookup_json_obj.
    rewrite !lookup_insert_ne, lookup_insert_eq by discriminate. reflexivity. }
  exists l. split; [|split; [|split; [exact Hup|]]].
  - unfold api_history, withAuth. rewrite Ha, Hne.
    rewrite (Hfi _ _ Hk), (handleHistory_answer _ name o l None Hf Hk Hl).
    simpl. rewrite with_file_same. reflexivity.
  - unfold api_history, withAuth. rewrite authenticate_with_file, Ha.
    rewrite Hne. cbn [file with_file].
    rewrite (Hfi _ _ Hk').
    rewrite (handleHistory_answer _ name _ _ None Hf' Hk' Hl'). reflexivity.
  - intros p Hp. unfold api_history, withAuth. rewrite authenticate_with_file, Ha.
    rewrite Hne. cbn [file with_file].
    rewrite (Hfi _ _ Hk').
    rewrite (handleHistory_answer _ name _ _ (Some p) Hf' Hk' Hl').
    cbn [default from_option]. unfold Datatypes.id. rewrite Hp.
    rewrite (bool_decide_eq_false_2 _ Hsne). cbn [List.filter]. rewrite Hup.
    cbn [is_string]. rewrite bool_decide_eq_true_2 by reflexivity. reflexivity.
Qed.

Lemma ann_buys :
  api_trade ann_logged_in (Some "Bearer token-1") (Some (order "buy" " hog " 10 120))
    (clockwork "" "id-1") = (Ledger (TradeOk ann_entry), ann_bought).
Proof. vm_compute. reflexivity. Qed.

Lemma trade_then_history_witness :
  api_history ann_bought (Some "Bearer token-1") (Some "hog")
  = (Ledger (HistoryOk (VArr [json ann_entry])), ann_bought).
Proof.
  destruct (trade_then_history _ _ _ _ _ _ ann_logged_in_running ann_buys)
    as (l & Hbefore & _ & _ & Hafter).
  assert (El : l = []).
  { vm_compute in Hbefore. inversion Hbefore. reflexivity. }
  subst l. apply (Hafter "hog"). vm_compute. reflexivity.
Defined.

(** X11. A trade that settled shows in the summary asked for next: the
    balance is the [balanceAfter] of the entry, the entry is the first of
    the history, and the holding of the symbol has the [positionAfter] of
    the entry as its position, or is absent where that position is zero. *)
Theorem trade_then_summary w h body rt entry w' :
  running w -> api_trade w h (Some body) rt = (Ledger (TradeOk entry), w') ->
  exists hs l n,
    handleSummary w' h
    = (SummaryOk (lookup_prop (json entry) "balanceAfter") (VObj hs)
         (VArr (json entry :: l)), w') /\
    lookup_prop entry "positionAfter" = VNum n /\
    lookup_prop (lookup_prop (VObj hs) (trimmedSymbol_of body)) "position"
    = if (n =? 0)%float then VUndef else json (VNum n).
Proof.
  intros Hr H. apply running_ok in Hr. pose proof (ok_file w Hr) as Hf.
  apply (api_trade_TradeOk w h _ rt entry w' Hf) in H
    as (user & name & body0 & o & user' & Ha & Hne & En & Eb & Hk & Hset & -> & Hf' & Hsne).
  inversion Eb. subst body0. clear Eb.
  apply account_name_Some in En as [En _].
  destruct (file_ok_record _ _ _ Hf Hk) as (Hacc & Hj & _).
  destruct (settle_written _ _ _ _ _ _ _ _ _ Hacc Hj Hset)
    as (hs & h' & l & Hh & Hl & Hpos & Hsym & Hbal & Hhist & Hhold).
  simpl in Hf'.
  assert (Hk' : writeUsers (<[name := VObj user']> (file w)) !! name
                = Some (json (VObj user'))).
  { rewrite (writeUsers_insert _ name _ name (proj1 (proj2 Hf))).
    rewrite bool_decide_eq_true_2 by reflexivity. reflexivity. }
  exists (omap json_field (holdings_after hs (trimmedSymbol_of body) h')), l, (position h').
  split; [|split; [exact Hpos|]].
  - unfold handleSummary, withAuth. rewrite authenticate_with_file, Ha.
    rewrite Hne. cbn [file with_file].
    rewrite (file_ok_readUsers _ Hf'). rewrite (account_name_found _ _ _ _ En Hk'), Hk'.
    cbn [default from_option]. unfold Datatypes.id.
    rewrite Hbal, Hhist, Hhold. rewrite json_obj. cbn [truthy negb or_else].
    destruct w; reflexivity.
  - unfold holdings_after. destruct (position h' =? 0)%float.
    + simpl. rewrite lookup_omap, lookup_delete_eq. reflexivity.
    + simpl. rewrite lookup_omap, lookup_insert_eq. simpl.
      rewrite lookup_omap, lookup_insert_eq. reflexivity.
Qed.

Lemma trade_then_summary_witness :
  exists hs l,
    handleSummary ann_bought (Some "Bearer token-1")
    = (SummaryOk (lookup_prop (json ann_entry) "balanceAfter") (VObj hs)
         (VArr (json ann_entry :: l)), ann_bought) /\
    lookup_prop (lookup_prop (VObj hs) "HOG") "position" = VNum 10.
Proof.
  destruct (trade_then_summary _ _ _ _ _ _ ann_logged_in_running ann_buys)
    as (hs & l & n & Hsum & Hn & Hpos).
  assert (En : n = 10%float) by (vm_compute in Hn; inversion Hn; reflexivity).
  subst n. exists hs, l. split; [exact Hsum|].
  assert (Es : trimmedSymbol_of (order "buy" " hog " 10 120) = "HOG")
    by (vm_compute; reflexivity).
  rewrite Es in Hpos. exact Hpos.
Defined.

(** X12. The history of an account only grows, and only at its front: in
    whatever state the server comes to be in, a request leaves the history
    of every account as it is or puts one entry in front of it. *)
Theorem history_only_grows w req rt name u l :
  running w -> file w !! name = Some u -> lookup_prop u "history" = VArr l ->
  exists u',
    file (server w req rt).2 !! name = Some u' /\
    (lookup_prop u' "history" = VArr l \/
     exists entry, lookup_prop u' "history" = VArr (entry :: l)).
Proof.
  intros Hr Hk Hl. apply running_ok in Hr. pose proof (ok_file w Hr) as Hf.
  destruct (file_ok_record _ _ _ Hf Hk) as (_ & Hj & _).
  destruct (file_change_record (file w) _ name u Hf (server_file_change w req rt Hr) Hk)
    as [E|[(o & f & hs' & e & l0 & -> & Hl0 & E)|(o & ai' & -> & E)]];
    rewrite E; eexists; (split; [reflexivity|]).
  - left. exact Hl.
  - right. exists (json e). rewrite lookup_json_obj, lookup_insert_eq. simpl.
    simpl in Hl. rewrite Hl0 in Hl. inversion Hl. subst l0.
    pose proof (written_record o "history" _ Hj Hl0) as Hjl. simpl in Hjl.
    inversion Hjl as [E']. rewrite E'. f_equal. f_equal. exact E'.
  - left. rewrite lookup_json_obj, lookup_insert_ne by discriminate.
    rewrite (lookup_written o _ Hj). exact Hl.
Qed.

Lemma history_only_grows_witness :
  exists u' entry,
    file ann_bought !! "ann" = Some u' /\ lookup_prop u' "history" = VArr [entry].
Proof.
  assert (Hk : file ann_logged_in !! "ann" = Some (account (file ann_logged_in) "ann"))
    by (vm_compute; reflexivity).
  destruct (history_only_grows ann_logged_in
              (post "/api/trade" (Some "Bearer token-1") (order "buy" " hog " 10 120))
              (clockwork "" "id-1") "ann" _ [] ann_logged_in_running Hk)
    as (u' & Hu & [Hsame|[entry Hgrown]]); [vm_compute; reflexivity| |].
  - exfalso. unfold ann_bought in *.
    assert (E : lookup_prop (account (file ann_bought) "ann") "history" <> VArr [])
      by (vm_compute; discriminate).
    apply E. unfold account, ann_bought. rewrite Hu. exact Hsame.
  - exists u', entry. split; [exact Hu | exact Hgrown].
Defined.

(** X13. In whatever state the server comes to be in, the balance of an
    account is the [balanceAfter] of the newest entry of its history, and
    the initial balance where the history is empty. *)
Theorem balance_matches_history w name u :
  running w -> file w !! name = Some u ->
  (forall entry rest, lookup_prop u "history" = VArr (entry :: rest) ->
     lookup_prop entry "balanceAfter" = lookup_prop u "balance") /\
  (lookup_prop u "history" = VArr [] -> lookup_prop u "balance" = VNum INITIAL_BALANCE).
Proof.
  intros Hr Hk. apply running_ok in Hr. pose proof (ok_file w Hr) as Hf.
  destruct (file_ok_record _ _ _ Hf Hk) as (_ & _ & Ha & _). unfold audited in Ha.
  split.
  - intros entry rest E. rewrite E in Ha. exact Ha.
  - intros E. rewrite E in Ha. exact Ha.
Qed.

Lemma balance_matches_history_witness :
  lookup_prop (account (file ann_registered) "ann") "balance" = VNum INITIAL_BALANCE /\
  exists entry rest,
    lookup_prop (account (file ann_advised) "ann") "history" = VArr (entry :: rest) /\
    lookup_prop entry "balanceAfter" = VNum 998800.
Proof.
  assert (H0 : file ann_registered !! "ann" = Some (account (file ann_registered) "ann"))
    by (vm_compute; reflexivity).
  assert (H1 : file ann_advised !! "ann" = Some (account (file ann_advised) "ann"))
    by (vm_compute; reflexivity).
  split.
  - apply (balance_matches_history _ _ _ ann_registered_running H0). vm_compute. reflexivity.
  - destruct (balance_matches_history _ _ _ ann_advised_running H1) as [H _].
    assert (E : exists entry rest,
               lookup_prop (account (file ann_advised) "ann") "history"
               = VArr (entry :: rest)).
    { eexists _, _. vm_compute. reflexivity. }
    destruct E as (entry & rest & E). exists entry, rest. split; [exact E|].
    rewrite (H entry rest E). vm_compute. reflexivity.
Defined.

(** X14. An insights request that succeeds answers between one and three
    insights and, as the time of the next refresh, a string that
    [toISOString] returned; the symbol answered is the one asked for,
    upper-cased, and [HOG] where none is asked for; [createAiInsight] was
    called 11 times at most. *)
Theorem insights_one_to_three w h symbolParam rt symbol insights next w' :
  running w ->
  handleAiInsights w h symbolParam rt = (InsightsOk symbol insights next, w') ->
  symbol = insights_symbol symbolParam /\
  (exists l iso, insights = VArr l /\ l <> [] /\ (length l <= 3)%nat /\ next = VStr iso) /\
  exists user name o user' state c,
    authenticate w h = Some user /\ ToString user = Ok name /\
    file w !! name = Some (VObj o) /\
    refresh rt (defaultAiInsights o) symbol no_calls = Ok (user', state, c) /\
    (insight_calls c <= 11)%nat.
Proof.
  intros Hr H. apply running_ok in Hr.
  apply (handleAiInsights_Ok _ _ _ _ _ _ _ _ (ok_file w Hr)) in H
    as (user & name & o & ai & state & c & Ha & En & Hk & Hai & Es & Hrf & Hst & Hc
        & -> & -> & _).
  apply account_name_Some in En as [En _].
  split; [exact Es|]. split.
  - destruct Hst as (so & l & iso & -> & Hl & Hne & Hlen & Hiso).
    exists l, iso. simpl. rewrite Hl, Hiso. auto.
  - eexists user, name, o, _, state, c. split; [exact Ha|]. split; [exact En|].
    split; [exact Hk|]. split; [exact Hrf | exact Hc].
Qed.

Lemma insights_one_to_three_witness :
  exists l, insights_of (handleAiInsights ann_bought (Some "Bearer token-1") (Some "hog")
                           (clockwork "" "")).1 = VArr l /\
            l <> [] /\ (length l <= 3)%nat.
Proof.
  destruct (handleAiInsights ann_bought (Some "Bearer token-1") (Some "hog")
              (clockwork "" "")) as [r w'] eqn:E.
  assert (Hr : exists symbol insights next, r = InsightsOk symbol insights next).
  { assert (Er : r = (r, w').1) by reflexivity. rewrite <- E in Er. rewrite Er.
    eexists _, _, _. vm_compute. reflexivity. }
  destruct Hr as (symbol & insights & next & ->).
  destruct (insights_one_to_three _ _ _ _ _ _ _ _ ann_bought_running E)
    as (_ & (l & iso & -> & Hne & Hlen & _) & _).
  exists l. auto.
Defined.

(** X15. An insights request touches the insights only: whatever it
    answers, it leaves the sessions as they are and every account in the
    file with the fields it had, [aiInsights] alone excepted; so the
    balance, the holdings, the history and the password are as before. *)
Theorem insights_touch_insights_only w h symbolParam rt name u :
  running w -> file w !! name = Some u ->
  sessions (handleAiInsights w h symbolParam rt).2 = sessions w /\
  userSessions (handleAiInsights w h symbolParam rt).2 = userSessions w /\
  exists u',
    file (handleAiInsights w h symbolParam rt).2 !! name = Some u' /\
    forall field, field <> "aiInsights" -> lookup_prop u' field = lookup_prop u field.
Proof.
  intros Hr Hk. apply running_ok in Hr. pose proof (ok_file w Hr) as Hf.
  destruct (handleAiInsights w h symbolParam rt) as [r w'] eqn:E.
  assert (Hother : (forall symbol insights next, r <> InsightsOk symbol insights next) ->
                   w' = w).
  { intros Hno. change w' with (r, w').2. rewrite <- E.
    apply handleAiInsights_other; [exact Hf|]. rewrite E. exact Hno. }
  destruct r; try (rewrite Hother by discriminate; simpl; eauto).
  apply (handleAiInsights_Ok _ _ _ _ _ _ _ _ Hf) in E
    as (user & nm & o & ai & state & c & Ha & _ & Hu & Hai & _ & _ & _ & _ & _ & _ & ->).
  simpl. split; [reflexivity|]. split; [reflexivity|].
  rewrite (writeUsers_insert _ nm _ name (proj1 (proj2 Hf))).
  case_bool_decide as En; [|eauto].
  subst name. rewrite Hu in Hk. inversion Hk. subst u.
  destruct (file_ok_record _ _ _ Hf Hu) as (_ & Hj & _).
  eexists. split; [reflexivity|]. intros field Hfield.
  rewrite lookup_json_obj, lookup_insert_ne by congruence. apply (lookup_written o _ Hj).
Qed.

Lemma insights_touch_insights_only_witness :
  exists u', file ann_advised !! "ann" = Some u' /\
             lookup_prop u' "balance" = VNum 998800.
Proof.
  assert (Hk : file ann_bought !! "ann" = Some (account (file ann_bought) "ann"))
    by (vm_compute; reflexivity).
  destruct (insights_touch_insights_only ann_bought (Some "Bearer token-1") (Some "hog")
              (clockwork "" "") "ann" _ ann_bought_running Hk) as (_ & _ & u' & Hu & Hsame).
  exists u'. split.
  - assert (E : file ann_advised
              = file (handleAiInsights ann_bought (Some "Bearer token-1") (Some "hog")
                        (clockwork "" "")).2) by reflexivity.
    rewrite E. exact Hu.
  - rewrite (Hsame "balance") by discriminate. vm_compute. reflexivity.
Defined.

(** X16. The ledger stays sound under everything the server does,
    logins, insights requests and restarts included: in whatever state it
    comes to be in, every balance is [>= 0] as JavaScript compares it, and
    every holding stored has a position [>= 0] that is not the number
    zero. *)
Theorem server_keeps_ledger w name u :
  running w -> file w !! name = Some u ->
  (0 <=? ToNumber (lookup_prop u "balance"))%float = true /\
  exists hs,
    lookup_prop u "holdings" = VObj hs /\
    forall symbol held, hs !! symbol = Some held ->
      (0 <=? ToNumber (lookup_prop held "position"))%float = true /\
      forall f, lookup_prop held "position" = VNum f -> (f =? 0)%float = false.
Proof.
  intros Hr Hk. apply running_ok in Hr. pose proof (ok_file w Hr) as Hf.
  destruct (file_ok_record _ _ _ Hf Hk) as (Hacc & _).
  destruct Hacc as (o & b & hs & l & ai & -> & Hb & Hbok & Hh & Hhs & _).
  split.
  - simpl. rewrite Hb. simpl. apply (num_ok_ToNumber _ _ Hbok).
  - exists hs. simpl. rewrite Hh. split; [reflexivity|].
    intros symbol held Hs. apply (holding_ok_position held (Hhs symbol held Hs)).
Qed.

Lemma server_keeps_ledger_witness :
  (0 <=? ToNumber (lookup_prop (account (file ann_elsewhere) "ann") "balance"))%float = true.
Proof.
  assert (Hk : file ann_elsewhere !! "ann" = Some (account (file ann_elsewhere) "ann"))
    by (vm_compute; reflexivity).
  apply (server_keeps_ledger ann_elsewhere "ann" _ ann_elsewhere_running Hk).
Defined.

(** X17. In whatever state the server comes to be in, only a
    registration, a trade and an insights request (a GET) can change the
    users file, and only a login and a logout can change the sessions:
    every other request, the summary and the history among them, leaves
    them as they are. *)
Theorem what_changes_the_state w req rt :
  running w ->
  (routed req "POST" "/api/register" || routed req "POST" "/api/trade"
   || routed req "GET" "/api/ai-insights" = false ->
   file (server w req rt).2 = file w) /\
  (routed req "POST" "/api/login" || routed req "POST" "/api/logout" = false ->
   sessions (server w req rt).2 = sessions w /\
   userSessions (server w req rt).2 = userSessions w).
Proof.
  intros Hr. apply running_ok in Hr. pose proof (ok_file w Hr) as Hf.
  assert (Hlogin : file (handleLogin w (payload req) rt).2 = file w).
  { destruct (handleLogin_world w (payload req) rt Hf)
      as [[_ E]|(body & nm & u' & _ & _ & _ & _ & _ & E)]; rewrite E; reflexivity. }
  assert (Hlogout : file (handleLogout w (authorization req)).2 = file w).
  { destruct (handleLogout_world w (authorization req)) as [E|[t E]]; rewrite E;
      [reflexivity|]. unfold clearSession. case_bool_decide; [reflexivity|].
    destruct (sessions w !! t); reflexivity. }
  assert (Hwf : forall w', (exists s', w' = with_file w s' /\ file_change (file w) s') ->
                           sessions w' = sessions w /\ userSessions w' = userSessions w).
  { intros w' (s' & -> & _). split; reflexivity. }
  unfold server. split.
  - intros H. apply orb_false_elim in H as [H H3]. apply orb_false_elim in H as [H1 H2].
    rewrite H1, H2, H3.
    destruct (String.prefix "/api/" (pathname req)); [|destruct (bool_decide _); reflexivity].
    destruct (routed req "POST" "/api/login"); [exact Hlogin|].
    destruct (routed req "POST" "/api/logout"); [exact Hlogout|].
    destruct (routed req "GET" "/api/summary");
      [rewrite handleSummary_world by exact Hf; reflexivity|].
    destruct (routed req "GET" "/api/history");
      [rewrite api_history_world by exact Hf; reflexivity|].
    reflexivity.
  - intros H. apply orb_false_elim in H as [H1 H2]. rewrite H1, H2.
    destruct (String.prefix "/api/" (pathname req));
      [|destruct (bool_decide _); split; reflexivity].
    destruct (routed req "POST" "/api/register");
      [apply Hwf, api_register_world, Hf|].
    destruct (routed req "GET" "/api/summary");
      [rewrite handleSummary_world by exact Hf; split; reflexivity|].
    destruct (routed req "GET" "/api/history");
      [rewrite api_history_world by exact Hf; split; reflexivity|].
    destruct (routed req "POST" "/api/trade"); [apply Hwf, api_trade_world, Hf|].
    destruct (routed req "GET" "/api/ai-insights");
      [apply Hwf, handleAiInsights_world, Hf|].
    split; reflexivity.
Qed.

Lemma what_changes_the_state_witness :
  file (server ann_bought (get "/api/history" (Some "Bearer token-1") (Some "hog"))
          (clockwork "" "")).2 = file ann_bought /\
  sessions ann_advised = sessions ann_bought.
Proof.
  split.
  - apply (what_changes_the_state ann_bought
             (get "/api/history" (Some "Bearer token-1") (Some "hog")) (clockwork "" "")
             ann_bought_running). reflexivity.
  - apply (what_changes_the_state ann_bought
             (get "/api/ai-insights" (Some "Bearer token-1") (Some "hog")) (clockwork "" "")
             ann_bought_running). reflexivity.
Defined.

(** *** A second load *)

Lemma written_truthy x : json_field x = Some x -> truthy (json x) = truthy x.
Proof.
  intros H. destruct (undef_or_not x) as [->|Hx]; [discriminate|].
  rewrite (json_field_defined x Hx) in H. inversion H as [E]. rewrite E. congruence.
Qed.

Lemma written_json x : json_field x = Some x -> json x = x.
Proof.
  intros H. destruct (undef_or_not x) as [->|Hx]; [discriminate|].
  rewrite (json_field_defined x Hx) in H. congruence.
Qed.

Lemma written_elements l x :
  json_field (VArr l) = Some (VArr l) -> In x l -> json_field x = Some x.
Proof.
  intros H Hx. simpl in H. inversion H as [E].
  assert (Ej : json x = x).
  { clear H. induction l as [|y l IH]; [destruct Hx|]. simpl in E.
    injection E as Ey El.
    destruct Hx as [->|Hx]; [exact Ey | apply IH; auto]. }
  rewrite json_field_defined; [congruence|]. intros ->. discriminate.
Qed.

Lemma normalizeRecord_holdings o :
  json_field (VObj o) = Some (VObj o) ->
  exists hv, (normalizeRecord o).1 !! "holdings" = Some hv /\
             exists hv', json_field hv = Some hv' /\ truthy hv' = true.
Proof.
  intros Hj. rewrite normalizeRecord_other by discriminate.
  unfold migrateHoldings. destruct (truthy (lookup_prop (VObj o) "holdings")) eqn:T; simpl.
  - simpl in T. destruct (o !! "holdings") as [hv|] eqn:Hh; [|discriminate].
    exists hv. split; [reflexivity|]. exists hv. split; [|exact T].
    exact (written_record o _ _ Hj Hh).
  - rewrite !lookup_delete_ne, lookup_insert_eq by discriminate.
    eexists. split; [reflexivity|]. eexists. split; reflexivity.
Qed.

Lemma normalizeRecord_aiInsights o :
  json_field (VObj o) = Some (VObj o) ->
  exists av, (normalizeRecord o).1 !! "aiInsights" = Some av /\
             exists av', json_field av = Some av' /\ truthy av' = true.
Proof.
  intros Hj. rewrite normalizeRecord_parts. cbn [fst].
  assert (E1 : (migrateHoldings o).1 !! "aiInsights" = o !! "aiInsights").
  { unfold migrateHoldings. destruct (truthy _); simpl; [reflexivity|].
    rewrite !lookup_delete_ne, lookup_insert_ne by discriminate. reflexivity. }
  set (o1 := (migrateHoldings o).1) in *.
  assert (E2 : (ensureHistory o1).1 !! "aiInsights" = o !! "aiInsights").
  { unfold ensureHistory. destruct (isArray _); simpl; [exact E1|].
    rewrite lookup_insert_ne by discriminate. exact E1. }
  set (o2 := (ensureHistory o1).1) in *.
  assert (E3 : exists av, (ensureAiInsights o2).1 !! "aiInsights" = Some av /\
                 exists av', json_field av = Some av' /\ truthy av' = true).
  { unfold ensureAiInsights. destruct (truthy (lookup_prop (VObj o2) "aiInsights")) eqn:T; simpl.
    - simpl in T. rewrite E2 in *. destruct (o !! "aiInsights") as [av|] eqn:Ha; [|discriminate].
      exists av. split; [reflexivity|]. exists av. split; [|exact T].
      exact (written_record o _ _ Hj Ha).
    - rewrite lookup_insert_eq. eexists. split; [reflexivity|]. eexists. split; reflexivity. }
  set (o3 := (ensureAiInsights o2).1) in *.
  destruct E3 as (av & Hav & Hok). exists av. split; [|exact Hok].
  unfold tagHistory. destruct (lookup_prop (VObj o3) "history"); simpl; try exact Hav.
  rewrite lookup_insert_ne by discriminate. exact Hav.
Qed.

Lemma tagged_stays_tagged e :
  json_field e = Some e -> (tag_entry (json (tag_entry e).1)).2 = false.
Proof.
  intros Hj. unfold tag_entry at 2.
  destruct (truthy e && negb (truthy (lookup_prop e "symbol"))) eqn:T.
  - cbn [fst]. unfold tag_entry. rewrite lookup_json_obj, lookup_insert_eq. reflexivity.
  - cbn [fst]. rewrite (written_json e Hj). unfold tag_entry. rewrite T. reflexivity.
Qed.

Lemma normalizeRecord_written o :
  json_field (VObj o) = Some (VObj o) ->
  current_shape (omap json_field (normalizeRecord o).1).
Proof.
  intros Hj. split; [|split].
  - destruct (normalizeRecord_holdings o Hj) as (hv & Hh & hv' & Hjh & T).
    simpl. rewrite lookup_omap, Hh. simpl. rewrite Hjh. exact T.
  - destruct (normalizeRecord_aiInsights o Hj) as (av & Ha & av' & Hja & T).
    simpl. rewrite lookup_omap, Ha. simpl. rewrite Hja. exact T.
  - rewrite lookup_omap, normalizeRecord_tagged. simpl. eexists. split; [reflexivity|].
    rewrite List.map_map. apply List.Forall_forall. intros e' He'.
    apply in_map_iff in He' as (e & <- & He). apply tagged_stays_tagged.
    destruct (o !! "history") as [[| | | | |l|]|] eqn:Hh; try destruct He.
    apply (written_elements l e); [|exact He]. exact (written_record o _ _ Hj Hh).
Qed.

(** X18. The shape on disk converges at the first load: on a file that
    was written as JSON, once [readUsers] has returned, the file it left
    is read as it is and is not written again. *)
Theorem load_converges s users store1 :
  writeUsers s = s -> readUsers s = Ok (users, store1) ->
  readUsers store1 = Ok (store1, store1).
Proof.
  intros Hj Hr. pose proof Hr as Hr'.
  apply normalizeUsers_Ok in Hr' as (Hall & Hnone & Hw).
  destruct Hw as [[Eu Es]|Es]; subst store1; [subst users; exact Hr|].
  apply normalizeUsers_current. intros k v Hk.
  unfold writeUsers in Hk. rewrite lookup_omap in Hk.
  destruct (s !! k) as [u|] eqn:Hs.
  2:{ rewrite (Hnone k Hs) in Hk. discriminate. }
  destruct (Hall k u Hs) as (u' & b & Hn & Hu). rewrite Hu in Hk. simpl in Hk.
  pose proof (written_lookup s k u Hj Hs) as Hju.
  unfold normalizeUser in Hn. destruct (truthy u) eqn:T; simpl in Hn.
  - destruct u as [| | | | | |o]; try discriminate.
    fold (normalizeUser (VObj o)) in Hn.
    apply normalizeUser_object in Hn as (_ & -> & ->).
    simpl in Hk. inversion Hk. subst v. clear Hk.
    change (omap (fun x => match x with VUndef => None | _ => Some (json x) end)
              (normalizeRecord o).1)
      with (omap json_field (normalizeRecord o).1).
    apply current_shape_normalizeUser, normalizeRecord_written, Hju.
  - inversion Hn. subst u' b. rewrite Hju in Hk. inversion Hk. subst v.
    unfold normalizeUser. rewrite T. reflexivity.
Qed.

Lemma load_converges_witness :
  readUsers (read_file (legacy_read 10 120))
  = Ok (read_file (legacy_read 10 120), read_file (legacy_read 10 120)).
Proof.
  apply (load_converges {[ "ann" := legacy 10 120 ]} (read_table (legacy_read 10 120))).
  - vm_compute. reflexivity.
  - vm_compute. reflexivity.
Defined.

(** *** Symbols *)

Lemma byte_range a : 0 <= byte a < 256.
Proof.
  unfold byte. pose proof (N_ascii_bounded a) as H.
  split; [apply N2Z.is_nonneg|]. change 256 with (Z.of_N 256). apply N2Z.inj_lt. exact H.
Qed.

Lemma of_byte_byte a : of_byte (byte a) = a.
Proof. unfold of_byte, byte. rewrite N2Z.id. apply ascii_N_embedding. Qed.

Lemma byte_of_byte x : 0 <= x < 256 -> byte (of_byte x) = x.
Proof.
  intros H. unfold of_byte, byte. rewrite N_ascii_embedding.
  - apply Z2N.id. lia.
  - change 256%N with (Z.to_N 256). apply Z2N.inj_lt; lia.
Qed.

Lemma two_Some b0 b1 c :
  0 <= b0 < 256 -> 0 <= b1 < 256 -> two b0 b1 = Some c ->
  128 <= c < 2048 /\ b0 = 192 + c / 64 /\ b1 = 128 + c mod 64.
Proof.
  intros H0 H1. unfold two, continues.
  destruct ((194 <=? b0) && (b0 <=? 223) && ((128 <=? b1) && (b1 <=? 191))) eqn:E;
    [|discriminate].
  intros [= <-]. apply andb_prop in E as [E E1]. apply andb_prop in E as [Ea Eb].
  apply andb_prop in E1 as [Ec Ed].
  apply Z.leb_le in Ea, Eb, Ec, Ed.
  assert (Hd : ((b0 - 192) * 64 + (b1 - 128)) / 64 = b0 - 192).
  { rewrite Z.div_add_l by lia. rewrite Z.div_small by lia. lia. }
  assert (Hm : ((b0 - 192) * 64 + (b1 - 128)) mod 64 = b1 - 128).
  { rewrite Z.add_comm, Z.mod_add by lia. apply Z.mod_small. lia. }
  rewrite Hd, Hm. lia.
Qed.

Lemma three_Some b0 b1 b2 c :
  0 <= b0 < 256 -> 0 <= b1 < 256 -> 0 <= b2 < 256 -> three b0 b1 b2 = Some c ->
  2048 <= c < 65536 /\ b0 = 224 + c / 4096 /\ b1 = 128 + c / 64 mod 64 /\
  b2 = 128 + c mod 64.
Proof.
  intros H0 H1 H2. unfold three, continues. cbv zeta.
  destruct ((224 <=? b0) && (b0 <=? 239) && ((128 <=? b1) && (b1 <=? 191))
            && ((128 <=? b2) && (b2 <=? 191))
            && (2048 <=? (b0 - 224) * 4096 + (b1 - 128) * 64 + (b2 - 128))) eqn:E;
    [|discriminate].
  intros [= <-]. repeat (apply andb_prop in E as [E ?]).
  repeat match goal with H : (_ && _) = true |- _ => apply andb_prop in H as [? ?] end.
  repeat match goal with H : (_ <=? _) = true |- _ => apply Z.leb_le in H end.
  set (x := b0 - 224) in *. set (y := b1 - 128) in *. set (z := b2 - 128) in *.
  assert (Hc : x * 4096 + y * 64 + z = (x * 64 + y) * 64 + z) by lia.
  assert (Hm : (x * 4096 + y * 64 + z) mod 64 = z).
  { rewrite Hc, Z.add_comm, Z.mod_add by lia. apply Z.mod_small. lia. }
  assert (Hd : (x * 4096 + y * 64 + z) / 64 = x * 64 + y).
  { rewrite Hc, Z.div_add_l by lia. rewrite (Z.div_small z) by lia. lia. }
  assert (Hd2 : (x * 4096 + y * 64 + z) / 4096 = x).
  { change 4096 with (64 * 64) at 2. rewrite <- Z.div_div by lia. rewrite Hd.
    rewrite Z.div_add_l by lia. rewrite (Z.div_small y) by lia. lia. }
  assert (Hm2 : (x * 64 + y) mod 64 = y).
  { rewrite Z.add_comm, Z.mod_add by lia. apply Z.mod_small. lia. }
  rewrite Hd2, Hd, Hm2, Hm. lia.
Qed.

Lemma four_Some b0 b1 b2 b3 c :
  0 <= b0 < 256 -> 0 <= b1 < 256 -> 0 <= b2 < 256 -> 0 <= b3 < 256 ->
  four b0 b1 b2 b3 = Some c ->
  65536 <= c < 1114112 /\ b0 = 240 + c / 262144 /\ b1 = 128 + c / 4096 mod 64 /\
  b2 = 128 + c / 64 mod 64 /\ b3 = 128 + c mod 64.
Proof.
  intros H0 H1 H2 H3. unfold four, continues. cbv zeta.
  destruct ((240 <=? b0) && (b0 <=? 244) && ((128 <=? b1) && (b1 <=? 191))
            && ((128 <=? b2) && (b2 <=? 191)) && ((128 <=? b3) && (b3 <=? 191))
            && (65536 <=? (b0 - 240) * 262144 + (b1 - 128) * 4096 + (b2 - 128) * 64
                          + (b3 - 128))
            && ((b0 - 240) * 262144 + (b1 - 128) * 4096 + (b2 - 128) * 64 + (b3 - 128)
                <=? 1114111)) eqn:E;
    [|discriminate].
  intros [= <-]. repeat (apply andb_prop in E as [E ?]).
  repeat match goal with H : (_ && _) = true |- _ => apply andb_prop in H as [? ?] end.
  repeat match goal with H : (_ <=? _) = true |- _ => apply Z.leb_le in H end.
  set (x := b0 - 240) in *. set (y := b1 - 128) in *. set (z := b2 - 128) in *.
  set (t := b3 - 128) in *.
  assert (Hc : x * 262144 + y * 4096 + z * 64 + t = ((x * 64 + y) * 64 + z) * 64 + t) by lia.
  assert (Hm : (x * 262144 + y * 4096 + z * 64 + t) mod 64 = t).
  { rewrite Hc, Z.add_comm, Z.mod_add by lia. apply Z.mod_small. lia. }
  assert (Hd : (x * 262144 + y * 4096 + z * 64 + t) / 64 = (x * 64 + y) * 64 + z).
  { rewrite Hc, Z.div_add_l by lia. rewrite (Z.div_small t) by lia. lia. }
  assert (Hm2 : ((x * 64 + y) * 64 + z) mod 64 = z).
  { rewrite Z.add_comm, Z.mod_add by lia. apply Z.mod_small. lia. }
  assert (Hd2 : (x * 262144 + y * 4096 + z * 64 + t) / 4096 = x * 64 + y).
  { change 4096 with (64 * 64) at 2. rewrite <- Z.div_div by lia. rewrite Hd.
    rewrite Z.div_add_l by lia. rewrite (Z.div_small z) by lia. lia. }
  assert (Hm3 : (x * 64 + y) mod 64 = y).
  { rewrite Z.add_comm, Z.mod_add by lia. apply Z.mod_small. lia. }
  assert (Hd3 : (x * 262144 + y * 4096 + z * 64 + t) / 262144 = x).
  { change 262144 with (4096 * 64) at 2. rewrite <- Z.div_div by lia. rewrite Hd2.
    rewrite Z.div_add_l by lia. rewrite (Z.div_small y) by lia. lia. }
  rewrite Hd3, Hd2, Hd, Hm3, Hm2, Hm. lia.
Qed.

Ltac euclid := Z.to_euclidean_division_equations; lia.

Ltac holds :=
  repeat (apply andb_true_intro; split);
  first [apply Z.leb_le | apply Z.ltb_lt]; euclid.

Lemma two_encode c :
  128 <= c < 2048 -> two (192 + c / 64) (128 + c mod 64) = Some c.
Proof.
  intros H. unfold two, continues.
  assert (E : (194 <=? 192 + c / 64) && (192 + c / 64 <=? 223)
              && ((128 <=? 128 + c mod 64) && (128 + c mod 64 <=? 191)) = true) by holds.
  rewrite E. f_equal. euclid.
Qed.

Lemma three_encode c :
  2048 <= c < 65536 ->
  three (224 + c / 4096) (128 + c / 64 mod 64) (128 + c mod 64) = Some c.
Proof.
  intros H. unfold three, continues. cbv zeta.
  set (c' := (224 + c / 4096 - 224) * 4096 + (128 + c / 64 mod 64 - 128) * 64
             + (128 + c mod 64 - 128)).
  assert (Ec : c' = c) by (unfold c'; euclid).
  assert (E : (224 <=? 224 + c / 4096) && (224 + c / 4096 <=? 239)
              && ((128 <=? 128 + c / 64 mod 64) && (128 + c / 64 mod 64 <=? 191))
              && ((128 <=? 128 + c mod 64) && (128 + c mod 64 <=? 191))
              && (2048 <=? c') = true) by (rewrite Ec; holds).
  rewrite E. f_equal. exact Ec.
Qed.

Lemma four_encode c :
  65536 <= c < 1114112 ->
  four (240 + c / 262144) (128 + c / 4096 mod 64) (128 + c / 64 mod 64) (128 + c mod 64)
  = Some c.
Proof.
  intros H. unfold four, continues. cbv zeta.
  set (c' := (240 + c / 262144 - 240) * 262144 + (128 + c / 4096 mod 64 - 128) * 4096
             + (128 + c / 64 mod 64 - 128) * 64 + (128 + c mod 64 - 128)).
  assert (Ec : c' = c) by (unfold c'; euclid).
  assert (E : (240 <=? 240 + c / 262144) && (240 + c / 262144 <=? 244)
              && ((128 <=? 128 + c / 4096 mod 64) && (128 + c / 4096 mod 64 <=? 191))
              && ((128 <=? 128 + c / 64 mod 64) && (128 + c / 64 mod 64 <=? 191))
              && ((128 <=? 128 + c mod 64) && (128 + c mod 64 <=? 191))
              && (65536 <=? c') && (c' <=? 1114111) = true) by (rewrite Ec; holds).
  rewrite E. f_equal. exact Ec.
Qed.

Lemma two_None b0 b1 : b0 < 194 \/ 223 < b0 \/ continues b1 = false -> two b0 b1 = None.
Proof.
  intros H. unfold two.
  destruct ((194 <=? b0) && (b0 <=? 223) && continues b1) eqn:E; [|reflexivity].
  apply andb_prop in E as [E ?]. apply andb_prop in E as [Ea Eb].
  apply Z.leb_le in Ea, Eb. destruct H as [H|[H|H]]; [lia | lia | congruence].
Qed.

Lemma three_None b0 b1 b2 :
  b0 < 224 \/ 239 < b0 \/ continues b1 = false \/ continues b2 = false ->
  three b0 b1 b2 = None.
Proof.
  intros H. unfold three. cbv zeta.
  destruct (_ && _) eqn:E; [|reflexivity].
  repeat (apply andb_prop in E as [E ?]).
  apply Z.leb_le in E. 
  repeat match goal with H : (_ <=? _) = true |- _ => apply Z.leb_le in H end.
  destruct H as [H|[H|[H|H]]]; [lia | lia | congruence | congruence].
Qed.

Lemma four_None b0 b1 b2 b3 :
  b0 < 240 \/ 244 < b0 \/ continues b1 = false \/ continues b2 = false
  \/ continues b3 = false ->
  four b0 b1 b2 b3 = None.
Proof.
  intros H. unfold four. cbv zeta.
  destruct (_ && _) eqn:E; [|reflexivity].
  repeat (apply andb_prop in E as [E ?]).
  apply Z.leb_le in E.
  repeat match goal with H : (_ <=? _) = true |- _ => apply Z.leb_le in H end.
  destruct H as [H|[H|[H|[H|H]]]]; [lia | lia | congruence | congruence | congruence].
Qed.

Lemma is_point_range c : is_point c = true <-> 0 <= c < 1114112.
Proof. unfold is_point. rewrite andb_true_iff, Z.leb_le, Z.ltb_lt. reflexivity. Qed.

Lemma is_point_false c : is_point c = false <-> c < 0 \/ 1114112 <= c.
Proof.
  unfold is_point. rewrite andb_false_iff, Z.leb_gt, Z.ltb_ge. reflexivity.
Qed.

(** The bytes of a code point by its length. *)
Lemma encode_cases c :
  is_point c = true ->
  (c < 128 /\ encode c = [of_byte c]) \/
  (128 <= c < 2048 /\ encode c = [of_byte (192 + c / 64); of_byte (128 + c mod 64)]) \/
  (2048 <= c < 65536 /\
   encode c = [of_byte (224 + c / 4096); of_byte (128 + c / 64 mod 64);
               of_byte (128 + c mod 64)]) \/
  (65536 <= c < 1114112 /\
   encode c = [of_byte (240 + c / 262144); of_byte (128 + c / 4096 mod 64);
               of_byte (128 + c / 64 mod 64); of_byte (128 + c mod 64)]).
Proof.
  intros H. apply is_point_range in H. unfold encode.
  destruct (c <? 128) eqn:E1; [apply Z.ltb_lt in E1; left; auto|]. apply Z.ltb_ge in E1.
  destruct (c <? 2048) eqn:E2; [apply Z.ltb_lt in E2; right; left; auto|].
  apply Z.ltb_ge in E2.
  destruct (c <? 65536) eqn:E3; [apply Z.ltb_lt in E3; right; right; left; auto|].
  apply Z.ltb_ge in E3.
  destruct (c <? 1114112) eqn:E4; [right; right; right; split; [lia|reflexivity]|].
  apply Z.ltb_ge in E4. lia.
Qed.

Lemma encode_stray c : is_point c = false -> exists a, encode c = [a].
Proof.
  intros H. apply is_point_false in H. unfold encode.
  destruct (c <? 128) eqn:E1; [eauto|]. apply Z.ltb_ge in E1.
  destruct (c <? 2048) eqn:E2; [apply Z.ltb_lt in E2; lia|].
  destruct (c <? 65536) eqn:E3; [apply Z.ltb_lt in E3; lia|].
  destruct (c <? 1114112) eqn:E4; [apply Z.ltb_lt in E4; lia|]. eauto.
Qed.

Lemma encode_stray_byte a : 128 <= byte a -> encode (stray (byte a)) = [a].
Proof.
  intros H. pose proof (byte_range a) as Hr. unfold encode, stray.
  destruct (_ <? 128) eqn:E1; [apply Z.ltb_lt in E1; lia|].
  destruct (_ <? 2048) eqn:E2; [apply Z.ltb_lt in E2; lia|].
  destruct (_ <? 65536) eqn:E3; [apply Z.ltb_lt in E3; lia|].
  destruct (_ <? 1114112) eqn:E4; [apply Z.ltb_lt in E4; lia|].
  replace (1114112 + byte a - 1114112) with (byte a) by lia.
  rewrite of_byte_byte. reflexivity.
Qed.

(** A code point is read back from its bytes, whatever follows. *)
Lemma decode_encode c l :
  is_point c = true -> decode (encode c ++ l) = c :: decode l.
Proof.
  intros H. destruct (encode_cases c H) as [[Hc ->]|[[Hc ->]|[[Hc ->]|[Hc ->]]]].
  - apply is_point_range in H. cbn [app decode].
    rewrite (byte_of_byte c) by lia.
    destruct (c <? 128) eqn:E; [reflexivity | apply Z.ltb_ge in E; lia].
  - cbn [app decode]. rewrite !byte_of_byte by euclid.
    destruct (_ <? 128) eqn:E; [apply Z.ltb_lt in E; euclid|].
    rewrite (two_encode c Hc). reflexivity.
  - cbn [app decode]. rewrite !byte_of_byte by euclid.
    destruct (_ <? 128) eqn:E; [apply Z.ltb_lt in E; euclid|].
    rewrite two_None by (right; left; euclid).
    rewrite (three_encode c Hc). reflexivity.
  - cbn [app decode]. rewrite !byte_of_byte by euclid.
    destruct (_ <? 128) eqn:E; [apply Z.ltb_lt in E; euclid|].
    rewrite two_None by (right; left; euclid).
    rewrite three_None by (right; left; euclid).
    rewrite (four_encode c Hc). reflexivity.
Qed.

(** The first byte of a code point continues no character. *)
Lemma encode_head c :
  is_point c = true -> exists a l, encode c = a :: l /\ continues (byte a) = false.
Proof.
  intros H. unfold continues.
  destruct (encode_cases c H) as [[Hc ->]|[[Hc ->]|[[Hc ->]|[Hc ->]]]];
    apply is_point_range in H; eexists _, _; (split; [reflexivity|]);
    rewrite byte_of_byte by euclid; apply andb_false_iff;
    [left; apply Z.leb_gt; lia | right; apply Z.leb_gt; euclid ..].
Qed.

Lemma decode_lone a l :
  128 <= byte a -> lone (byte a) l = true ->
  decode (a :: l) = stray (byte a) :: decode l.
Proof.
  intros H. cbn [decode]. destruct (byte a <? 128) eqn:E; [apply Z.ltb_lt in E; lia|].
  unfold lone. destruct l as [|a1 [|a2 [|a3 l]]];
    repeat match goal with
           | |- context [match ?x with Some _ => _ | None => _ end] => destruct x
           end; intros; try discriminate; reflexivity.
Qed.

(** What [decode] reads first. *)
Lemma decode_cases a l :
  (exists c rest, is_point c = true /\ a :: l = (encode c ++ rest)%list /\
                  decode (a :: l) = c :: decode rest) \/
  (128 <= byte a /\ lone (byte a) l = true /\
   decode (a :: l) = stray (byte a) :: decode l).
Proof.
  pose proof (byte_range a) as Ha.
  destruct (byte a <? 128) eqn:E.
  { left. exists (byte a), l. apply Z.ltb_lt in E.
    split; [apply is_point_range; lia|]. split.
    - unfold encode. destruct (byte a <? 128) eqn:E'; [|apply Z.ltb_ge in E'; lia].
      rewrite of_byte_byte. reflexivity.
    - cbn [decode]. destruct (byte a <? 128) eqn:E'; [reflexivity|apply Z.ltb_ge in E'; lia]. }
  apply Z.ltb_ge in E.
  assert (Hstray : lone (byte a) l = true ->
                   128 <= byte a /\ lone (byte a) l = true /\
                   decode (a :: l) = stray (byte a) :: decode l).
  { intros Hl. split; [exact E|]. split; [exact Hl|]. apply decode_lone; assumption. }
  destruct l as [|a1 l2]; [right; apply Hstray; reflexivity|].
  pose proof (byte_range a1) as Ha1.
  destruct (two (byte a) (byte a1)) as [c|] eqn:E2.
  { left. exists c, l2. destruct (two_Some _ _ _ Ha Ha1 E2) as (Hc & H0 & H1).
    assert (Hp : is_point c = true) by (apply is_point_range; lia).
    split; [exact Hp|]. split.
    - destruct (encode_cases c Hp) as [[Hc' _]|[[_ ->]|[[Hc' _]|[Hc' _]]]]; try lia.
      rewrite <- H0, <- H1, !of_byte_byte. reflexivity.
    - cbn [decode]. destruct (byte a <? 128) eqn:E'; [apply Z.ltb_lt in E'; lia|].
      rewrite E2. reflexivity. }
  destruct l2 as [|a2 l3]; [right; apply Hstray; simpl; rewrite E2; reflexivity|].
  pose proof (byte_range a2) as Ha2.
  destruct (three (byte a) (byte a1) (byte a2)) as [c|] eqn:E3.
  { left. exists c, l3. destruct (three_Some _ _ _ _ Ha Ha1 Ha2 E3) as (Hc & H0 & H1 & H2).
    assert (Hp : is_point c = true) by (apply is_point_range; lia).
    split; [exact Hp|]. split.
    - destruct (encode_cases c Hp) as [[Hc' _]|[[Hc' _]|[[_ ->]|[Hc' _]]]]; try lia.
      rewrite <- H0, <- H1, <- H2, !of_byte_byte. reflexivity.
    - cbn [decode]. destruct (byte a <? 128) eqn:E'; [apply Z.ltb_lt in E'; lia|].
      rewrite E2, E3. reflexivity. }
  destruct l3 as [|a3 l4]; [right; apply Hstray; simpl; rewrite E2, E3; reflexivity|].
  pose proof (byte_range a3) as Ha3.
  destruct (four (byte a) (byte a1) (byte a2) (byte a3)) as [c|] eqn:E4.
  { left. exists c, l4.
    destruct (four_Some _ _ _ _ _ Ha Ha1 Ha2 Ha3 E4) as (Hc & H0 & H1 & H2 & H3).
    assert (Hp : is_point c = true) by (apply is_point_range; lia).
    split; [exact Hp|]. split.
    - destruct (encode_cases c Hp) as [[Hc' _]|[[Hc' _]|[[Hc' _]|[_ ->]]]]; try lia.
      rewrite <- H0, <- H1, <- H2, <- H3, !of_byte_byte. reflexivity.
    - cbn [decode]. destruct (byte a <? 128) eqn:E'; [apply Z.ltb_lt in E'; lia|].
      rewrite E2, E3, E4. reflexivity. }
  right. apply Hstray. simpl. rewrite E2, E3, E4. reflexivity.
Qed.

(** The bytes of the code points of a string are the string. *)
Lemma encode_decode l : flat_map encode (decode l) = l.
Proof.
  remember (length l) as n eqn:En. revert l En.
  induction n as [n IH] using (well_founded_induction Nat.lt_wf_0).
  intros [|a l] En; [reflexivity|].
  destruct (decode_cases a l) as [(c & rest & Hp & El & Ed)|(Ha & Hl & Ed)].
  - rewrite Ed. cbn [flat_map]. rewrite (IH (length rest)) with (l := rest); [|..|reflexivity].
    + symmetry. exact El.
    + subst n. rewrite El, length_app. pose proof (encode_nonempty c).
      destruct (encode c); [congruence | simpl; lia].
  - rewrite Ed. cbn [flat_map]. rewrite (encode_stray_byte a Ha).
    rewrite (IH (length l)) with (l := l); [reflexivity | subst n; simpl; lia | reflexivity].
Qed.

Lemma lone_ahead b0 l : lone b0 l = lone b0 (ahead 3 l).
Proof.
  destruct l as [|a1 l]; [reflexivity|]. cbn [ahead lone].
  destruct (continues (byte a1)) eqn:C1.
  2:{ rewrite two_None by auto.
      destruct l as [|a2 l]; [reflexivity|]. rewrite three_None by auto.
      destruct l as [|a3 l]; [reflexivity|]. rewrite four_None by auto. reflexivity. }
  cbn [lone]. destruct (two b0 (byte a1)); [reflexivity|].
  destruct l as [|a2 l]; [reflexivity|]. cbn [ahead].
  destruct (continues (byte a2)) eqn:C2.
  2:{ rewrite three_None by auto.
      destruct l as [|a3 l]; [reflexivity|]. rewrite four_None by auto. reflexivity. }
  destruct (three b0 (byte a1) (byte a2)); [reflexivity|].
  destruct l as [|a3 l]; [reflexivity|]. cbn [ahead].
  destruct (continues (byte a3)) eqn:C3.
  2:{ rewrite four_None by auto 6. reflexivity. }
  reflexivity.
Qed.

Lemma ahead_nil n : ahead n [] = [].
Proof. destruct n; reflexivity. Qed.

Lemma ahead_point n c l : is_point c = true -> ahead n (encode c ++ l) = [].
Proof.
  intros H. destruct (encode_head c H) as (a & r & -> & Ha).
  destruct n; [reflexivity|]. simpl. rewrite Ha. reflexivity.
Qed.

Lemma decoded_decode l : decoded (decode l).
Proof. unfold decoded. rewrite encode_decode. reflexivity. Qed.

Lemma decoded_point c l : is_point c = true -> decoded (c :: l) <-> decoded l.
Proof.
  intros H. unfold decoded. cbn [flat_map]. rewrite (decode_encode c _ H).
  split; [intros [= E]; exact E | intros ->; reflexivity].
Qed.

Lemma decoded_points p l :
  forallb is_point p = true -> decoded l -> decoded (p ++ l).
Proof.
  induction p as [|c p IH]; [auto|]. simpl. intros Hp Hl. apply andb_prop in Hp as [Hc Hp].
  apply (decoded_point c _ Hc). auto.
Qed.

Lemma decoded_stray c l :
  is_point c = false -> decoded (c :: l) ->
  exists a, c = stray (byte a) /\ 128 <= byte a /\
            lone (byte a) (flat_map encode l) = true /\ decoded l.
Proof.
  intros Hc H. unfold decoded in H. cbn [flat_map] in H.
  destruct (encode_stray c Hc) as [a Ea]. rewrite Ea in H. cbn [app] in H.
  destruct (decode_cases a (flat_map encode l)) as [(c' & rest & Hp & _ & Ed)|(Ha & Hl & Ed)];
    rewrite Ed in H; injection H as E1 E2.
  - congruence.
  - exists a. auto.
Qed.

Lemma stray_decoded a l :
  128 <= byte a -> lone (byte a) (flat_map encode l) = true -> decoded l ->
  decoded (stray (byte a) :: l).
Proof.
  intros Ha Hl H. unfold decoded. cbn [flat_map]. rewrite (encode_stray_byte a Ha).
  cbn [app]. rewrite (decode_lone a _ Ha Hl), H. reflexivity.
Qed.

Lemma stray_not_point a : 128 <= byte a -> is_point (stray (byte a)) = false.
Proof. intros H. apply is_point_false. unfold stray. lia. Qed.

Lemma decoded_ahead c l l' :
  is_point c = false -> decoded (c :: l) -> decoded l' ->
  ahead 3 (flat_map encode l') = ahead 3 (flat_map encode l) ->
  decoded (c :: l').
Proof.
  intros Hc H H' E. destruct (decoded_stray c l Hc H) as (a & -> & Ha & Hl & _).
  apply stray_decoded; [exact Ha | | exact H'].
  rewrite lone_ahead, E, <- lone_ahead. exact Hl.
Qed.

Lemma decoded_tail c l : decoded (c :: l) -> decoded l.
Proof.
  intros H. destruct (is_point c) eqn:Hc.
  - apply (decoded_point c l Hc), H.
  - destruct (decoded_stray c l Hc H) as (a & _ & _ & _ & Hl). exact Hl.
Qed.

Section Mapped.

Variable f : Z -> list Z.
Hypothesis f_points :
  forall c, is_point c = true -> f c <> [] /\ forallb is_point (f c) = true.
Hypothesis f_strays : forall c, is_point c = false -> f c = [c].

Lemma ahead_mapped n l :
  ahead n (flat_map encode (flat_map f l)) = ahead n (flat_map encode l).
Proof.
  revert n. induction l as [|c l IH]; intros n; [reflexivity|].
  cbn [flat_map]. rewrite flat_map_app. destruct (is_point c) eqn:Hc.
  - rewrite (ahead_point n c _ Hc). destruct (f_points c Hc) as [Hne Hp].
    destruct (f c) as [|d p]; [congruence|]. simpl in Hp. apply andb_prop in Hp as [Hd _].
    cbn [flat_map]. rewrite <- app_assoc. apply ahead_point, Hd.
  - rewrite (f_strays c Hc). cbn [flat_map]. rewrite app_nil_r.
    destruct (encode_stray c Hc) as [a ->]. cbn [app].
    destruct n; [reflexivity|]. cbn [ahead]. rewrite IH. reflexivity.
Qed.

(** The strays stay where a mapping of the code points leaves them. *)
Lemma decoded_mapped l : decoded l -> decoded (flat_map f l).
Proof.
  induction l as [|c l IH]; [auto|]. intros H. pose proof (decoded_tail c l H) as Hl.
  cbn [flat_map]. destruct (is_point c) eqn:Hc.
  - apply decoded_points; [apply (f_points c Hc) | auto].
  - rewrite (f_strays c Hc). cbn [app].
    apply (decoded_ahead c l _ Hc H (IH Hl)), ahead_mapped.
Qed.

End Mapped.

Lemma ahead_last n l c :
  is_point c = true ->
  ahead n (flat_map encode (l ++ [c])) = ahead n (flat_map encode l).
Proof.
  intros Hc. revert n. induction l as [|d l IH]; intros n.
  - cbn [app flat_map]. rewrite (ahead_point n c _ Hc), ahead_nil. reflexivity.
  - cbn [app flat_map]. destruct (is_point d) eqn:Hd.
    + rewrite !(ahead_point n d _ Hd). reflexivity.
    + destruct (encode_stray d Hd) as [a ->]. cbn [app].
      destruct n; [reflexivity|]. cbn [ahead]. rewrite IH. reflexivity.
Qed.

Lemma decoded_init l c : is_point c = true -> decoded (l ++ [c]) -> decoded l.
Proof.
  intros Hc. induction l as [|d l IH]; intros H; [reflexivity|].
  cbn [app] in H. pose proof (IH (decoded_tail _ _ H)) as Hl.
  destruct (is_point d) eqn:Hd.
  - apply (decoded_point d l Hd), Hl.
  - apply (decoded_ahead d (l ++ [c]) l Hd H Hl). symmetry. apply ahead_last, Hc.
Qed.

Lemma is_ws_In c : is_ws c = true <-> In c WhiteSpace.
Proof.
  unfold is_ws. rewrite existsb_exists. split.
  - intros (x & Hx & E). apply Z.eqb_eq in E. subst x. exact Hx.
  - intros H. exists c. split; [exact H | apply Z.eqb_refl].
Qed.

Lemma is_ws_point c : is_ws c = true -> is_point c = true.
Proof.
  intros H. apply is_ws_In in H.
  assert (Hall : forallb is_point WhiteSpace = true) by (vm_compute; reflexivity).
  rewrite forallb_forall in Hall. auto.
Qed.

Lemma decoded_trim_start l : decoded l -> decoded (trim_start l).
Proof.
  induction l as [|c l IH]; [auto|]. intros H. cbn [trim_start].
  destruct (is_ws c) eqn:E; [|exact H]. apply IH, (decoded_tail c l H).
Qed.

Lemma decoded_trim_end l : decoded l -> decoded (rev (trim_start (rev l))).
Proof.
  induction l as [|c l IH] using rev_ind; [auto|]. intros H.
  rewrite rev_app_distr. cbn [rev app trim_start].
  destruct (is_ws c) eqn:E.
  - apply IH, (decoded_init l c (is_ws_point c E) H).
  - change (c :: rev l) with ([c] ++ rev l)%list. rewrite rev_app_distr, rev_involutive.
    exact H.
Qed.

Lemma decoded_trim_points l : decoded l -> decoded (trim_points l).
Proof. intros H. apply decoded_trim_end, decoded_trim_start, H. Qed.

(** *** The table of upper case *)

Lemma upper_unfold c :
  upper c =
  if c <? 128 then [if (97 <=? c) && (c <=? 122) then c - 32 else c]
  else match List.find (fun e => fst e =? c) special_upper with
       | Some e => snd e
       | None => match List.find (in_row c) simple_upper with
                 | Some e => [c + delta e]
                 | None => [c]
                 end
       end.
Proof.
  unfold upper. destruct (c <? 128); [reflexivity|].
  destruct (List.find _ special_upper); [reflexivity|].
  assert (E : forall l,
             List.find (fun '(lo, hi, step, _) =>
                          (lo <=? c) && (c <=? hi) && ((c - lo) mod step =? 0)) l
             = List.find (in_row c) l).
  { intros l. induction l as [|[[[lo hi] step] d] l IH]; [reflexivity|].
    simpl. rewrite IH. reflexivity. }
  rewrite E. destruct (List.find (in_row c) simple_upper) as [[[[lo hi] step] d]|];
    reflexivity.
Qed.

Lemma in_row_In c e :
  0 < e.1.2 -> in_row c e = true -> In c (row e).
Proof.
  destruct e as [[[lo hi] step] d]. simpl. intros Hs H.
  apply andb_prop in H as [H Hm]. apply andb_prop in H as [Hlo Hhi].
  apply Z.leb_le in Hlo, Hhi. apply Z.eqb_eq in Hm.
  apply in_map_iff. exists (Z.to_nat ((c - lo) / step)). split.
  - rewrite Z2Nat.id by (apply Z.div_pos; lia).
    pose proof (Z.div_mod (c - lo) step) as Hd. lia.
  - apply in_seq. split; [lia|]. simpl.
    assert ((c - lo) / step <= (hi - lo) / step) by (apply Z.div_le_mono; lia).
    assert (0 <= (c - lo) / step) by (apply Z.div_pos; lia).
    lia.
Qed.

(** What holds of every mapping of the two tables holds of [upper]. *)
Lemma upper_rect (Q : Z -> list Z -> Prop) :
  (forall c, c < 128 -> Q c [if (97 <=? c) && (c <=? 122) then c - 32 else c]) ->
  (forall e, In e special_upper -> Q e.1 e.2) ->
  (forall e c, In e simple_upper -> In c (row e) -> Q c [c + delta e]) ->
  (forall c, upper c = [c] -> Q c [c]) ->
  forall c, Q c (upper c).
Proof.
  intros Hascii Hspecial Hsimple Hnone c.
  destruct (c <? 128) eqn:E.
  { rewrite upper_unfold, E. apply Hascii. apply Z.ltb_lt in E. exact E. }
  destruct (List.find (fun e => fst e =? c) special_upper) as [e|] eqn:E1.
  { rewrite upper_unfold, E, E1. apply find_some in E1 as [Hin He].
    apply Z.eqb_eq in He. subst c. apply Hspecial, Hin. }
  destruct (List.find (in_row c) simple_upper) as [e|] eqn:E2.
  { rewrite upper_unfold, E, E1, E2. apply find_some in E2 as [Hin He].
    apply (Hsimple e c Hin). apply in_row_In; [|exact He].
    assert (Hall : forallb (fun e => 0 <? e.1.2) simple_upper = true)
      by (vm_compute; reflexivity).
    rewrite forallb_forall in Hall. apply Z.ltb_lt, Hall, Hin. }
  assert (Eu : upper c = [c]) by (rewrite upper_unfold, E, E1, E2; reflexivity).
  rewrite Eu. apply Hnone, Eu.
Qed.

Lemma upper_ascii c :
  c < 128 -> upper c = [if (97 <=? c) && (c <=? 122) then c - 32 else c].
Proof. intros H. unfold upper. apply Z.ltb_lt in H. rewrite H. reflexivity. Qed.

(** The upper case of a letter of upper case is the letter. *)
Lemma upper_upper c : flat_map upper (upper c) = upper c.
Proof.
  apply (upper_rect (fun _ l => flat_map upper l = l)).
  - intros d Hd. cbn [flat_map]. rewrite app_nil_r.
    destruct ((97 <=? d) && (d <=? 122)) eqn:E.
    + apply andb_prop in E as [E1 E2]. apply Z.leb_le in E1, E2.
      rewrite upper_ascii by lia.
      destruct (97 <=? d - 32) eqn:E3; [apply Z.leb_le in E3; lia | reflexivity].
    + rewrite upper_ascii by lia. rewrite E. reflexivity.
  - assert (Hall : forallb (fun e => same (flat_map upper e.2) e.2) special_upper = true)
      by (vm_compute; reflexivity).
    rewrite forallb_forall in Hall. intros e He. exact (bool_decide_eq_true_1 _ (Hall e He)).
  - assert (Hall : forallb (fun e => forallb (fun c => same (upper (c + delta e)) [c + delta e])
                                       (row e)) simple_upper = true)
      by (vm_compute; reflexivity).
    rewrite forallb_forall in Hall. intros e d He Hd. specialize (Hall e He).
    rewrite forallb_forall in Hall. cbn [flat_map]. rewrite app_nil_r.
    exact (bool_decide_eq_true_1 _ (Hall d Hd)).
  - intros d Hd. cbn [flat_map]. rewrite app_nil_r. exact Hd.
Qed.

Lemma upper_stray c : is_point c = false -> upper c = [c].
Proof.
  intros H. apply is_point_false in H. revert H.
  apply (upper_rect (fun c l => c < 0 \/ 1114112 <= c -> l = [c])).
  - intros d Hd [H|H]; [|lia].
    destruct (97 <=? d) eqn:E; [apply Z.leb_le in E; lia | reflexivity].
  - assert (Hall : forallb (fun e => is_point e.1) special_upper = true)
      by (vm_compute; reflexivity).
    rewrite forallb_forall in Hall. intros e He H. apply is_point_false in H.
    rewrite (Hall e He) in H. discriminate.
  - assert (Hall : forallb (fun e => forallb is_point (row e)) simple_upper = true)
      by (vm_compute; reflexivity).
    rewrite forallb_forall in Hall. intros e d He Hd H. apply is_point_false in H.
    specialize (Hall e He). rewrite forallb_forall in Hall. rewrite (Hall d Hd) in H.
    discriminate.
  - reflexivity.
Qed.

Lemma upper_points c : is_point c = true -> forallb is_point (upper c) = true.
Proof.
  apply (upper_rect (fun c l => is_point c = true -> forallb is_point l = true)).
  - intros d Hd H. apply is_point_range in H. cbn [forallb]. rewrite andb_true_r.
    apply is_point_range. destruct (_ && _) eqn:E; [|lia].
    apply andb_prop in E as [E1 E2]. apply Z.leb_le in E1, E2. lia.
  - assert (Hall : forallb (fun e => forallb is_point e.2) special_upper = true)
      by (vm_compute; reflexivity).
    rewrite forallb_forall in Hall. intros e He _. apply Hall, He.
  - assert (Hall : forallb (fun e => forallb (fun c => is_point (c + delta e)) (row e))
                     simple_upper = true)
      by (vm_compute; reflexivity).
    rewrite forallb_forall in Hall. intros e d He Hd _. specialize (Hall e He).
    rewrite forallb_forall in Hall. cbn [forallb]. rewrite (Hall d Hd). reflexivity.
  - intros d _ H. cbn [forallb]. rewrite H. reflexivity.
Qed.

Lemma is_ws_false c : is_ws c = false <-> ~ In c WhiteSpace.
Proof.
  rewrite <- is_ws_In. destruct (is_ws c); split; congruence.
Qed.

(** White space has no other case, and no letter has it for its upper
    case. *)
Lemma upper_ws c : forallb (fun d => Bool.eqb (is_ws d) (is_ws c)) (upper c) = true.
Proof.
  apply (upper_rect (fun c l => forallb (fun d => Bool.eqb (is_ws d) (is_ws c)) l = true)).
  - intros d Hd. cbn [forallb]. rewrite andb_true_r. apply Bool.eqb_true_iff.
    destruct (_ && _) eqn:E; [|reflexivity].
    apply andb_prop in E as [E1 E2]. apply Z.leb_le in E1, E2.
    transitivity false; [|symmetry]; apply is_ws_false; unfold WhiteSpace; simpl;
      intuition lia.
  - assert (Hall : forallb (fun e => forallb (fun d => Bool.eqb (is_ws d) (is_ws e.1)) e.2)
                     special_upper = true)
      by (vm_compute; reflexivity).
    rewrite forallb_forall in Hall. intros e He. apply Hall, He.
  - assert (Hall : forallb (fun e => forallb (fun c => Bool.eqb (is_ws (c + delta e)) (is_ws c))
                                       (row e)) simple_upper = true)
      by (vm_compute; reflexivity).
    rewrite forallb_forall in Hall. intros e d He Hd. specialize (Hall e He).
    rewrite forallb_forall in Hall. cbn [forallb]. rewrite (Hall d Hd). reflexivity.
  - intros d _. cbn [forallb]. rewrite Bool.eqb_reflx. reflexivity.
Qed.

(** *** Trimmed lists *)

Lemma trim_start_clean l : clean (trim_start l).
Proof.
  induction l as [|c l IH]; simpl; [exact I|].
  destruct (is_ws c) eqn:E; [exact IH | exact E].
Qed.

Lemma trim_start_id l : clean l -> trim_start l = l.
Proof. destruct l as [|c l]; simpl; [reflexivity|]. intros ->. reflexivity. Qed.

Lemma trim_start_suffix l : exists pre, l = (pre ++ trim_start l)%list.
Proof.
  induction l as [|c l [pre IH]]; simpl; [exists []; reflexivity|].
  destruct (is_ws c); [|exists []; reflexivity].
  exists (c :: pre). simpl. f_equal. exact IH.
Qed.

Lemma trim_end_clean l : clean l -> clean (rev (trim_start (rev l))).
Proof.
  intros Hl. destruct (trim_start_suffix (rev l)) as [pre E].
  assert (El : l = (rev (trim_start (rev l)) ++ rev pre)%list).
  { rewrite <- rev_app_distr, <- E, rev_involutive. reflexivity. }
  destruct (rev (trim_start (rev l))) as [|c r]; [exact I|].
  rewrite El in Hl. exact Hl.
Qed.

Lemma trim_points_clean l : clean (trim_points l) /\ clean (rev (trim_points l)).
Proof.
  unfold trim_points. split.
  - apply trim_end_clean, trim_start_clean.
  - rewrite rev_involutive. apply trim_start_clean.
Qed.

Lemma trim_points_id l : clean l -> clean (rev l) -> trim_points l = l.
Proof.
  intros H1 H2. unfold trim_points.
  rewrite (trim_start_id l H1), (trim_start_id _ H2). apply rev_involutive.
Qed.

Lemma clean_flat_map (g : Z -> list Z) l :
  (forall c, is_ws c = false -> g c <> [] /\ forall d, In d (g c) -> is_ws d = false) ->
  clean l -> clean (flat_map g l).
Proof.
  intros Hg. destruct l as [|c l]; [auto|]. simpl. intros Hc.
  destruct (Hg c Hc) as [Hne Hall]. destruct (g c) as [|d r]; [destruct (Hne eq_refl)|].
  simpl. apply Hall. left. reflexivity.
Qed.

Lemma flat_map_rev {A B} (g : A -> list B) l :
  rev (flat_map g l) = flat_map (fun x => rev (g x)) (rev l).
Proof.
  induction l as [|x l IH]; [reflexivity|]. simpl.
  rewrite rev_app_distr, flat_map_app, IH. simpl. rewrite app_nil_r. reflexivity.
Qed.

Lemma upper_not_ws c :
  is_ws c = false -> upper c <> [] /\ forall d, In d (upper c) -> is_ws d = false.
Proof.
  intros Hc. split; [apply upper_nonempty|]. intros d Hd.
  pose proof (upper_ws c) as H. rewrite forallb_forall in H.
  specialize (H d Hd). apply Bool.eqb_prop in H. rewrite H. exact Hc.
Qed.

Lemma flat_map_upper_upper l : flat_map upper (flat_map upper l) = flat_map upper l.
Proof.
  induction l as [|c l IH]; [reflexivity|]. simpl.
  rewrite flat_map_app, upper_upper, IH. reflexivity.
Qed.

Lemma points_text l : decoded l -> points (text l) = l.
Proof.
  intros H. unfold points, text. rewrite list_ascii_of_string_of_list_ascii. exact H.
Qed.

Lemma decoded_upper l : decoded l -> decoded (flat_map upper l).
Proof.
  apply decoded_mapped.
  - intros c Hc. split; [apply upper_nonempty | apply upper_points, Hc].
  - apply upper_stray.
Qed.

(** The code points of [s.trim()] and of [s.toUpperCase()]. *)
Lemma points_trim s : points (trim s) = trim_points (points s).
Proof. apply (points_text (trim_points (points s))), decoded_trim_points, decoded_decode. Qed.

Lemma points_toUpperCase s : points (toUpperCase s) = flat_map upper (points s).
Proof. apply points_text, decoded_upper, decoded_decode. Qed.

Lemma normal_symbol s :
  toUpperCase (toUpperCase (trim s)) = toUpperCase (trim s) /\
  trim (toUpperCase (trim s)) = toUpperCase (trim s).
Proof.
  split.
  - unfold toUpperCase at 1. rewrite points_toUpperCase, flat_map_upper_upper.
    reflexivity.
  - change (trim (toUpperCase (trim s)))
      with (text (trim_points (points (toUpperCase (trim s))))).
    rewrite points_toUpperCase, points_trim.
    destruct (trim_points_clean (points s)) as [H1 H2].
    rewrite trim_points_id; [unfold toUpperCase; rewrite points_trim; reflexivity | |].
    + apply clean_flat_map; [apply upper_not_ws | exact H1].
    + rewrite flat_map_rev. apply clean_flat_map; [|exact H2].
      intros c Hc. destruct (upper_not_ws c Hc) as [Hne Hall]. split.
      * intros E. apply Hne. rewrite <- (rev_involutive (upper c)), E. reflexivity.
      * intros d Hd. apply Hall, in_rev, Hd.
Qed.

(** White space of any script is trimmed, a letter of any script has its
    upper case, and the history is asked for by the upper case too: after
    a purchase of [ss], asking for [ß] finds it. *)
Example symbols_of_other_scripts :
  trimmedSymbol_of (order "buy" (text [160; 104; 111; 103; 65279]) 10 120) = "HOG" /\
  trimmedSymbol_of (order "buy" (text [115; 116; 114; 97; 223; 101]) 10 120) = "STRASSE" /\
  (handleTrade ann0 "ann" (order "buy" (text [8232; 12288]) 10 120) "id" "t").1
  = InvalidSymbol /\
  match (handleHistory (handleTrade ann0 "ann" (order "buy" "ss" 1 2) "id" "t").2 "ann"
           (Some (text [223]))).1 with
  | HistoryOk (VArr [e]) => lookup_prop e "symbol"
  | _ => VUndef
  end = VStr "SS".
Proof. repeat split; vm_compute; reflexivity. Qed.

(** X19. The symbol of a trade is stored in a normal form: trimming and
    upper-casing it again changes nothing, so the entry of a trade is
    found by [handleHistory] under its own symbol, and a trade that names
    the symbol as it is stored is the same trade as the one that named it
    in any other spelling. *)
Theorem symbol_normal_form body raw :
  lookup_prop body "symbol" = VStr raw ->
  toUpperCase (trimmedSymbol_of body) = trimmedSymbol_of body /\
  trim (trimmedSymbol_of body) = trimmedSymbol_of body /\
  forall body' s name id timestamp,
    lookup_prop body' "symbol" = VStr (trimmedSymbol_of body) ->
    lookup_prop body' "type" = lookup_prop body "type" ->
    lookup_prop body' "quantity" = lookup_prop body "quantity" ->
    lookup_prop body' "price" = lookup_prop body "price" ->
    handleTrade s name body' id timestamp = handleTrade s name body id timestamp.
Proof.
  intros Hraw. unfold trimmedSymbol_of at 1 2 3 4. rewrite Hraw.
  destruct (normal_symbol raw) as [Hu Ht].
  split; [exact Hu|]. split; [exact Ht|].
  intros body' s name id ts Hs Hty Hq Hp.
  assert (Es : trimmedSymbol_of body' = trimmedSymbol_of body).
  { unfold trimmedSymbol_of at 1. rewrite Hs. unfold trimmedSymbol_of. rewrite Hraw.
    rewrite Ht. exact Hu. }
  unfold handleTrade.
  rewrite (nullish_lookup body _ _ Hraw), (nullish_lookup body' _ _ Hs).
  rewrite Hty, Hq, Hp, Es. reflexivity.
Qed.

Lemma symbol_normal_form_witness :
  trimmedSymbol_of (order "buy" " hog " 10 120) = "HOG" /\
  handleTrade (file ann_logged_in) "ann" (order "buy" "HOG" 10 120) "id-1" "t"
  = handleTrade (file ann_logged_in) "ann" (order "buy" " hog " 10 120) "id-1" "t".
Proof.
  assert (E : trimmedSymbol_of (order "buy" " hog " 10 120) = "HOG")
    by (vm_compute; reflexivity).
  split; [exact E|].
  destruct (symbol_normal_form (order "buy" " hog " 10 120) " hog ") as (_ & _ & H);
    [reflexivity|].
  apply H; [rewrite E|..]; reflexivity.
Defined.

(** X20. The names that every object inherits cannot be registered:
    [users[username]] finds a function under [constructor], [toString],
    [__proto__] and the like, so that, in whatever state the server comes
    to be in, a registration under such a name is answered that the user
    exists, and changes nothing. *)
Theorem inherited_names_unavailable w body name :
  running w -> lookup_prop body "username" = VStr name -> inherited name = true ->
  truthy (lookup_prop body "password") = true ->
  api_register w (Some body) = (Ledger UserExists, w).
Proof.
  intros Hr Hn Hi Tp. apply running_ok in Hr. pose proof (ok_file w Hr) as Hf.
  assert (Hne : name <> "") by (intros ->; discriminate).
  unfold api_register, handleRegister.
  rewrite (nullish_lookup body _ _ Hn), Hn, Tp. simpl truthy.
  rewrite (bool_decide_eq_false_2 _ Hne). cbn [negb orb].
  rewrite (file_ok_readUsers _ Hf). cbn [ToString unprintable text_of].
  unfold finds_inherited. rewrite Hi. cbn [andb].
  destruct (file w !! name) as [u|] eqn:Hk.
  - rewrite (bool_decide_eq_false_2 (Some u = None)) by discriminate.
    destruct (file_ok_truthy _ _ _ Hf Hk) as [o ->]. simpl. rewrite with_file_same.
    reflexivity.
  - rewrite bool_decide_eq_true_2 by reflexivity. simpl.
    rewrite with_file_same. reflexivity.
Qed.

Lemma inherited_names_unavailable_witness :
  api_register ann_logged_in (Some (credentials "toString" (VStr "secret")))
  = (Ledger UserExists, ann_logged_in).
Proof.
  apply (inherited_names_unavailable ann_logged_in _ "toString" ann_logged_in_running);
    reflexivity.
Defined.

(** X21. The holdings can be read off the history: in whatever state the
    server comes to be in, the position of the holding of a symbol is the
    [positionAfter] of the newest entry of that symbol, and a symbol has no
    holding where that position is zero or where no entry names it. *)
Theorem holdings_match_history w name u symbol :
  running w -> file w !! name = Some u ->
  lookup_prop (lookup_prop (lookup_prop u "holdings") symbol) "position"
  = match newest symbol (lookup_prop u "history") with
    | Some entry => position_shown (lookup_prop entry "positionAfter")
    | None => VUndef
    end.
Proof.
  intros Hr Hk. apply running_ok in Hr.
  exact (file_ok_positions _ _ _ (ok_file w Hr) Hk symbol).
Qed.

Lemma holdings_match_history_witness :
  lookup_prop (lookup_prop (lookup_prop (account (file ann_advised) "ann") "holdings") "HOG")
    "position" = VNum 10 /\
  lookup_prop (lookup_prop (lookup_prop (account (file ann_advised) "ann") "holdings") "GOLD")
    "position" = VUndef.
Proof.
  assert (Hk : file ann_advised !! "ann" = Some (account (file ann_advised) "ann"))
    by (vm_compute; reflexivity).
  split.
  - rewrite (holdings_match_history _ _ _ "HOG" ann_advised_running Hk).
    vm_compute. reflexivity.
  - rewrite (holdings_match_history _ _ _ "GOLD" ann_advised_running Hk).
    vm_compute. reflexivity.
Defined.

(** *** Insights that are not due *)

Lemma bindM_step {A B} (m : M A) (k : A -> M B) c a c' :
  m c = Ok (a, c') -> bindM m k c = k a c'.
Proof. intros H. unfold bindM. rewrite H. reflexivity. Qed.

Lemma ensureSymbol_stored rt ai symbol st c :
  ai !! symbol = Some st -> truthy st = true ->
  ensureSymbol rt (VObj ai) symbol c = Ok (VObj ai, c).
Proof.
  intros Hs T. unfold ensureSymbol, bindM, liftM. simpl. rewrite Hs. simpl. rewrite T.
  reflexivity.
Qed.

Lemma ensureEntries_array so l c :
  so !! "entries" = Some (VArr l) -> ensureEntries (VObj so) c = Ok (VObj so, c).
Proof. intros Hl. unfold ensureEntries, bindM, liftM. simpl. rewrite Hl. reflexivity. Qed.

Lemma ensureFirst_some rt symbol so l c :
  so !! "entries" = Some (VArr l) -> l <> [] ->
  ensureFirst rt symbol (VObj so) c = Ok (VObj so, c).
Proof.
  intros Hl Hne. unfold ensureFirst, bindM, liftM. simpl. rewrite Hl. simpl.
  rewrite (bool_decide_eq_false_2 _ Hne). reflexivity.
Qed.

Lemma ensureNextRefresh_set rt so next c :
  so !! "nextRefreshAt" = Some next -> truthy next = true ->
  ensureNextRefresh rt (VObj so) c = Ok (VObj so, c).
Proof.
  intros Hn T. unfold ensureNextRefresh, bindM, liftM. simpl. rewrite Hn. simpl. rewrite T.
  reflexivity.
Qed.

Lemma rollAiState_not_due rt so iso iso' symbol c :
  so !! "nextRefreshAt" = Some (VStr iso) -> iso <> "" ->
  is_nan (parse rt (VStr iso)) = false ->
  (parse rt (VStr iso) <=? now rt (clock_calls c))%float = false ->
  toISOString rt (parse rt (VStr iso)) = Ok iso' ->
  rollAiState rt (VObj so) symbol c
  = Ok (VObj (<["nextRefreshAt" := VStr iso']> so),
        {| clock_calls := S (clock_calls c); random_calls := random_calls c;
           insight_calls := insight_calls c |}).
Proof.
  intros Hn Hiso Hnan Hdue Hto. unfold rollAiState, bindM, liftM, Date_now, or_else. simpl.
  rewrite Hn. simpl. rewrite (bool_decide_eq_false_2 _ Hiso). simpl.
  rewrite Hnan. unfold retM. rewrite Hdue, Hto. reflexivity.
Qed.

Lemma refresh_not_due rt o ai symbol so l iso iso' :
  o !! "aiInsights" = Some (VObj ai) -> ai !! symbol = Some (VObj so) ->
  so !! "entries" = Some (VArr l) -> l <> [] ->
  so !! "nextRefreshAt" = Some (VStr iso) -> iso <> "" ->
  is_nan (parse rt (VStr iso)) = false ->
  (parse rt (VStr iso) <=? now rt 0)%float = false ->
  toISOString rt (parse rt (VStr iso)) = Ok iso' ->
  exists c,
    refresh rt (defaultAiInsights o) symbol no_calls
    = Ok (<["aiInsights" := VObj (<[symbol := VObj (<["nextRefreshAt" := VStr iso']> so)]> ai)]> o,
          VObj (<["nextRefreshAt" := VStr iso']> so), c) /\
    insight_calls c = 0%nat.
Proof.
  intros Hai Hs Hl Hne Hn Hiso Hnan Hdue Hto.
  assert (Ti : truthy (VStr iso) = true).
  { simpl. rewrite bool_decide_eq_false_2 by exact Hiso. reflexivity. }
  assert (Ea : lookup_prop (VObj o) "aiInsights" = VObj ai) by (simpl; rewrite Hai; reflexivity).
  assert (Ee : ensureAiState rt o symbol no_calls
               = Ok (<["aiInsights" := VObj (<[symbol := VObj so]> ai)]> o, VObj so, no_calls)).
  { unfold ensureAiState. rewrite (defaultAiInsights_object o ai Hai), Ea.
    rewrite (bindM_step _ _ _ _ _ (ensureSymbol_stored rt ai symbol _ _ Hs eq_refl)).
    assert (Eg : liftM (get_prop (VObj ai) symbol) no_calls = Ok (VObj so, no_calls)).
    { unfold liftM. simpl. rewrite Hs. reflexivity. }
    rewrite (bindM_step _ _ _ _ _ Eg).
    rewrite (bindM_step _ _ _ _ _ (ensureEntries_array so l _ Hl)).
    rewrite (bindM_step _ _ _ _ _ (ensureFirst_some rt symbol so l _ Hl Hne)).
    rewrite (bindM_step _ _ _ _ _ (ensureNextRefresh_set rt so _ _ Hn Ti)).
    reflexivity. }
  eexists. unfold refresh. rewrite (defaultAiInsights_object o ai Hai).
  rewrite (bindM_step _ _ _ _ _ Ee).
  rewrite (bindM_step _ _ _ _ _
             (rollAiState_not_due rt so iso iso' symbol no_calls Hn Hiso Hnan Hdue Hto)).
  unfold bindM, liftM, retM. simpl. rewrite lookup_insert_eq. simpl.
  rewrite !insert_insert_eq. split; reflexivity.
Qed.

(** X22. Insights are kept until their refresh is due: when the state
    stored for the symbol names a time of refresh that [Date.parse] reads
    as later than the clock, the request answers the entries stored, makes
    no new insight, and names the same time again, as [toISOString]
    prints it. *)
Theorem insights_kept_until_due w h symbolParam rt user name o ai so l iso iso' :
  running w -> authenticate w h = Some user -> ToString user = Ok name ->
  file w !! name = Some (VObj o) -> o !! "aiInsights" = Some (VObj ai) ->
  ai !! insights_symbol symbolParam = Some (VObj so) ->
  so !! "entries" = Some (VArr l) -> so !! "nextRefreshAt" = Some (VStr iso) ->
  iso <> "" -> is_nan (parse rt (VStr iso)) = false ->
  (parse rt (VStr iso) <=? now rt 0)%float = false ->
  toISOString rt (parse rt (VStr iso)) = Ok iso' ->
  (handleAiInsights w h symbolParam rt).1
  = InsightsOk (insights_symbol symbolParam) (VArr l) (VStr iso') /\
  exists user' state c,
    refresh rt (defaultAiInsights o) (insights_symbol symbolParam) no_calls
    = Ok (user', state, c) /\ insight_calls c = 0%nat.
Proof.
  intros Hr Ha En Hk Hai Hs Hl Hn Hiso Hnan Hdue Hto.
  apply running_ok in Hr. pose proof Hr as [Hf _ Hu _].
  assert (Hne : truthy user = true).
  { apply authenticate_Some in Ha as (t & s & _ & _ & Ht & <-). apply (Hu t s Ht). }
  assert (Hl' : l <> []).
  { destruct (file_ok_record _ _ _ Hf Hk) as (_ & _ & _ & Hi).
    destruct (Hi ai (insights_symbol symbolParam) (VObj so)) as (so' & l' & ? & E & Hl0 & Hne' & _);
      [simpl; rewrite Hai; reflexivity | exact Hs|].
    inversion E. subst so'. rewrite Hl in Hl0. inversion Hl0. subst l'. exact Hne'. }
  destruct (refresh_not_due rt o ai _ so l iso iso' Hai Hs Hl Hl' Hn Hiso Hnan Hdue Hto)
    as (c & Er & Ec).
  split; [|eauto].
  unfold handleAiInsights, withAuth. rewrite Ha, Hne.
  rewrite (file_ok_readUsers _ Hf), with_file_same.
  rewrite (account_name_found _ _ _ _ En Hk), Hk.
  cbn [default from_option]. unfold Datatypes.id.
  cbv beta iota zeta. rewrite Er. cbn [fst lookup_prop].
  rewrite lookup_insert_ne, lookup_insert_eq, Hl by discriminate. reflexivity.
Qed.

Lemma insights_kept_until_due_witness :
  (handleAiInsights ann_advised (Some "Bearer token-1") (Some "hog") patient).1
  = InsightsOk "HOG" (VArr ann_hog_entries) (VStr "2024-01-02T00:00:00.000Z") /\
  length ann_hog_entries = 3%nat.
Proof.
  split; [|vm_compute; reflexivity].
  assert (H1 : authenticate ann_advised (Some "Bearer token-1") = Some (VStr "ann"))
    by (vm_compute; reflexivity).
  assert (H0 : ToString (VStr "ann") = Ok "ann") by reflexivity.
  assert (H2 : file ann_advised !! "ann" = Some (VObj ann_record))
    by (vm_compute; reflexivity).
  assert (H3 : ann_record !! "aiInsights" = Some (VObj ann_insights))
    by (vm_compute; reflexivity).
  assert (H4 : ann_insights !! insights_symbol (Some "hog") = Some (VObj ann_hog))
    by (vm_compute; reflexivity).
  assert (H5 : ann_hog !! "entries" = Some (VArr ann_hog_entries))
    by (vm_compute; reflexivity).
  assert (H6 : ann_hog !! "nextRefreshAt" = Some (VStr "2024-01-01T18:00:00.000Z"))
    by (vm_compute; reflexivity).
  destruct (insights_kept_until_due ann_advised (Some "Bearer token-1") (Some "hog") patient
              (VStr "ann") "ann" ann_record ann_insights ann_hog ann_hog_entries
              "2024-01-01T18:00:00.000Z" "2024-01-02T00:00:00.000Z"
              ann_advised_running H1 H0 H2 H3 H4 H5 H6) as [H _];
    [discriminate | reflexivity | reflexivity | reflexivity |].
  exact H.
Defined.
